(** * play-api: the generic CRUD resource framework

    A shallow embedding of the Go sources

      - [meta/base_resource.go]   (the resource metadata contract),
      - [apiv1/user.go]           (the [User] resource),
      - [internal/dao.go]         (the generic data-access object),
      - [internal/router.go]      ([Router] and its handlers),
      - [internal/resource.go]    ([RegisterResource] and its handlers),

    followed by the properties established about them.

    Conventions.  A Go method with a pointer receiver that mutates the
    receiver becomes a function returning the new value of the receiver; a
    method that also returns an [error] returns the pair of the new receiver
    and an [option error] ([None] is Go's [nil]).  The receiver is returned
    even when the error is set, because the Go code has already mutated it
    in place by then.  Go's [int] is the 64-bit signed integer, written as a
    [Z] with its wrap-around spelled out; [uint] is a [N]; a [string] is a
    sequence of bytes; a [map[string]string] that may be [nil] is an
    [option (gmap string string)]. *)

From Stdlib Require Import ZArith NArith Lia List Bool Ascii String Sorted.
From stdpp Require Import base option list strings gmap pretty.

Local Open Scope string_scope.

(** ** The Go runtime and standard library, as far as the sources use them *)

Module golang.

(** The values of Go's [error] interface that occur in the sources.
    [gorm.ErrRecordNotFound] is a sentinel compared with [==]; an error
    built by [errors.New] (or coming back from [bcrypt]) carries only its
    message; [StoreFault] stands for every other error the store reports
    (a constraint violation, an unknown column, ...). *)
Inductive error : Type :=
| errors_New (msg : string)
| ErrRecordNotFound
| StoreFault (msg : string).

(** [err.Error()] *)
Definition Error (e : error) : string :=
  match e with
  | errors_New msg => msg
  | ErrRecordNotFound => "record not found"
  | StoreFault msg => msg
  end.

(** [err == gorm.ErrRecordNotFound] *)
Definition is_ErrRecordNotFound (e : error) : bool :=
  match e with
  | ErrRecordNotFound => true
  | _ => false
  end.

(** Two's-complement wrap-around of the 64-bit [int]. *)
Definition wrap_int (z : Z) : Z :=
  ((z + 2 ^ 63) mod 2 ^ 64 - 2 ^ 63)%Z.

Definition maxUint64 : N := (2 ^ 64 - 1)%N.

(** [s == ""] *)
Definition is_empty (s : string) : bool :=
  match s with
  | EmptyString => true
  | String _ _ => false
  end.

(** [strings.HasPrefix(s, prefix)] *)
Definition HasPrefix (s prefix : string) : bool := String.prefix prefix s.

(** What the sources draw from the outside world during one call:
    [uuid.New().String()] and [time.Now()] (a [time.Time] is a count of
    nanoseconds, [0] being the zero [Time]). *)
Record Env : Type := MkEnv {
  uuid_New : string;
  time_Now : Z
}.

End golang.

(** ** [strconv]: [ParseUint] and [Atoi] *)

Module strconv.
Import golang.

Inductive NumError : Type := ErrSyntax | ErrRange | ErrBitSize.

(** [lower(c)] of [strconv]: [c | ('x' - 'X')]. *)
Definition lower (c : N) : N := N.lor c 32.

(** One round of the digit loop of [ParseUint]: the value of the byte as
    a digit, or nothing for a byte that is no digit or letter. *)
Definition digit_val (c : N) : option N :=
  if ((48 <=? c) && (c <=? 57))%N then Some (c - 48)%N
  else if ((97 <=? lower c) && (lower c <=? 122))%N then Some (lower c - 97 + 10)%N
  else None.

(** The loop of [ParseUint] for base 10.  [cutoff] is [maxUint64/10 + 1];
    [n*10] cannot overflow below it, and [n + d] is computed modulo
    [2^64] as the [uint64] addition is. *)
Fixpoint ParseUint_loop (maxVal : N) (s : string) (n : N) : N * option NumError :=
  match s with
  | EmptyString => (n, None)
  | String c s' =>
      match digit_val (N_of_ascii c) with
      | None => (0%N, Some ErrSyntax)
      | Some d =>
          if (10 <=? d)%N then (0%N, Some ErrSyntax)
          else if (maxUint64 / 10 + 1 <=? n)%N then (maxVal, Some ErrRange)
          else
            let n10 := (n * 10)%N in
            let n1 := ((n10 + d) mod 2 ^ 64)%N in
            if ((n1 <? n10) || (maxVal <? n1))%N then (maxVal, Some ErrRange)
            else ParseUint_loop maxVal s' n1
      end
  end.

(** [strconv.ParseUint(s, 10, bitSize)]; every call in the sources passes
    base 10, and [bitSize] is 64 or 32 ([0] means the size of [int]).  The
    underscores and prefixes of base 0 do not arise. *)
Definition ParseUint (s : string) (bitSize : N) : N * option NumError :=
  if is_empty s then (0%N, Some ErrSyntax)
  else if (64 <? bitSize)%N then (0%N, Some ErrBitSize)
  else
    let bitSize := if (bitSize =? 0)%N then 64%N else bitSize in
    ParseUint_loop (2 ^ bitSize - 1)%N s 0%N.

(** [strconv.ParseInt(s, 10, 0)] *)
Definition ParseInt (s : string) : Z * option NumError :=
  match s with
  | EmptyString => (0%Z, Some ErrSyntax)
  | String c rest =>
      let neg := Ascii.eqb c "-" in
      let body := if Ascii.eqb c "+" || neg then rest else s in
      let '(un, err) := ParseUint body 0 in
      match err with
      | Some ErrSyntax => (0%Z, Some ErrSyntax)
      | Some ErrBitSize => (0%Z, Some ErrBitSize)
      | _ =>
          let cutoff := (2 ^ 63)%N in
          if negb neg && (cutoff <=? un)%N then ((2 ^ 63 - 1)%Z, Some ErrRange)
          else if neg && (cutoff <? un)%N then ((- 2 ^ 63)%Z, Some ErrRange)
          else (wrap_int (if neg then - Z.of_N un else Z.of_N un), None)
      end
  end.

(** The fast path of [Atoi]: [ch -= '0'] on a byte wraps modulo 256. *)
Fixpoint Atoi_fast (s : string) (n : Z) : option Z :=
  match s with
  | EmptyString => Some n
  | String c s' =>
      let ch := ((N_of_ascii c + 256 - 48) mod 256)%N in
      if (9 <? ch)%N then None
      else Atoi_fast s' (n * 10 + Z.of_N ch)%Z
  end.

(** [strconv.Atoi(s)] on a 64-bit platform. *)
Definition Atoi (s : string) : Z * option NumError :=
  let sLen := String.length s in
  if (0 <? sLen)%nat && (sLen <? 19)%nat then
    match s with
    | EmptyString => (0%Z, Some ErrSyntax)
    | String c rest =>
        let signed := Ascii.eqb c "-" || Ascii.eqb c "+" in
        let body := if signed then rest else s in
        if signed && is_empty body then (0%Z, Some ErrSyntax)
        else
          match Atoi_fast body 0 with
          | None => (0%Z, Some ErrSyntax)
          | Some n => (if Ascii.eqb c "-" then (- n)%Z else n, None)
          end
    end
  else ParseInt s.

End strconv.

(** ** [meta]: the resource metadata contract *)

Module meta.
Import golang.

Record ResourceStatus : Type := MkResourceStatus {
  Phase : string;
  Message : string;
  Reason : string;
  LastTransitionTime : Z
}.

Record TypeMeta : Type := MkTypeMeta {
  Kind : string;
  APIVersion : string
}.

Record ObjectMeta : Type := MkObjectMeta {
  ID : N;
  UID : string;
  ResourceVersion : Z;
  CreatedAt : Z;
  UpdatedAt : Z;
  Labels : option (gmap string string);
  Annotations : option (gmap string string);
  Status : ResourceStatus
}.

Record BaseResource : Type := MkBaseResource {
  typeMeta : TypeMeta;
  objectMeta : ObjectMeta
}.

(** The zero value of each struct. *)
Definition zeroStatus : ResourceStatus := MkResourceStatus "" "" "" 0.
Definition zeroTypeMeta : TypeMeta := MkTypeMeta "" "".
Definition zeroObjectMeta : ObjectMeta :=
  MkObjectMeta 0 "" 0 0 0 None None zeroStatus.
Definition zeroBaseResource : BaseResource :=
  MkBaseResource zeroTypeMeta zeroObjectMeta.

(** Assignments to single fields, [b.Field = v]. *)
Definition set_Kind (v : string) (b : BaseResource) : BaseResource :=
  MkBaseResource (MkTypeMeta v (APIVersion (typeMeta b))) (objectMeta b).
Definition set_APIVersion (v : string) (b : BaseResource) : BaseResource :=
  MkBaseResource (MkTypeMeta (Kind (typeMeta b)) v) (objectMeta b).

Definition with_objectMeta (f : ObjectMeta -> ObjectMeta) (b : BaseResource)
  : BaseResource :=
  MkBaseResource (typeMeta b) (f (objectMeta b)).

Definition set_ID (v : N) : BaseResource -> BaseResource :=
  with_objectMeta (fun o =>
    MkObjectMeta v (UID o) (ResourceVersion o) (CreatedAt o) (UpdatedAt o)
                 (Labels o) (Annotations o) (Status o)).
Definition set_UID (v : string) : BaseResource -> BaseResource :=
  with_objectMeta (fun o =>
    MkObjectMeta (ID o) v (ResourceVersion o) (CreatedAt o) (UpdatedAt o)
                 (Labels o) (Annotations o) (Status o)).
Definition set_ResourceVersion (v : Z) : BaseResource -> BaseResource :=
  with_objectMeta (fun o =>
    MkObjectMeta (ID o) (UID o) v (CreatedAt o) (UpdatedAt o)
                 (Labels o) (Annotations o) (Status o)).
Definition set_CreatedAt (v : Z) : BaseResource -> BaseResource :=
  with_objectMeta (fun o =>
    MkObjectMeta (ID o) (UID o) (ResourceVersion o) v (UpdatedAt o)
                 (Labels o) (Annotations o) (Status o)).
Definition set_UpdatedAt (v : Z) : BaseResource -> BaseResource :=
  with_objectMeta (fun o =>
    MkObjectMeta (ID o) (UID o) (ResourceVersion o) (CreatedAt o) v
                 (Labels o) (Annotations o) (Status o)).
Definition set_Labels (v : option (gmap string string)) : BaseResource -> BaseResource :=
  with_objectMeta (fun o =>
    MkObjectMeta (ID o) (UID o) (ResourceVersion o) (CreatedAt o) (UpdatedAt o)
                 v (Annotations o) (Status o)).
Definition set_Annotations (v : option (gmap string string)) : BaseResource -> BaseResource :=
  with_objectMeta (fun o =>
    MkObjectMeta (ID o) (UID o) (ResourceVersion o) (CreatedAt o) (UpdatedAt o)
                 (Labels o) v (Status o)).
Definition set_Status (v : ResourceStatus) : BaseResource -> BaseResource :=
  with_objectMeta (fun o =>
    MkObjectMeta (ID o) (UID o) (ResourceVersion o) (CreatedAt o) (UpdatedAt o)
                 (Labels o) (Annotations o) v).

(** The getters. *)
Definition GetID (b : BaseResource) : N := ID (objectMeta b).
Definition GetUID (b : BaseResource) : string := UID (objectMeta b).
Definition GetResourceVersion (b : BaseResource) : Z := ResourceVersion (objectMeta b).
Definition GetKind (b : BaseResource) : string := Kind (typeMeta b).
Definition GetAPIVersion (b : BaseResource) : string := APIVersion (typeMeta b).
Definition GetStatus (b : BaseResource) : ResourceStatus := Status (objectMeta b).

(** [func (b *BaseResource) SetStatus(phase, message, reason string)] *)
Definition SetStatus (env : Env) (phase message reason : string)
    (b : BaseResource) : BaseResource :=
  set_Status (MkResourceStatus phase message reason (time_Now env)) b.

(** [func (b *BaseResource) Validate() error] *)
Definition Validate (b : BaseResource) : option error :=
  if is_empty (GetKind b) then Some (errors_New "kind is required")
  else if is_empty (GetAPIVersion b) then Some (errors_New "apiVersion is required")
  else None.

(** [func (b *BaseResource) BeforeCreate(tx *gorm.DB) error] *)
Definition BeforeCreate (env : Env) (b : BaseResource) : BaseResource * option error :=
  let b := if is_empty (GetUID b) then set_UID (uuid_New env) b else b in
  let b := if (GetResourceVersion b =? 0)%Z then set_ResourceVersion 1 b else b in
  let b := if is_empty (Phase (GetStatus b))
           then SetStatus env "Pending" "Resource is being created" "" b
           else b in
  match Validate b with
  | Some err => (b, Some err)
  | None => (b, None)
  end.

(** [func (b *BaseResource) BeforeUpdate(tx *gorm.DB) error] *)
Definition BeforeUpdate (b : BaseResource) : BaseResource * option error :=
  let b := set_ResourceVersion (wrap_int (GetResourceVersion b + 1)) b in
  match Validate b with
  | Some err => (b, Some err)
  | None => (b, None)
  end.

(** [func (b *BaseResource) BeforeDelete(tx *gorm.DB) error] *)
Definition BeforeDelete (b : BaseResource) : BaseResource * option error :=
  (b, None).

(** [SetMetadata], [GetMetadata], [DeleteMetadata] on the annotations. *)
Definition SetMetadata (key value : string) (b : BaseResource) : BaseResource :=
  let m := match Annotations (objectMeta b) with
           | None => ∅
           | Some m => m
           end in
  set_Annotations (Some (<[key := value]> m)) b.

Definition GetMetadata (key : string) (b : BaseResource) : string * bool :=
  match Annotations (objectMeta b) with
  | None => ("", false)
  | Some m =>
      match m !! key with
      | Some value => (value, true)
      | None => ("", false)
      end
  end.

Definition DeleteMetadata (key : string) (b : BaseResource) : BaseResource :=
  match Annotations (objectMeta b) with
  | None => b
  | Some m => set_Annotations (Some (delete key m)) b
  end.

End meta.

(** ** [gorm] over SQLite: the store, as far as the sources use it

    The store is an external collaborator.  This module records the
    behaviour of the calls the sources make on [*gorm.DB]:

      - a table is the sequence of its rows in the order a scan returns
        them (ascending primary key) with the largest key ever used,
        from which an [AUTOINCREMENT] key continues;
      - [Create], [Updates], [Save] and [Delete] first run the hook of that
        name on the value handed in, and when the hook returns an error
        they report it and leave the table alone;
      - [Updates] with a struct writes its non-zero fields, [Save] writes
        every field, both stamp the update time;
      - [Limit] with a negative count and [Offset] with a count that is not
        positive add no clause to the query, and [Limit(0)] selects no
        row;
      - identifiers stay within the range of the integer keys of the
        store;
      - a condition [column = ?] names its column without regard to the
        case of ASCII letters, compares a text column with the parameter
        byte by byte, and compares an integer column with the number the
        parameter denotes when it is a numeric literal;
      - [Transaction] keeps the writes of the function it runs when that
        function returns [nil] and drops them otherwise. *)

Module gorm.
Import golang.

Record Table (T : Type) : Type := MkTable {
  rows : list T;
  seq : N
}.
Arguments MkTable {T} _ _.
Arguments rows {T} _.
Arguments seq {T} _.

(** What [gorm] derives from a model type [T] by reflection: its primary
    key, the hooks it implements (a type without a hook has the hook
    that changes nothing and returns [nil]), the fields written by an
    [INSERT] and an [UPDATE], its columns, and the uniqueness constraints
    of its table other than the primary key. *)
Class Model (T : Type) : Type := MkModel {
  zero : T;
  primaryKey : T -> N;
  set_primaryKey : N -> T -> T;
  hookBeforeCreate : Env -> T -> T * option error;
  hookBeforeUpdate : Env -> T -> T * option error;
  hookBeforeDelete : Env -> T -> T * option error;
  (** the value as inserted: automatic timestamps, column defaults *)
  on_insert : Env -> T -> T;
  (** the value after the update time has been stamped on it *)
  on_update : Env -> T -> T;
  (** [assign row v]: [row] after [UPDATE ... SET] with the non-zero
      fields of [v] other than the primary key *)
  assign : T -> T -> T;
  (** [replace row v]: [row] after [UPDATE ... SET] with every field of
      [v] other than the primary key *)
  replace : T -> T -> T;
  has_column : string -> bool;
  (** [column_eq c v row]: the row satisfies [c = ?] for parameter [v] *)
  column_eq : string -> string -> T -> bool;
  (** [conflict r1 r2]: the message of the uniqueness constraint that two
      rows with different keys break when they are [r1] and [r2] *)
  conflict : T -> T -> option string
}.

(** [result.Error], [result.RowsAffected] *)
Record Result : Type := MkResult {
  Error : option error;
  RowsAffected : Z
}.

Section Store.
Context {T : Type} {M : Model T}.

Definition has_key (id : N) (row : T) : bool := (primaryKey row =? id)%N.

(** The position of a new row in scan order. *)
Fixpoint place (r : T) (l : list T) : list T :=
  match l with
  | [] => [r]
  | x :: l' =>
      if (primaryKey r <? primaryKey x)%N then r :: x :: l'
      else x :: place r l'
  end.

(** The constraint a written row breaks against the other rows of the
    table, if any; a statement that writes no row breaks none. *)
Fixpoint clash (w : T) (l : list T) : option string :=
  match l with
  | [] => None
  | o :: l' =>
      if has_key (primaryKey w) o then clash w l'
      else
        match conflict w o with
        | Some msg => Some msg
        | None => clash w l'
        end
  end.

Fixpoint violation (written all : list T) : option string :=
  match written with
  | [] => None
  | w :: written' =>
      match clash w all with
      | Some msg => Some msg
      | None => violation written' all
      end
  end.

(** The [INSERT] itself, after the hooks: a zero key is drawn from the
    sequence, a key already in the table is refused. *)
Definition insert (env : Env) (t : Table T) (r : T) : Table T * T * option error :=
  let r := on_insert env r in
  let id := if (primaryKey r =? 0)%N then (seq t + 1)%N else primaryKey r in
  if existsb (has_key id) (rows t) then
    (t, r, Some (StoreFault "UNIQUE constraint failed: id"))
  else
    let r' := set_primaryKey id r in
    let rows' := place r' (rows t) in
    match violation [r'] rows' with
    | Some msg => (t, r, Some (StoreFault msg))
    | None => (MkTable rows' (N.max (seq t) id), r', None)
    end.

(** [db.Create(&value)] *)
Definition Create (env : Env) (t : Table T) (value : T) : Table T * T * option error :=
  let '(value, err) := hookBeforeCreate env value in
  match err with
  | Some e => (t, value, Some e)
  | None => insert env t value
  end.

(** [db.First(&dest, id)] *)
Definition First (t : Table T) (dest : T) (id : N) : T * option error :=
  match List.find (has_key id) (rows t) with
  | Some row => (row, None)
  | None => (dest, Some ErrRecordNotFound)
  end.

(** The rows selected by [WHERE id = ?] together with the condition
    [gorm] adds on the primary key of the model value when that key is
    not zero. *)
Definition selected (id : N) (value : T) (row : T) : bool :=
  has_key id row && ((primaryKey value =? 0)%N || has_key (primaryKey value) row).

Definition count_rows (p : T -> bool) (l : list T) : Z :=
  Z.of_nat (List.length (List.filter p l)).

(** [db.Model(value).Where("id = ?", id).Updates(value)] *)
Definition Updates (env : Env) (t : Table T) (id : N) (value : T)
  : Table T * T * Result :=
  let '(value, err) := hookBeforeUpdate env value in
  match err with
  | Some e => (t, value, MkResult (Some e) 0)
  | None =>
      let value := on_update env value in
      let rows' :=
        List.map (fun row => if selected id value row then assign row value else row)
                 (rows t) in
      let written :=
        List.map (fun row => assign row value)
                 (List.filter (selected id value) (rows t)) in
      match violation written rows' with
      | Some msg => (t, value, MkResult (Some (StoreFault msg)) 0)
      | None =>
          (MkTable rows' (seq t), value,
           MkResult None (count_rows (selected id value) (rows t)))
      end
  end.

(** [db.Save(&value)]: an [INSERT] for a zero primary key; otherwise an
    [UPDATE] of every column of the row with that key and, when there
    is no such row, an [INSERT] without hooks. *)
Definition Save (env : Env) (t : Table T) (value : T) : Table T * T * option error :=
  if (primaryKey value =? 0)%N then Create env t value
  else
    let '(value, err) := hookBeforeUpdate env value in
    match err with
    | Some e => (t, value, Some e)
    | None =>
        let value := on_update env value in
        let key := primaryKey value in
        if existsb (has_key key) (rows t) then
          let rows' :=
            List.map (fun row => if has_key key row then replace row value else row)
                     (rows t) in
          let written :=
            List.map (fun row => replace row value)
                     (List.filter (has_key key) (rows t)) in
          match violation written rows' with
          | Some msg => (t, value, Some (StoreFault msg))
          | None => (MkTable rows' (seq t), value, None)
          end
        else insert env t value
    end.

(** [db.Delete(&value, id)] *)
Definition Delete (env : Env) (t : Table T) (value : T) (id : N)
  : Table T * T * Result :=
  let '(value, err) := hookBeforeDelete env value in
  match err with
  | Some e => (t, value, MkResult (Some e) 0)
  | None =>
      (MkTable (List.filter (fun row => negb (selected id value row)) (rows t)) (seq t),
       value,
       MkResult None (count_rows (selected id value) (rows t)))
  end.

(** [query.Where(filter)] with a [map[string]interface{}]: one
    condition [key = value] per entry. *)
Definition known_columns (filter : gmap string string) : bool :=
  forallb (fun kv => has_column (fst kv)) (map_to_list filter).

Definition satisfies (filter : gmap string string) (row : T) : bool :=
  forallb (fun kv => column_eq (fst kv) (snd kv) row) (map_to_list filter).

(** The rows of [db.Model(&obj)], narrowed by [Where(filter)] when the
    filter is not [nil]; a condition on a column the table does not
    have makes every statement of the query fail. *)
Definition Where (filter : option (gmap string string)) (t : Table T)
  : list T + error :=
  match filter with
  | None => inl (rows t)
  | Some f =>
      if known_columns f then inl (List.filter (satisfies f) (rows t))
      else inr (StoreFault "no such column")
  end.

(** [query.Offset(offset).Limit(limit).Find(&dest)] on the rows of the
    query. *)
Definition OffsetLimit (offset limit : Z) (l : list T) : list T :=
  let l := if (0 <? offset)%Z then skipn (Z.to_nat offset) l else l in
  if (0 <=? limit)%Z then firstn (Z.to_nat limit) l else l.

(** [db.Transaction(fc)] *)
Definition Transaction {A : Type}
    (fc : Table T -> Table T * A * option error) (t : Table T)
  : Table T * A * option error :=
  let '(t', a, err) := fc t in
  match err with
  | Some e => (t, a, Some e)
  | None => (t', a, None)
  end.

End Store.

End gorm.


(** ** SQLite: column names and the comparison with a text parameter

    The filters of a list request reach the store as text parameters.
    SQLite resolves a column name ignoring the case of ASCII letters.
    Before it compares a column of integer (or numeric) affinity with a
    text parameter it applies numeric affinity to the parameter: text
    that is a well-formed integer or real literal, possibly between
    white space, is converted to the number it denotes, and any other
    text stays text, which no number equals.  SQLite rounds a literal
    with a fraction or an exponent to a double; the comparison below
    takes the exact decimal value, which is the same for literals of up
    to 15 significant digits within the range of a double. *)

Module sqlite.
Import golang.

Definition fold_byte (c : ascii) : ascii :=
  let n := N_of_ascii c in
  if ((65 <=? n) && (n <=? 90))%N then ascii_of_N (n + 32) else c.

Fixpoint fold_case (s : string) : string :=
  match s with
  | EmptyString => EmptyString
  | String c s' => String (fold_byte c) (fold_case s')
  end.

(** [sqlite3StrICmp(a, b) == 0] *)
Definition same_name (a b : string) : bool :=
  String.eqb (fold_case a) (fold_case b).

(** [sqlite3Isspace] *)
Definition is_space (c : ascii) : bool :=
  let n := N_of_ascii c in
  (((9 <=? n) && (n <=? 13)) || (n =? 32))%N.

Fixpoint skip_spaces (s : string) : string :=
  match s with
  | String c s' => if is_space c then skip_spaces s' else s
  | EmptyString => s
  end.

Definition digit (c : ascii) : option Z :=
  let n := N_of_ascii c in
  if ((48 <=? n) && (n <=? 57))%N then Some (Z.of_N n - 48)%Z else None.

(** The digits at the head of [s]: the number they add to [acc], how
    many there are, and the rest of [s]. *)
Fixpoint digits (acc count : Z) (s : string) : Z * Z * string :=
  match s with
  | String c s' =>
      match digit c with
      | Some d => digits (acc * 10 + d)%Z (count + 1)%Z s'
      | None => (acc, count, s)
      end
  | EmptyString => (acc, count, s)
  end.

Definition sign (s : string) : Z * string :=
  match s with
  | String "-" s' => ((-1)%Z, s')
  | String "+" s' => (1%Z, s')
  | _ => (1%Z, s)
  end.

Definition is_exponent_mark (c : ascii) : bool :=
  Ascii.eqb c "e" || Ascii.eqb c "E".

(** [sqlite3AtoF], as far as it decides whether the text is a numeric
    literal: white space, a sign, digits, a point and digits, an
    exponent with its sign and digits, white space; at least one digit
    before the exponent, and at least one in an exponent that is there.
    The literal denotes [m * 10 ^ e] for the result [(m, e)]. *)
Definition literal (s : string) : option (Z * Z) :=
  let s := skip_spaces s in
  if is_empty s then None
  else
    let '(sg, s) := sign s in
    let '(m, n1, s) := digits 0 0 s in
    let '(m, n2, s) :=
      match s with
      | String "." s' => digits m 0 s'
      | _ => (m, 0%Z, s)
      end in
    let '(e, eValid, s) :=
      match s with
      | String c s' =>
          if is_exponent_mark c then
            if is_empty s' then (0%Z, false, s')
            else
              let '(esg, s') := sign s' in
              let '(e, n3, s') := digits 0 0 s' in
              ((esg * e)%Z, (0 <? n3)%Z, s')
          else (0%Z, true, s)
      | EmptyString => (0%Z, true, s)
      end in
    let s := skip_spaces s in
    if is_empty s && (0 <? n1 + n2)%Z && eValid
    then Some ((sg * m)%Z, (e - n2)%Z)
    else None.

(** [column = ?] for an integer column that holds [i] and the text
    parameter [v]. *)
Definition int_eq (i : Z) (v : string) : bool :=
  match literal v with
  | Some (m, e) =>
      if (0 <=? e)%Z then (m * 10 ^ e =? i)%Z else (m =? i * 10 ^ (- e))%Z
  | None => false
  end.

End sqlite.


(** ** The table of a resource that embeds [meta.BaseResource] *)

Module schema.
Import golang meta.

(** A field of an [Updates] value is written only when it is not the zero
    value of its type. *)
Definition nz_string (new old : string) : string :=
  if is_empty new then old else new.
Definition nz_int (new old : Z) : Z :=
  if (new =? 0)%Z then old else new.
Definition nz_map (new old : option (gmap string string)) : option (gmap string string) :=
  match new with
  | None => old
  | Some _ => new
  end.
Definition nz_bool (new old : bool) : bool :=
  if new then true else old.

(** [UPDATE ... SET] with the non-zero fields of [v].  The primary key is
    never written, [updated_at] always is. *)
Definition assign_base (row v : BaseResource) : BaseResource :=
  MkBaseResource
    (MkTypeMeta (nz_string (GetKind v) (GetKind row))
                (nz_string (GetAPIVersion v) (GetAPIVersion row)))
    (MkObjectMeta
       (GetID row)
       (nz_string (GetUID v) (GetUID row))
       (nz_int (GetResourceVersion v) (GetResourceVersion row))
       (nz_int (CreatedAt (objectMeta v)) (CreatedAt (objectMeta row)))
       (UpdatedAt (objectMeta v))
       (nz_map (Labels (objectMeta v)) (Labels (objectMeta row)))
       (nz_map (Annotations (objectMeta v)) (Annotations (objectMeta row)))
       (MkResourceStatus
          (nz_string (Phase (GetStatus v)) (Phase (GetStatus row)))
          (nz_string (Message (GetStatus v)) (Message (GetStatus row)))
          (nz_string (Reason (GetStatus v)) (Reason (GetStatus row)))
          (nz_int (LastTransitionTime (GetStatus v)) (LastTransitionTime (GetStatus row))))).

(** [UPDATE ... SET] with every field of [v] but the primary key. *)
Definition replace_base (row v : BaseResource) : BaseResource :=
  set_ID (GetID row) v.

(** [created_at] and [updated_at] are stamped on insert when they are zero. *)
Definition on_insert_base (env : Env) (b : BaseResource) : BaseResource :=
  let b := if (CreatedAt (objectMeta b) =? 0)%Z then set_CreatedAt (time_Now env) b else b in
  if (UpdatedAt (objectMeta b) =? 0)%Z then set_UpdatedAt (time_Now env) b else b.

Definition on_update_base (env : Env) (b : BaseResource) : BaseResource :=
  set_UpdatedAt (time_Now env) b.

Definition base_columns : list string :=
  ["id"; "kind"; "api_version"; "uid"; "resource_version"; "created_at";
   "updated_at"; "labels"; "annotations"; "phase"; "message"; "reason";
   "last_transition_time"].

Definition in_columns (cols : list string) (c : string) : bool :=
  existsb (sqlite.same_name c) cols.

(** The comparison [column = ?] against a text parameter.  Text columns
    compare byte by byte and the integer columns as numbers.  The stored
    text of a timestamp or of a JSON document is outside this model: no
    parameter is taken to equal it. *)
Definition column_eq_base (c v : string) (row : BaseResource) : bool :=
  if sqlite.same_name c "id" then sqlite.int_eq (Z.of_N (GetID row)) v
  else if sqlite.same_name c "kind" then String.eqb (GetKind row) v
  else if sqlite.same_name c "api_version" then String.eqb (GetAPIVersion row) v
  else if sqlite.same_name c "uid" then String.eqb (GetUID row) v
  else if sqlite.same_name c "resource_version"
  then sqlite.int_eq (GetResourceVersion row) v
  else if sqlite.same_name c "phase" then String.eqb (Phase (GetStatus row)) v
  else if sqlite.same_name c "message" then String.eqb (Message (GetStatus row)) v
  else if sqlite.same_name c "reason" then String.eqb (Reason (GetStatus row)) v
  else false.

(** [meta.BaseResource] as a model of its own: its hooks are the methods
    of the contract. *)
#[export] Instance BaseResource_Model : gorm.Model BaseResource := {|
  gorm.zero := zeroBaseResource;
  gorm.primaryKey := GetID;
  gorm.set_primaryKey := set_ID;
  gorm.hookBeforeCreate := BeforeCreate;
  gorm.hookBeforeUpdate := fun _ b => BeforeUpdate b;
  gorm.hookBeforeDelete := fun _ b => BeforeDelete b;
  gorm.on_insert := on_insert_base;
  gorm.on_update := on_update_base;
  gorm.assign := assign_base;
  gorm.replace := replace_base;
  gorm.has_column := in_columns base_columns;
  gorm.column_eq := column_eq_base;
  gorm.conflict := fun _ _ => None
|}.

End schema.

(** ** [regexp]: matching by derivatives *)

Module regexp.

Inductive regex : Type :=
| Fail
| Eps
| Class (p : ascii -> bool)
| Cat (r1 r2 : regex)
| Alt (r1 r2 : regex)
| Star (r : regex).

Fixpoint nullable (r : regex) : bool :=
  match r with
  | Fail => false
  | Eps => true
  | Class _ => false
  | Cat r1 r2 => nullable r1 && nullable r2
  | Alt r1 r2 => nullable r1 || nullable r2
  | Star _ => true
  end.

Fixpoint deriv (c : ascii) (r : regex) : regex :=
  match r with
  | Fail => Fail
  | Eps => Fail
  | Class p => if p c then Eps else Fail
  | Cat r1 r2 =>
      if nullable r1 then Alt (Cat (deriv c r1) r2) (deriv c r2)
      else Cat (deriv c r1) r2
  | Alt r1 r2 => Alt (deriv c r1) (deriv c r2)
  | Star r1 => Cat (deriv c r1) (Star r1)
  end.

(** [re.MatchString(s)] for an expression anchored by [^] and [$]. *)
Fixpoint MatchString (r : regex) (s : string) : bool :=
  match s with
  | EmptyString => nullable r
  | String c s' => MatchString (deriv c r) s'
  end.

Definition Plus (r : regex) : regex := Cat r (Star r).

Definition between (lo hi : N) (c : ascii) : bool :=
  ((lo <=? N_of_ascii c) && (N_of_ascii c <=? hi))%N.

Definition letter (c : ascii) : bool := between 97 122 c || between 65 90 c.
Definition digit (c : ascii) : bool := between 48 57 c.
Definition one_of (set : string) (c : ascii) : bool :=
  existsb (Ascii.eqb c) (list_ascii_of_string set).

End regexp.

(** ** [apiv1]: the [User] resource *)

Module apiv1.
Import golang meta regexp.

Record User : Type := MkUser {
  base : BaseResource;
  Username : string;
  Email : string;
  Password : string;
  FullName : string;
  IsActive : bool
}.

Definition zeroUser : User := MkUser zeroBaseResource "" "" "" "" false.

Definition with_base (f : BaseResource -> BaseResource) (u : User) : User :=
  MkUser (f (base u)) (Username u) (Email u) (Password u) (FullName u) (IsActive u).
Definition set_Password (v : string) (u : User) : User :=
  MkUser (base u) (Username u) (Email u) v (FullName u) (IsActive u).
Definition set_IsActive (v : bool) (u : User) : User :=
  MkUser (base u) (Username u) (Email u) (Password u) (FullName u) v.

(** [func (User) TableName() string] *)
Definition TableName : string := "users".

(** [func isHashedPassword(password string) bool] *)
Definition isHashedPassword (password : string) : bool :=
  HasPrefix password "$2a$" || HasPrefix password "$2b$".

(** The expression [^[a-zA-Z0-9._%+-]+@[a-zA-Z0-9.-]+\.[a-zA-Z]{2,}$]. *)
Definition emailRegex : regex :=
  Cat (Plus (Class (fun c => letter c || digit c || one_of "._%+-" c)))
   (Cat (Class (Ascii.eqb "@"))
    (Cat (Plus (Class (fun c => letter c || digit c || one_of ".-" c)))
     (Cat (Class (Ascii.eqb "."))
      (Cat (Class letter) (Cat (Class letter) (Star (Class letter))))))).

(** [func (u *User) Validate() error] *)
Definition Validate (u : User) : option error :=
  match meta.Validate (base u) with
  | Some err => Some err
  | None =>
      if is_empty (Username u) then Some (errors_New "username is required")
      else if (String.length (Username u) <? 3)%nat
      then Some (errors_New "username must be at least 3 characters long")
      else if is_empty (Email u) then Some (errors_New "email is required")
      else if negb (MatchString emailRegex (Email u))
      then Some (errors_New "invalid email format")
      else if is_empty (Password u) then Some (errors_New "password is required")
      else None
  end.

Section Hooks.

(** [bcrypt.GenerateFromPassword([]byte(password), bcrypt.DefaultCost)]:
    the hash, or the error of the library.  The salt it draws is part of
    the outside world. *)
Variable GenerateFromPassword : Env -> string -> string + error.

(** [func (u *User) SetPassword(password string) error] *)
Definition SetPassword (env : Env) (password : string) (u : User) : User * option error :=
  match GenerateFromPassword env password with
  | inr err => (u, Some err)
  | inl hashedPassword => (set_Password hashedPassword u, None)
  end.

(** [func (u *User) BeforeCreate(tx *gorm.DB) error] *)
Definition BeforeCreate (env : Env) (u : User) : User * option error :=
  let u := with_base (set_Kind "User") u in
  let u := with_base (set_APIVersion "v1") u in
  let u := with_base (SetStatus env "Active" "User created successfully" "Created") u in
  let hashed :=
    if negb (HasPrefix (Password u) "$2a$") then
      match GenerateFromPassword env (Password u) with
      | inr err => inr err
      | inl hashedPassword => inl (set_Password hashedPassword u)
      end
    else inl u in
  match hashed with
  | inr err => (u, Some err)
  | inl u =>
      let '(b, err) := meta.BeforeCreate env (base u) in
      (with_base (fun _ => b) u, err)
  end.

(** [func (u *User) BeforeUpdate(tx *gorm.DB) error] *)
Definition BeforeUpdate (env : Env) (u : User) : User * option error :=
  let u := with_base (set_Kind "User") u in
  let u := with_base (set_APIVersion "v1") u in
  let u := with_base (SetStatus env "Active" "User updated successfully" "Updated") u in
  let hashed :=
    if negb (HasPrefix (Password u) "$2a$") then
      match GenerateFromPassword env (Password u) with
      | inr err => inr err
      | inl hashedPassword => inl (set_Password hashedPassword u)
      end
    else inl u in
  match hashed with
  | inr err => (u, Some err)
  | inl u =>
      let '(b, err) := meta.BeforeUpdate (base u) in
      (with_base (fun _ => b) u, err)
  end.

(** [func (u *User) BeforeDelete(tx *gorm.DB) error] *)
Definition BeforeDelete (env : Env) (u : User) : User * option error :=
  let u := with_base (SetStatus env "Deleted" "User deleted successfully" "Deleted") u in
  let '(b, err) := meta.BeforeDelete (base u) in
  (with_base (fun _ => b) u, err).

(** The [users] table.  [username] and [email] carry [unique];
    [is_active] carries [default:true], so a [false] handed to an insert is
    stored, and read back, as [true]. *)
Definition assign_user (row v : User) : User :=
  MkUser (schema.assign_base (base row) (base v))
         (schema.nz_string (Username v) (Username row))
         (schema.nz_string (Email v) (Email row))
         (schema.nz_string (Password v) (Password row))
         (schema.nz_string (FullName v) (FullName row))
         (schema.nz_bool (IsActive v) (IsActive row)).

Definition replace_user (row v : User) : User :=
  with_base (schema.replace_base (base row)) v.

Definition on_insert_user (env : Env) (u : User) : User :=
  let u := with_base (schema.on_insert_base env) u in
  if IsActive u then u else set_IsActive true u.

Definition conflict_user (u1 u2 : User) : option string :=
  if String.eqb (Username u1) (Username u2)
  then Some "UNIQUE constraint failed: users.username"
  else if String.eqb (Email u1) (Email u2)
  then Some "UNIQUE constraint failed: users.email"
  else None.



Definition user_columns : list string :=
  schema.base_columns ++ ["username"; "email"; "password"; "full_name"; "is_active"].

Definition column_eq_user (c v : string) (row : User) : bool :=
  if sqlite.same_name c "username" then String.eqb (Username row) v
  else if sqlite.same_name c "email" then String.eqb (Email row) v
  else if sqlite.same_name c "password" then String.eqb (Password row) v
  else if sqlite.same_name c "full_name" then String.eqb (FullName row) v
  else if sqlite.same_name c "is_active"
  then sqlite.int_eq (if IsActive row then 1%Z else 0%Z) v
  else schema.column_eq_base c v (base row).

Definition User_Model : gorm.Model User := {|
  gorm.zero := zeroUser;
  gorm.primaryKey := fun u => GetID (base u);
  gorm.set_primaryKey := fun id => with_base (set_ID id);
  gorm.hookBeforeCreate := BeforeCreate;
  gorm.hookBeforeUpdate := BeforeUpdate;
  gorm.hookBeforeDelete := BeforeDelete;
  gorm.on_insert := on_insert_user;
  gorm.on_update := fun env => with_base (schema.on_update_base env);
  gorm.assign := assign_user;
  gorm.replace := replace_user;
  gorm.has_column := schema.in_columns user_columns;
  gorm.column_eq := column_eq_user;
  gorm.conflict := conflict_user
|}.

End Hooks.

(** A stand-in for [bcrypt] with which the hooks can be run on examples:
    it refuses a password of more than 72 bytes, as the library does, and
    otherwise answers a string with the prefix of a bcrypt hash. *)
Definition sample_bcrypt (env : Env) (password : string) : string + error :=
  if (72 <? String.length password)%nat
  then inr (errors_New "bcrypt: password length exceeds 72 bytes")
  else inl ("$2a$10$" ++ password).

End apiv1.

(** ** [internal]: the data-access object and the two sets of handlers *)

Module internal.
Import golang.

(** *** [gin]: what a handler reads from and writes to its context

    The transport is an external collaborator: a request is what the
    handlers ask of [*gin.Context], a response is the status code and the
    value handed to [c.JSON] (or nothing, for [c.Status]). *)

Record Context (T : Type) : Type := MkContext {
  (** [c.Param("id")] *)
  Param_id : string;
  (** [c.Request.URL.Query()]: every key that is present has a first value *)
  URL_Query : gmap string (string * list string);
  (** [c.ShouldBindJSON(&v)], given what [v] holds before the call *)
  ShouldBindJSON : T -> T + error
}.
Arguments MkContext {T} _ _ _.
Arguments Param_id {T} _.
Arguments URL_Query {T} _.
Arguments ShouldBindJSON {T} _ _.

(** [c.DefaultQuery(key, defaultValue)] *)
Definition DefaultQuery {T : Type} (c : Context T) (key defaultValue : string) : string :=
  match URL_Query c !! key with
  | Some (value, _) => value
  | None => defaultValue
  end.

(** [ListResponse[T]] *)
Record ListResponse (T : Type) : Type := MkListResponse {
  Items : list T;
  Total : Z;
  Page : Z;
  Size : Z
}.
Arguments MkListResponse {T} _ _ _ _.
Arguments Items {T} _.
Arguments Total {T} _.
Arguments Page {T} _.
Arguments Size {T} _.

Inductive Payload (T : Type) : Type :=
| H_error (msg : string)
| JSON_resource (resource : T)
| JSON_items (items : list T)
| JSON_list (response : ListResponse T)
| JSON_nil
| no_body.
Arguments H_error {T} _.
Arguments JSON_resource {T} _.
Arguments JSON_items {T} _.
Arguments JSON_list {T} _.
Arguments JSON_nil {T}.
Arguments no_body {T}.

Record Response (T : Type) : Type := MkResponse {
  Code : Z;
  Body : Payload T
}.
Arguments MkResponse {T} _ _.
Arguments Code {T} _.
Arguments Body {T} _.

Definition StatusOK : Z := 200.
Definition StatusCreated : Z := 201.
Definition StatusNoContent : Z := 204.
Definition StatusBadRequest : Z := 400.
Definition StatusNotFound : Z := 404.
Definition StatusInternalServerError : Z := 500.

(** *** [DAO[T]] *)

Module DAO.
Section DAO.
Context {T : Type} {M : gorm.Model T}.

(** [func (d *DAO[T]) Create(resource *T) error] *)
Definition Create (env : Env) (db : gorm.Table T) (resource : T)
  : gorm.Table T * T * option error :=
  gorm.Create env db resource.

(** [func (d *DAO[T]) Get(id uint)], which returns a [*T] and an [error] *)
Definition Get (db : gorm.Table T) (id : N) : option T * option error :=
  let '(resource, err) := gorm.First db gorm.zero id in
  match err with
  | Some e => (None, Some e)
  | None => (Some resource, None)
  end.

(** [func (d *DAO[T]) List(page, pageSize int, filter map[string]interface{})
    ([]T, int64, error)] *)
Definition List (db : gorm.Table T) (page pageSize : Z)
    (filter : option (gmap string string)) : list T * Z * option error :=
  match gorm.Where filter db with
  | inr e => ([], 0%Z, Some e)
  | inl query =>
      let total := Z.of_nat (List.length query) in
      let offset := wrap_int (wrap_int (page - 1) * pageSize) in
      (gorm.OffsetLimit offset pageSize query, total, None)
  end.

(** [func (d *DAO[T]) Update(id uint, resource *T) error] *)
Definition Update (env : Env) (db : gorm.Table T) (id : N) (resource : T)
  : gorm.Table T * T * option error :=
  let '(db', resource, result) := gorm.Updates env db id resource in
  match gorm.Error result with
  | Some e => (db', resource, Some e)
  | None =>
      if (gorm.RowsAffected result =? 0)%Z
      then (db', resource, Some ErrRecordNotFound)
      else (db', resource, None)
  end.

(** [func (d *DAO[T]) Delete(id uint) error] *)
Definition Delete (env : Env) (db : gorm.Table T) (id : N)
  : gorm.Table T * option error :=
  let '(db', _, result) := gorm.Delete env db gorm.zero id in
  match gorm.Error result with
  | Some e => (db', Some e)
  | None =>
      if (gorm.RowsAffected result =? 0)%Z
      then (db', Some ErrRecordNotFound)
      else (db', None)
  end.

(** [func (d *DAO[T]) Transaction(fc func(tx *gorm.DB) error) error] *)
Definition Transaction {A : Type}
    (fc : gorm.Table T -> gorm.Table T * A * option error) (db : gorm.Table T)
  : gorm.Table T * A * option error :=
  gorm.Transaction fc db.

End DAO.
End DAO.

(** *** [Router[T]] *)

Module Router.
Section Router.
Context {T : Type} {M : gorm.Model T}.

(** [any(&resource).(Validator)]: the [Validate] method of [*T] when it has
    one. *)
Variable Validator : option (T -> option error).

(** [func (r *Router[T]) Create(c *gin.Context)] *)
Definition Create (env : Env) (db : gorm.Table T) (c : Context T)
  : gorm.Table T * Response T :=
  match ShouldBindJSON c gorm.zero with
  | inr err => (db, MkResponse StatusBadRequest (H_error (Error err)))
  | inl resource =>
      let invalid :=
        match Validator with
        | Some Validate => Validate resource
        | None => None
        end in
      match invalid with
      | Some err => (db, MkResponse StatusBadRequest (H_error (Error err)))
      | None =>
          let '(db', resource, err) := DAO.Create env db resource in
          match err with
          | Some err => (db', MkResponse StatusInternalServerError (H_error (Error err)))
          | None => (db', MkResponse StatusCreated (JSON_resource resource))
          end
      end
  end.

(** [func (r *Router[T]) List(c *gin.Context)].  A slice is a list here, so
    the replacement of a [nil] slice by an empty one changes nothing. *)
Definition List (db : gorm.Table T) (c : Context T) : gorm.Table T * Response T :=
  let page := fst (strconv.Atoi (DefaultQuery c "page" "1")) in
  let pageSize := fst (strconv.Atoi (DefaultQuery c "size" "10")) in
  let '(items, _, err) := DAO.List db page pageSize None in
  match err with
  | Some err => (db, MkResponse StatusInternalServerError (H_error (Error err)))
  | None => (db, MkResponse StatusOK (JSON_items items))
  end.

(** [func (r *Router[T]) Get(c *gin.Context)] *)
Definition Get (db : gorm.Table T) (c : Context T) : gorm.Table T * Response T :=
  let '(id, err) := strconv.ParseUint (Param_id c) 64 in
  match err with
  | Some _ => (db, MkResponse StatusBadRequest (H_error "invalid id"))
  | None =>
      match DAO.Get db id with
      | (_, Some err) =>
          if is_ErrRecordNotFound err
          then (db, MkResponse StatusNotFound (H_error "resource not found"))
          else (db, MkResponse StatusInternalServerError (H_error (Error err)))
      | (None, None) => (db, MkResponse StatusOK JSON_nil)
      | (Some resource, None) => (db, MkResponse StatusOK (JSON_resource resource))
      end
  end.

(** [func (r *Router[T]) Update(c *gin.Context)] *)
Definition Update (env : Env) (db : gorm.Table T) (c : Context T)
  : gorm.Table T * Response T :=
  let '(id, err) := strconv.ParseUint (Param_id c) 64 in
  match err with
  | Some _ => (db, MkResponse StatusBadRequest (H_error "invalid id"))
  | None =>
      match ShouldBindJSON c gorm.zero with
      | inr err => (db, MkResponse StatusBadRequest (H_error (Error err)))
      | inl resource =>
          let '(db', resource, err) := DAO.Update env db id resource in
          match err with
          | Some err =>
              if is_ErrRecordNotFound err
              then (db', MkResponse StatusNotFound (H_error "resource not found"))
              else (db', MkResponse StatusInternalServerError (H_error (Error err)))
          | None => (db', MkResponse StatusOK (JSON_resource resource))
          end
      end
  end.

(** [func (r *Router[T]) Delete(c *gin.Context)] *)
Definition Delete (env : Env) (db : gorm.Table T) (c : Context T)
  : gorm.Table T * Response T :=
  let '(id, err) := strconv.ParseUint (Param_id c) 64 in
  match err with
  | Some _ => (db, MkResponse StatusBadRequest (H_error "invalid id"))
  | None =>
      let '(db', err) := DAO.Delete env db id in
      match err with
      | Some err =>
          if is_ErrRecordNotFound err
          then (db', MkResponse StatusNotFound (H_error "resource not found"))
          else (db', MkResponse StatusInternalServerError (H_error (Error err)))
      | None => (db', MkResponse StatusNoContent no_body)
      end
  end.

End Router.
End Router.

(** *** [RegisterResource[T]]: the handlers it registers *)

Module RegisterResource.
Section RegisterResource.
Context {T : Type} {M : gorm.Model T}.

(** [group.POST("", ...)] *)
Definition POST (env : Env) (db : gorm.Table T) (c : Context T)
  : gorm.Table T * Response T :=
  match ShouldBindJSON c gorm.zero with
  | inr err => (db, MkResponse StatusBadRequest (H_error (Error err)))
  | inl obj =>
      let '(db', obj, err) :=
        DAO.Transaction (fun tx => gorm.Create env tx obj) db in
      match err with
      | Some err => (db', MkResponse StatusInternalServerError (H_error (Error err)))
      | None => (db', MkResponse StatusCreated (JSON_resource obj))
      end
  end.

(** [group.GET("/:id", ...)] *)
Definition GET (db : gorm.Table T) (c : Context T) : gorm.Table T * Response T :=
  let '(id, err) := strconv.ParseUint (Param_id c) 32 in
  match err with
  | Some _ => (db, MkResponse StatusBadRequest (H_error "Invalid ID format"))
  | None =>
      match DAO.Get db id with
      | (_, Some err) =>
          if is_ErrRecordNotFound err
          then (db, MkResponse StatusNotFound (H_error "Resource not found"))
          else (db, MkResponse StatusInternalServerError (H_error (Error err)))
      | (None, None) => (db, MkResponse StatusOK JSON_nil)
      | (Some obj, None) => (db, MkResponse StatusOK (JSON_resource obj))
      end
  end.

(** The filters of the list handler: the first value of every query
    parameter other than [page] and [size]. *)
Definition filters_of (c : Context T) : gmap string string :=
  fst <$> filter (fun kv => fst kv ≠ "page" ∧ fst kv ≠ "size") (URL_Query c).

(** [group.GET("", ...)] *)
Definition LIST (db : gorm.Table T) (c : Context T) : gorm.Table T * Response T :=
  let page := fst (strconv.Atoi (DefaultQuery c "page" "1")) in
  let pageSize := fst (strconv.Atoi (DefaultQuery c "size" "10")) in
  let filters := filters_of c in
  let '(items, total, err) := DAO.List db page pageSize (Some filters) in
  match err with
  | Some err => (db, MkResponse StatusInternalServerError (H_error (Error err)))
  | None =>
      (db, MkResponse StatusOK (JSON_list (MkListResponse items total page pageSize)))
  end.

(** [group.PUT("/:id", ...)] *)
Definition PUT (env : Env) (db : gorm.Table T) (c : Context T)
  : gorm.Table T * Response T :=
  let '(id, err) := strconv.ParseUint (Param_id c) 32 in
  match err with
  | Some _ => (db, MkResponse StatusBadRequest (H_error "Invalid ID format"))
  | None =>
      match gorm.First db gorm.zero id with
      | (_, Some err) =>
          if is_ErrRecordNotFound err
          then (db, MkResponse StatusNotFound (H_error "Resource not found"))
          else (db, MkResponse StatusInternalServerError (H_error (Error err)))
      | (obj, None) =>
          match ShouldBindJSON c obj with
          | inr err => (db, MkResponse StatusBadRequest (H_error (Error err)))
          | inl obj =>
              let '(db', obj, err) :=
                DAO.Transaction (fun tx => gorm.Save env tx obj) db in
              match err with
              | Some err =>
                  (db', MkResponse StatusInternalServerError (H_error (Error err)))
              | None => (db', MkResponse StatusOK (JSON_resource obj))
              end
          end
      end
  end.

(** [group.DELETE("/:id", ...)] *)
Definition DELETE (env : Env) (db : gorm.Table T) (c : Context T)
  : gorm.Table T * Response T :=
  let '(id, err) := strconv.ParseUint (Param_id c) 32 in
  match err with
  | Some _ => (db, MkResponse StatusBadRequest (H_error "Invalid ID format"))
  | None =>
      let '(db', _, err) :=
        DAO.Transaction
          (fun tx =>
             let '(tx', v, result) := gorm.Delete env tx gorm.zero id in
             (tx', v, gorm.Error result))
          db in
      match err with
      | Some err => (db', MkResponse StatusInternalServerError (H_error (Error err)))
      | None => (db', MkResponse StatusNoContent JSON_nil)
      end
  end.

End RegisterResource.
End RegisterResource.

End internal.

(** ** Vocabulary of the properties *)

Module props.
Import golang meta.

(** A path segment that is a decimal numeral, and the number it denotes. *)
Definition is_digit (c : ascii) : bool :=
  ((48 <=? N_of_ascii c) && (N_of_ascii c <=? 57))%N.

Definition is_numeral (s : string) : bool :=
  negb (is_empty s) && forallb is_digit (list_ascii_of_string s).

Fixpoint numeral_from (n : N) (s : string) : N :=
  match s with
  | EmptyString => n
  | String c s' => numeral_from (n * 10 + (N_of_ascii c - 48))%N s'
  end.

Definition numeral_value (s : string) : N := numeral_from 0 s.

(** The segment is a numeral that fits an unsigned integer of [bits] bits. *)
Definition fits (bits : N) (s : string) : bool :=
  is_numeral s && (numeral_value s <? 2 ^ bits)%N.

(** The page of a listing in the words of the specification: the rows from
    offset [(page-1) * pageSize] on, at most [pageSize] of them. *)
Definition page_of {T : Type} (page pageSize : Z) (matching : list T) : list T :=
  firstn (Z.to_nat pageSize) (skipn (Z.to_nat ((page - 1) * pageSize)) matching).

(** A stored user carries the type descriptor of users. *)
Definition is_User (u : apiv1.User) : Prop :=
  GetKind (apiv1.base u) = "User" ∧ GetAPIVersion (apiv1.base u) = "v1".

(** A user after the first three statements of its create and update
    hooks: the type descriptor of users and the [Active] status. *)
Definition described (env : Env) (message reason : string) (u : apiv1.User)
  : apiv1.User :=
  apiv1.with_base (SetStatus env "Active" message reason)
    (apiv1.with_base (set_APIVersion "v1") (apiv1.with_base (set_Kind "User") u)).

(** The only errors the hooks of [User] can return: that of [bcrypt] on a
    password that is not hashed yet. *)
Definition hash_failure (GenerateFromPassword : Env -> string -> string + error)
    (env : Env) (u : apiv1.User) (err : option error) : Prop :=
  match err with
  | None => True
  | Some e =>
      HasPrefix (apiv1.Password u) "$2a$" = false ∧
      GenerateFromPassword env (apiv1.Password u) = inr e
  end.

(** Further runs of the hooks of [User], each in its own environment;
    [true] stands for [BeforeCreate] and [false] for [BeforeUpdate]. *)
Definition rerun (GenerateFromPassword : Env -> string -> string + error)
    (runs : list (bool * Env)) (u : apiv1.User) : apiv1.User :=
  fold_left
    (fun (u : apiv1.User) (run : bool * Env) =>
       if fst run
       then fst (apiv1.BeforeCreate GenerateFromPassword (snd run) u)
       else fst (apiv1.BeforeUpdate GenerateFromPassword (snd run) u))
    runs u.

(** Every row of [l'] is a row of the table [l] or has the property. *)
Definition old_or {T : Type} (P : T -> Prop) (l l' : list T) : Prop :=
  Forall (fun row => In row l \/ P row) l'.

End props.

(** ** Sample data on which the definitions are run *)

Module sample.
Import golang meta.

Definition env : Env := MkEnv "6ba7b810-9dad-11d1-80b4-00c04fd430c8" 1700000000.

(** A stored resource of kind [Note] with the given key and version. *)
Definition note (id : N) (version : Z) : BaseResource :=
  MkBaseResource
    (MkTypeMeta "Note" "v1")
    (MkObjectMeta id "0e37df36-f698-11e6-8dd4-cb9ced3df976" version 1600000000 1600000000
                  None None
                  (MkResourceStatus "Pending" "Resource is being created" "" 1600000000)).

(** A stored resource of kind [Task]. *)
Definition task (id : N) : BaseResource := set_Kind "Task" (note id 1).

(** A table of three notes, and a table of a note and a task. *)
Definition three_notes : gorm.Table BaseResource :=
  gorm.MkTable [note 1 1; note 2 1; note 3 1] 3.
Definition note_and_task : gorm.Table BaseResource :=
  gorm.MkTable [note 1 1; task 2] 2.

Definition five_notes : gorm.Table BaseResource :=
  gorm.MkTable [note 1 1; note 2 1; note 3 1; note 4 1; note 5 1] 5.

(** A request value that names its type and nothing else. *)
Definition bare_note : BaseResource :=
  set_Kind "Note" (set_APIVersion "v1" zeroBaseResource).

(** A stored user with the given key and version. *)
Definition user (id : N) (version : Z) (username email : string) : apiv1.User :=
  apiv1.MkUser
    (MkBaseResource
       (MkTypeMeta "User" "v1")
       (MkObjectMeta id "123e4567-e89b-12d3-a456-426614174000" version 1600000000 1600000000
                     None None
                     (MkResourceStatus "Active" "User created successfully" "Created"
                                       1600000000)))
    username email "$2a$10$pw123456" "" true.

(** What a body with the three required fields binds to. *)
Definition body (username email password : string) : apiv1.User :=
  apiv1.MkUser zeroBaseResource username email password "" false.

(** The same with the type descriptor of users filled in. *)
Definition typed_body (username email password : string) : apiv1.User :=
  apiv1.with_base (fun b => set_Kind "User" (set_APIVersion "v1" b))
                  (body username email password).

(** A table that holds the user [alice] under key 1. *)
Definition users : gorm.Table apiv1.User :=
  gorm.MkTable [user 1 1 "alice" "alice@example.com"] 1.

(** A request with a path segment, no query and a body that binds to [v]. *)
Definition request {T : Type} (id : string) (v : T) : internal.Context T :=
  internal.MkContext id ∅ (fun _ => inl v).

(** A list request with the given query. *)
Definition list_request {T : Type} (query : gmap string (string * list string))
  : internal.Context T :=
  internal.MkContext "" query (fun v => inl v).

End sample.

(** ** Laws of a model, the shape of a table, and what an expression matches *)

Module laws.
Import golang.

(** What [gorm] takes for granted of a model: the primary key is a field
    of its own, which an insert sets and no other write touches. *)
Record lawful {T : Type} (M : gorm.Model T) : Prop := MkLawful {
  key_set : forall (id : N) (r : T), gorm.primaryKey (gorm.set_primaryKey id r) = id;
  key_on_insert : forall (env : Env) (r : T),
    gorm.primaryKey (gorm.on_insert env r) = gorm.primaryKey r;
  key_on_update : forall (env : Env) (r : T),
    gorm.primaryKey (gorm.on_update env r) = gorm.primaryKey r;
  key_assign : forall row v : T, gorm.primaryKey (gorm.assign row v) = gorm.primaryKey row;
  key_replace : forall row v : T, gorm.primaryKey (gorm.replace row v) = gorm.primaryKey row
}.

(** The keys of a table in scan order. *)
Definition keys {T : Type} {M : gorm.Model T} (db : gorm.Table T) : list N :=
  List.map gorm.primaryKey (gorm.rows db).

(** The keys of a table ascend strictly, none is zero and none exceeds the
    largest key ever used. *)
Definition well_keyed {T : Type} {M : gorm.Model T} (db : gorm.Table T) : Prop :=
  StronglySorted N.lt (keys db) /\
  Forall (fun k => (0 < k <= gorm.seq db)%N) (keys db).

(** The strings an expression matches. *)
Inductive Matches : regexp.regex -> string -> Prop :=
| MEps : Matches regexp.Eps ""
| MClass (p : ascii -> bool) (c : ascii) :
    p c = true -> Matches (regexp.Class p) (String c "")
| MCat (r1 r2 : regexp.regex) (s1 s2 : string) :
    Matches r1 s1 -> Matches r2 s2 -> Matches (regexp.Cat r1 r2) (s1 ++ s2)
| MAltL (r1 r2 : regexp.regex) (s : string) :
    Matches r1 s -> Matches (regexp.Alt r1 r2) s
| MAltR (r1 r2 : regexp.regex) (s : string) :
    Matches r2 s -> Matches (regexp.Alt r1 r2) s
| MStarNil (r : regexp.regex) : Matches (regexp.Star r) ""
| MStarApp (r : regexp.regex) (s1 s2 : string) :
    Matches r s1 -> Matches (regexp.Star r) s2 -> Matches (regexp.Star r) (s1 ++ s2).

(** Every byte of the string is in the class. *)
Definition all_in (p : ascii -> bool) (s : string) : bool :=
  forallb p (list_ascii_of_string s).

(** The classes of the expression for e-mail addresses. *)
Definition local_byte (c : ascii) : bool :=
  regexp.letter c || regexp.digit c || regexp.one_of "._%+-" c.
Definition domain_byte (c : ascii) : bool :=
  regexp.letter c || regexp.digit c || regexp.one_of ".-" c.

(** An address: a local part, [@], a domain, a dot, and at least two
    letters. *)
Definition email_shape (s : string) : Prop :=
  exists l d t : string,
    s = l ++ "@" ++ d ++ "." ++ t /\
    l <> "" /\ all_in local_byte l = true /\
    d <> "" /\ all_in domain_byte d = true /\
    (2 <= String.length t)%nat /\ all_in regexp.letter t = true.

End laws.

(** ** Properties *)

Import golang.
#[local] Existing Instance schema.BaseResource_Model.

(** *** The scenarios of the repository's tests, run on the embedding *)

(** [TestDAO_List]: five rows in pages of two. *)
Example TestDAO_List :
  let lengths (r : list meta.BaseResource * Z * option error) :=
    (List.length (fst (fst r)), snd (fst r), snd r) in
  lengths (internal.DAO.List sample.five_notes 1 2 None) = (2%nat, 5%Z, None) /\
  lengths (internal.DAO.List sample.five_notes 2 2 None) = (2%nat, 5%Z, None) /\
  lengths (internal.DAO.List sample.five_notes 3 2 None) = (1%nat, 5%Z, None).
Proof. repeat split. Qed.

(** [TestBaseResource_Events]: [Create] leaves version 1 and phase
    [Pending], a later [Save] of the value leaves version 2. *)
Example TestBaseResource_Events :
  let '(db, created, e1) := gorm.Create sample.env (gorm.MkTable [] 0) sample.bare_note in
  let '(db', saved, e2) := gorm.Save sample.env db created in
  e1 = None /\ e2 = None /\
  meta.GetID created = 1%N /\
  meta.GetResourceVersion created = 1%Z /\
  meta.Phase (meta.GetStatus created) = "Pending" /\
  meta.GetResourceVersion saved = 2%Z /\
  List.map meta.GetResourceVersion (gorm.rows db') = [2%Z].
Proof. vm_compute. repeat split. Qed.

(** [TestDAO_CRUD]: create, get, update, delete, get. *)
Example TestDAO_CRUD :
  let '(db1, model, e1) :=
    internal.DAO.Create sample.env (gorm.MkTable [] 0) sample.bare_note in
  let '(found, e2) := internal.DAO.Get db1 (meta.GetID model) in
  let '(db2, _, e3) :=
    internal.DAO.Update sample.env db1 (meta.GetID model) (meta.set_Kind "Memo" model) in
  let '(db3, e4) := internal.DAO.Delete sample.env db2 (meta.GetID model) in
  e1 = None /\ e2 = None /\ found = Some model /\ e3 = None /\
  List.map meta.GetKind (gorm.rows db2) = ["Memo"] /\
  e4 = None /\
  internal.DAO.Get db3 (meta.GetID model) = (None, Some ErrRecordNotFound).
Proof. vm_compute. repeat split. Qed.

(** [TestUser_BeforeCreate]: the hook hashes the password and sets the
    status of a created user. *)
Example TestUser_BeforeCreate :
  let '(user, err) :=
    apiv1.BeforeCreate apiv1.sample_bcrypt sample.env
      (sample.typed_body "testuser" "test@example.com" "password123") in
  err = None /\
  apiv1.Password user <> "password123" /\
  meta.GetStatus (apiv1.base user)
  = meta.MkResourceStatus "Active" "User created successfully" "Created" (time_Now sample.env).
Proof. vm_compute. repeat split. discriminate. Qed.

(** [TestUser_Validate] and [TestUser_EmailValidation]. *)
Example TestUser_Validate :
  apiv1.Validate (sample.typed_body "testuser" "test@example.com" "password123") = None /\
  apiv1.Validate (sample.typed_body "" "test@example.com" "password123")
  = Some (errors_New "username is required") /\
  apiv1.Validate (sample.typed_body "testuser" "invalid-email" "password123")
  = Some (errors_New "invalid email format") /\
  apiv1.Validate (sample.typed_body "testuser" "test@example.com" "")
  = Some (errors_New "password is required") /\
  apiv1.Validate (sample.body "testuser" "test@example.com" "password123")
  = Some (errors_New "kind is required").
Proof. repeat split. Qed.

(** The list handler of [RegisterResource] with a filter on the kind. *)
Example LIST_by_kind :
  let by_kind : gmap string (string * list string) := {[ "kind" := ("Task", []) ]} in
  snd (internal.RegisterResource.LIST sample.note_and_task (sample.list_request by_kind))
  = internal.MkResponse 200
      (internal.JSON_list (internal.MkListResponse [sample.task 2] 1 1 10)).
Proof. vm_compute. reflexivity. Qed.

(** A column is named in any case, and an integer column is compared
    with the number the parameter denotes. *)
Example LIST_by_KIND_and_id :
  let by_KIND : gmap string (string * list string) := {[ "KIND" := ("Task", []) ]} in
  let by_id : gmap string (string * list string) := {[ "id" := ("01", []) ]} in
  snd (internal.RegisterResource.LIST sample.note_and_task (sample.list_request by_KIND))
  = internal.MkResponse 200
      (internal.JSON_list (internal.MkListResponse [sample.task 2] 1 1 10)) /\
  snd (internal.RegisterResource.LIST sample.note_and_task (sample.list_request by_id))
  = internal.MkResponse 200
      (internal.JSON_list (internal.MkListResponse [sample.note 1 1] 1 1 10)).
Proof. vm_compute. split; reflexivity. Qed.

Example int_eq_literals :
  sqlite.int_eq 1 "01" = true /\ sqlite.int_eq 1 " +1.0 " = true /\
  sqlite.int_eq 10 "1e1" = true /\ sqlite.int_eq 5 ".5e1" = true /\
  sqlite.int_eq (-5) "-5" = true /\ sqlite.int_eq 1 "1." = true /\
  sqlite.int_eq 1 "1e" = false /\ sqlite.int_eq 1 "0x1" = false /\
  sqlite.int_eq 1 "1.5" = false /\ sqlite.int_eq 1 "one" = false /\
  sqlite.int_eq 0 "" = false /\ sqlite.int_eq 0 "." = false /\
  sqlite.int_eq 1 "1 1" = false.
Proof. vm_compute. repeat split. Qed.

(** *** The contract: [Validate] and [BeforeCreate] *)

Lemma is_empty_true (s : string) : is_empty s = true <-> s = "".
Proof. destruct s; simpl; split; congruence. Qed.

Lemma is_empty_false (s : string) : is_empty s = false <-> s <> "".
Proof. destruct s; simpl; split; congruence. Qed.

(** C7.  The contract-level [Validate] of a resource fails, with a
    validation error, exactly when its kind or its apiVersion is empty, and
    it succeeds exactly when both are non-empty. *)
Theorem Validate_fails_iff_kind_or_apiVersion_empty (b : meta.BaseResource) :
  (meta.GetKind b = "" \/ meta.GetAPIVersion b = ""
   <-> exists msg, meta.Validate b = Some (errors_New msg)) /\
  (meta.GetKind b <> "" /\ meta.GetAPIVersion b <> "" <-> meta.Validate b = None).
Proof.
  unfold meta.Validate.
  destruct (is_empty (meta.GetKind b)) eqn:Hk.
  - apply is_empty_true in Hk. split; split.
    + intros _. eauto.
    + intros _. left. exact Hk.
    + intros [Hne _]. contradiction.
    + discriminate.
  - apply is_empty_false in Hk.
    destruct (is_empty (meta.GetAPIVersion b)) eqn:Ha.
    + apply is_empty_true in Ha. split; split.
      * intros _. eauto.
      * intros _. right. exact Ha.
      * intros [_ Hne]. contradiction.
      * discriminate.
    + apply is_empty_false in Ha. split; split.
      * intros [H|H]; contradiction.
      * intros [msg H]. discriminate.
      * reflexivity.
      * intros _. split; assumption.
Qed.

(** C1.  [BeforeCreate] assigns the fresh uid exactly when the uid is
    empty, sets the version to 1 exactly when it is zero, sets the status
    to the [Pending] default exactly when the phase is unset, leaves the
    type descriptor alone, and returns what [Validate] says of the
    result; when that is an error, [Create] reports it and the table is
    the table it was. *)
Theorem BeforeCreate_defaults_then_validates (env : Env) (b : meta.BaseResource) :
  let '(b', err) := meta.BeforeCreate env b in
  meta.GetUID b' = (if is_empty (meta.GetUID b) then uuid_New env else meta.GetUID b) /\
  meta.GetResourceVersion b'
  = (if (meta.GetResourceVersion b =? 0)%Z then 1%Z else meta.GetResourceVersion b) /\
  meta.GetStatus b'
  = (if is_empty (meta.Phase (meta.GetStatus b))
     then meta.MkResourceStatus "Pending" "Resource is being created" "" (time_Now env)
     else meta.GetStatus b) /\
  meta.typeMeta b' = meta.typeMeta b /\
  err = meta.Validate b' /\
  match err with
  | Some e =>
      forall db : gorm.Table meta.BaseResource,
        gorm.Create env db b = (db, b', Some e) /\
        internal.DAO.Create env db b = (db, b', Some e)
  | None => True
  end.
Proof.
  destruct (meta.BeforeCreate env b) as [b' err] eqn:Hhook.
  assert (Hcreate : forall (e : error) (db : gorm.Table meta.BaseResource),
             err = Some e -> gorm.Create env db b = (db, b', Some e)).
  { intros e db ->. unfold gorm.Create. simpl gorm.hookBeforeCreate.
    rewrite Hhook. reflexivity. }
  unfold meta.BeforeCreate in Hhook.
  destruct b as [tm [id uid rv ca ua la an [ph ms rs lt]]].
  cbn in Hhook |- *.
  destruct (is_empty uid); cbn in Hhook;
    destruct (rv =? 0)%Z; cbn in Hhook;
    destruct (is_empty ph); cbn in Hhook;
    match type of Hhook with
    | context [meta.Validate ?x] => destruct (meta.Validate x) eqn:Hv
    end;
    injection Hhook as <- <-; cbn; rewrite ?Hv;
    repeat split; auto;
    try (unfold internal.DAO.Create; apply Hcreate; reflexivity).
Qed.

(** *** What a write leaves in the table *)

Section Written.
Context {T : Type} {M : gorm.Model T}.
Variable P : T -> Prop.

Lemma old_or_refl (l : list T) : props.old_or P l l.
Proof. apply Forall_forall. intros row Hin. left. apply list_elem_of_In, Hin. Qed.

Lemma In_place (r x : T) (l : list T) : In x (gorm.place r l) -> x = r \/ In x l.
Proof.
  induction l as [|y l IH]; simpl.
  - intros [->|[]]. now left.
  - destruct (gorm.primaryKey r <? gorm.primaryKey y)%N; simpl.
    + intros [->|[->|H]]; auto.
    + intros [->|H]; auto. destruct (IH H); auto.
Qed.

Lemma old_or_place (r : T) (l : list T) : P r -> props.old_or P l (gorm.place r l).
Proof.
  intros Hr. apply Forall_forall. intros row Hin.
  apply list_elem_of_In, In_place in Hin. destruct Hin as [->|Hin]; auto.
Qed.

Lemma old_or_map (f : T -> T) (sel : T -> bool) (l : list T) :
  (forall row, P (f row)) ->
  props.old_or P l (List.map (fun row => if sel row then f row else row) l).
Proof.
  intros Hf. apply Forall_forall. intros row Hin.
  apply list_elem_of_In, in_map_iff in Hin. destruct Hin as [x [<- Hx]].
  destruct (sel x); auto.
Qed.

Lemma old_or_insert (env : Env) (db : gorm.Table T) (v : T) :
  (forall id, P (gorm.set_primaryKey id (gorm.on_insert env v))) ->
  props.old_or P (gorm.rows db) (gorm.rows (fst (fst (gorm.insert env db v)))).
Proof.
  intros Hv. unfold gorm.insert.
  destruct (existsb _ _); [apply old_or_refl|].
  destruct (gorm.violation _ _); [apply old_or_refl|].
  simpl. apply old_or_place, Hv.
Qed.

Lemma old_or_Create (env : Env) (db : gorm.Table T) (v : T) :
  (forall id, P (gorm.set_primaryKey id
                   (gorm.on_insert env (fst (gorm.hookBeforeCreate env v))))) ->
  props.old_or P (gorm.rows db) (gorm.rows (fst (fst (gorm.Create env db v)))).
Proof.
  intros Hv. unfold gorm.Create.
  destruct (gorm.hookBeforeCreate env v) as [v' [e|]]; [apply old_or_refl|].
  apply old_or_insert, Hv.
Qed.

Lemma old_or_Updates (env : Env) (db : gorm.Table T) (id : N) (v : T) :
  (forall row, P (gorm.assign row (gorm.on_update env (fst (gorm.hookBeforeUpdate env v))))) ->
  props.old_or P (gorm.rows db) (gorm.rows (fst (fst (gorm.Updates env db id v)))).
Proof.
  intros Hv. unfold gorm.Updates.
  destruct (gorm.hookBeforeUpdate env v) as [v' [e|]]; [apply old_or_refl|].
  destruct (gorm.violation _ _); [apply old_or_refl|].
  simpl. apply old_or_map with (f := fun row => gorm.assign row (gorm.on_update env v')).
  apply Hv.
Qed.

Lemma old_or_Save (env : Env) (db : gorm.Table T) (v : T) :
  (forall id, P (gorm.set_primaryKey id
                   (gorm.on_insert env (fst (gorm.hookBeforeCreate env v))))) ->
  (forall id, P (gorm.set_primaryKey id
                   (gorm.on_insert env
                      (gorm.on_update env (fst (gorm.hookBeforeUpdate env v)))))) ->
  (forall row, P (gorm.replace row (gorm.on_update env (fst (gorm.hookBeforeUpdate env v))))) ->
  props.old_or P (gorm.rows db) (gorm.rows (fst (fst (gorm.Save env db v)))).
Proof.
  intros Hc Hi Hr. unfold gorm.Save.
  destruct (gorm.primaryKey v =? 0)%N; [apply old_or_Create, Hc|].
  destruct (gorm.hookBeforeUpdate env v) as [v' [e|]]; [apply old_or_refl|].
  destruct (existsb _ _); [|apply old_or_insert, Hi].
  destruct (gorm.violation _ _); [apply old_or_refl|].
  simpl. apply old_or_map with (f := fun row => gorm.replace row (gorm.on_update env v')).
  apply Hr.
Qed.

End Written.

(** *** The hooks of the contract, field by field *)

Lemma Validate_typeMeta (b b' : meta.BaseResource) :
  meta.typeMeta b' = meta.typeMeta b -> meta.Validate b' = meta.Validate b.
Proof.
  unfold meta.Validate, meta.GetKind, meta.GetAPIVersion. now intros ->.
Qed.

Lemma BeforeCreate_typeMeta (env : Env) (b : meta.BaseResource) :
  meta.typeMeta (fst (meta.BeforeCreate env b)) = meta.typeMeta b.
Proof.
  unfold meta.BeforeCreate.
  destruct b as [tm [id uid rv ca ua la an [ph ms rs lt]]]. cbn.
  destruct (is_empty uid); cbn; destruct (rv =? 0)%Z; cbn;
    destruct (is_empty ph); cbn;
    match goal with
    | |- context [meta.Validate ?x] => destruct (meta.Validate x)
    end; reflexivity.
Qed.

Lemma BeforeCreate_error (env : Env) (b : meta.BaseResource) :
  snd (meta.BeforeCreate env b) = meta.Validate b.
Proof.
  rewrite <- (Validate_typeMeta b (fst (meta.BeforeCreate env b)))
    by apply BeforeCreate_typeMeta.
  unfold meta.BeforeCreate.
  match goal with
  | |- context [meta.Validate ?x] => destruct (meta.Validate x) eqn:Hv
  end; cbn; now rewrite Hv.
Qed.

Lemma BeforeUpdate_result (b : meta.BaseResource) :
  meta.BeforeUpdate b
  = (meta.set_ResourceVersion (wrap_int (meta.GetResourceVersion b + 1)) b,
     meta.Validate b).
Proof.
  unfold meta.BeforeUpdate.
  rewrite (Validate_typeMeta b (meta.set_ResourceVersion _ b)) by reflexivity.
  now destruct (meta.Validate b).
Qed.

Lemma Validate_named (b : meta.BaseResource) :
  meta.GetKind b <> "" -> meta.GetAPIVersion b <> "" -> meta.Validate b = None.
Proof.
  intros Hk Ha. unfold meta.Validate.
  apply is_empty_false in Hk, Ha. now rewrite Hk, Ha.
Qed.

(** *** The hooks of [User] *)

Section UserHooks.
Variable GenerateFromPassword : Env -> string -> string + error.

Lemma described_is_User (env : Env) (message reason : string) (u : apiv1.User) :
  props.is_User (props.described env message reason u).
Proof. split; reflexivity. Qed.

Lemma described_Password (env : Env) (message reason : string) (u : apiv1.User) :
  apiv1.Password (props.described env message reason u) = apiv1.Password u.
Proof. reflexivity. Qed.

Lemma is_User_Validate (u : apiv1.User) :
  props.is_User u -> meta.Validate (apiv1.base u) = None.
Proof.
  intros [Hk Ha]. apply Validate_named; [rewrite Hk | rewrite Ha]; discriminate.
Qed.

Lemma User_BeforeCreate_eq (env : Env) (u : apiv1.User) :
  apiv1.BeforeCreate GenerateFromPassword env u
  = let u0 := props.described env "User created successfully" "Created" u in
    let finish v :=
      (apiv1.with_base (fun _ => fst (meta.BeforeCreate env (apiv1.base v))) v, None) in
    if HasPrefix (apiv1.Password u) "$2a$" then finish u0
    else
      match GenerateFromPassword env (apiv1.Password u) with
      | inr e => (u0, Some e)
      | inl h => finish (apiv1.set_Password h u0)
      end.
Proof.
  unfold apiv1.BeforeCreate. fold (props.described env "User created successfully" "Created" u).
  rewrite described_Password. cbv zeta.
  assert (Hfin : forall v, props.is_User v ->
            (let '(b, err) := meta.BeforeCreate env (apiv1.base v) in
             (apiv1.with_base (fun _ => b) v, err))
            = (apiv1.with_base (fun _ => fst (meta.BeforeCreate env (apiv1.base v))) v, None)).
  { intros v Hv. pose proof (BeforeCreate_error env (apiv1.base v)) as He.
    rewrite (is_User_Validate v Hv) in He.
    destruct (meta.BeforeCreate env (apiv1.base v)) as [b err]. simpl in *. now subst. }
  destruct (HasPrefix (apiv1.Password u) "$2a$"); cbv beta iota delta [negb].
  - apply Hfin, described_is_User.
  - destruct (GenerateFromPassword env (apiv1.Password u)) as [h|e]; [|reflexivity].
    apply Hfin. split; reflexivity.
Qed.

Lemma User_BeforeUpdate_eq (env : Env) (u : apiv1.User) :
  apiv1.BeforeUpdate GenerateFromPassword env u
  = let u0 := props.described env "User updated successfully" "Updated" u in
    let finish v :=
      (apiv1.with_base
         (meta.set_ResourceVersion (wrap_int (meta.GetResourceVersion (apiv1.base u) + 1))) v,
       None) in
    if HasPrefix (apiv1.Password u) "$2a$" then finish u0
    else
      match GenerateFromPassword env (apiv1.Password u) with
      | inr e => (u0, Some e)
      | inl h => finish (apiv1.set_Password h u0)
      end.
Proof.
  unfold apiv1.BeforeUpdate. fold (props.described env "User updated successfully" "Updated" u).
  rewrite described_Password. cbv zeta.
  destruct (HasPrefix (apiv1.Password u) "$2a$"); cbv beta iota delta [negb].
  - rewrite BeforeUpdate_result. reflexivity.
  - destruct (GenerateFromPassword env (apiv1.Password u)) as [h|e]; [|reflexivity].
    rewrite BeforeUpdate_result. reflexivity.
Qed.

End UserHooks.

Section UserProperties.
Variable GenerateFromPassword : Env -> string -> string + error.

Lemma User_BeforeCreate_is_User (env : Env) (u : apiv1.User) :
  props.is_User (fst (apiv1.BeforeCreate GenerateFromPassword env u)).
Proof.
  rewrite User_BeforeCreate_eq. cbv zeta.
  destruct (HasPrefix (apiv1.Password u) "$2a$");
    [|destruct (GenerateFromPassword env (apiv1.Password u))];
    split; unfold meta.GetKind, meta.GetAPIVersion; cbn [fst apiv1.base apiv1.with_base];
    rewrite ?BeforeCreate_typeMeta; reflexivity.
Qed.

Lemma User_BeforeUpdate_is_User (env : Env) (u : apiv1.User) :
  props.is_User (fst (apiv1.BeforeUpdate GenerateFromPassword env u)).
Proof.
  rewrite User_BeforeUpdate_eq. cbv zeta.
  destruct (HasPrefix (apiv1.Password u) "$2a$");
    [|destruct (GenerateFromPassword env (apiv1.Password u))];
    split; reflexivity.
Qed.

Lemma User_BeforeCreate_hash_failure (env : Env) (u : apiv1.User) :
  props.hash_failure GenerateFromPassword env u
    (snd (apiv1.BeforeCreate GenerateFromPassword env u)).
Proof.
  rewrite User_BeforeCreate_eq. cbv zeta.
  destruct (HasPrefix (apiv1.Password u) "$2a$") eqn:Hp; [exact I|].
  destruct (GenerateFromPassword env (apiv1.Password u)) eqn:Hg; [exact I|].
  split; [exact Hp | exact Hg].
Qed.

Lemma User_BeforeUpdate_hash_failure (env : Env) (u : apiv1.User) :
  props.hash_failure GenerateFromPassword env u
    (snd (apiv1.BeforeUpdate GenerateFromPassword env u)).
Proof.
  rewrite User_BeforeUpdate_eq. cbv zeta.
  destruct (HasPrefix (apiv1.Password u) "$2a$") eqn:Hp; [exact I|].
  destruct (GenerateFromPassword env (apiv1.Password u)) eqn:Hg; [exact I|].
  split; [exact Hp | exact Hg].
Qed.

Lemma is_User_set_ID (id : N) (u : apiv1.User) :
  props.is_User u -> props.is_User (apiv1.with_base (meta.set_ID id) u).
Proof. intros H. exact H. Qed.

Lemma on_insert_base_typeMeta (env : Env) (b : meta.BaseResource) :
  meta.typeMeta (schema.on_insert_base env b) = meta.typeMeta b.
Proof.
  unfold schema.on_insert_base.
  destruct (meta.CreatedAt (meta.objectMeta b) =? 0)%Z;
    match goal with
    | |- context [(?x =? 0)%Z] => destruct (x =? 0)%Z
    end; reflexivity.
Qed.

Lemma is_User_on_insert (env : Env) (u : apiv1.User) :
  props.is_User u -> props.is_User (apiv1.on_insert_user env u).
Proof.
  intros Hu. unfold apiv1.on_insert_user.
  assert (H : props.is_User (apiv1.with_base (schema.on_insert_base env) u)).
  { unfold props.is_User, meta.GetKind, meta.GetAPIVersion. cbn [apiv1.base apiv1.with_base].
    rewrite on_insert_base_typeMeta. exact Hu. }
  destruct (apiv1.IsActive _); exact H.
Qed.

Lemma is_User_on_update (env : Env) (u : apiv1.User) :
  props.is_User u -> props.is_User (apiv1.with_base (schema.on_update_base env) u).
Proof. intros H. exact H. Qed.

Lemma is_User_assign (row v : apiv1.User) :
  props.is_User v -> props.is_User (apiv1.assign_user row v).
Proof.
  intros [Hk Ha]. split; unfold meta.GetKind, meta.GetAPIVersion; cbn.
  - fold (meta.GetKind (apiv1.base v)). now rewrite Hk.
  - fold (meta.GetAPIVersion (apiv1.base v)). now rewrite Ha.
Qed.

Lemma is_User_replace (row v : apiv1.User) :
  props.is_User v -> props.is_User (apiv1.replace_user row v).
Proof. intros H. exact H. Qed.

(** C9.  Whatever kind and apiVersion the client supplied, after the
    create hook and after the update hook of [User] the value has kind
    [User] and apiVersion [v1] and passes the contract-level validation;
    the only error either hook can return is that of [bcrypt] on a
    password that is not hashed yet.  Hence every row that [Create],
    [Updates] or [Save] writes to the table of users carries that type
    descriptor: a row of the table afterwards is a row it had before or has
    kind [User] and apiVersion [v1]. *)
Theorem User_hooks_fix_type_descriptor (env : Env) (u : apiv1.User) :
  let M := apiv1.User_Model GenerateFromPassword in
  let '(u1, e1) := apiv1.BeforeCreate GenerateFromPassword env u in
  let '(u2, e2) := apiv1.BeforeUpdate GenerateFromPassword env u in
  (props.is_User u1 /\ meta.Validate (apiv1.base u1) = None /\
   props.hash_failure GenerateFromPassword env u e1) /\
  (props.is_User u2 /\ meta.Validate (apiv1.base u2) = None /\
   props.hash_failure GenerateFromPassword env u e2) /\
  forall (db : gorm.Table apiv1.User) (id : N),
    props.old_or props.is_User (gorm.rows db)
      (gorm.rows (fst (fst (gorm.Create env db u)))) /\
    props.old_or props.is_User (gorm.rows db)
      (gorm.rows (fst (fst (gorm.Updates env db id u)))) /\
    props.old_or props.is_User (gorm.rows db)
      (gorm.rows (fst (fst (gorm.Save env db u)))).
Proof.
  intros M.
  pose proof (User_BeforeCreate_is_User env u) as Hc.
  pose proof (User_BeforeUpdate_is_User env u) as Hu.
  pose proof (User_BeforeCreate_hash_failure env u) as Fc.
  pose proof (User_BeforeUpdate_hash_failure env u) as Fu.
  assert (Hins : forall v id, props.is_User v ->
            props.is_User (gorm.set_primaryKey id (gorm.on_insert env v))).
  { intros v id Hv. apply is_User_set_ID, is_User_on_insert, Hv. }
  assert (Hw : forall (db : gorm.Table apiv1.User) (id : N),
    props.old_or props.is_User (gorm.rows db)
      (gorm.rows (fst (fst (gorm.Create env db u)))) /\
    props.old_or props.is_User (gorm.rows db)
      (gorm.rows (fst (fst (gorm.Updates env db id u)))) /\
    props.old_or props.is_User (gorm.rows db)
      (gorm.rows (fst (fst (gorm.Save env db u))))).
  { intros db id. split; [|split].
    - apply old_or_Create. intros k. apply Hins, Hc.
    - apply old_or_Updates. intros row. apply is_User_assign, is_User_on_update, Hu.
    - apply old_or_Save.
      + intros k. apply Hins, Hc.
      + intros k. apply Hins, is_User_on_update, Hu.
      + intros row. apply is_User_replace, is_User_on_update, Hu. }
  destruct (apiv1.BeforeCreate GenerateFromPassword env u) as [u1 e1].
  destruct (apiv1.BeforeUpdate GenerateFromPassword env u) as [u2 e2].
  simpl in Hc, Hu, Fc, Fu.
  split; [|split].
  - split; [exact Hc | split; [apply is_User_Validate, Hc | exact Fc]].
  - split; [exact Hu | split; [apply is_User_Validate, Hu | exact Fu]].
  - exact Hw.
Qed.

(** What [bcrypt] answers starts with the prefix of its hashes. *)
Hypothesis hash_prefix :
  forall (env : Env) (password hashed : string),
    GenerateFromPassword env password = inl hashed -> HasPrefix hashed "$2a$" = true.

Lemma hashed_stays (run : bool * Env) (u : apiv1.User) :
  HasPrefix (apiv1.Password u) "$2a$" = true ->
  apiv1.Password (props.rerun GenerateFromPassword [run] u) = apiv1.Password u.
Proof.
  intros Hp. destruct run as [[|] env]; cbn [props.rerun fold_left fst snd].
  - rewrite User_BeforeCreate_eq. cbv zeta. rewrite Hp. reflexivity.
  - rewrite User_BeforeUpdate_eq. cbv zeta. rewrite Hp. reflexivity.
Qed.

Lemma rerun_keeps_hash (runs : list (bool * Env)) (u : apiv1.User) :
  HasPrefix (apiv1.Password u) "$2a$" = true ->
  apiv1.Password (props.rerun GenerateFromPassword runs u) = apiv1.Password u.
Proof.
  revert u. induction runs as [|run runs IH]; intros u Hp; [reflexivity|].
  pose proof (hashed_stays run u Hp) as Hrun.
  change (props.rerun GenerateFromPassword (run :: runs) u)
    with (props.rerun GenerateFromPassword runs (props.rerun GenerateFromPassword [run] u)).
  rewrite IH; [exact Hrun | rewrite Hrun; exact Hp].
Qed.

(** C10.  The create hook and the update hook of [User] leave a password
    that starts with [$2a$] as it is and replace any other password by
    what [bcrypt] answers for it, which starts with [$2a$]; when [bcrypt]
    fails the hook returns its error and the password stays as it was.
    After a run without error the password starts with [$2a$], and no
    further run of either hook, however many, changes it. *)
Theorem User_password_hashed_once (env : Env) (u : apiv1.User) :
  let '(u1, e1) := apiv1.BeforeCreate GenerateFromPassword env u in
  let '(u2, e2) := apiv1.BeforeUpdate GenerateFromPassword env u in
  let hashed_once :=
    if HasPrefix (apiv1.Password u) "$2a$" then apiv1.Password u
    else
      match GenerateFromPassword env (apiv1.Password u) with
      | inl hashed => hashed
      | inr _ => apiv1.Password u
      end in
  (apiv1.Password u1 = hashed_once /\
   match e1 with
   | None =>
       HasPrefix (apiv1.Password u1) "$2a$" = true /\
       forall runs : list (bool * Env),
         apiv1.Password (props.rerun GenerateFromPassword runs u1) = apiv1.Password u1
   | Some _ => apiv1.Password u1 = apiv1.Password u
   end) /\
  (apiv1.Password u2 = hashed_once /\
   match e2 with
   | None =>
       HasPrefix (apiv1.Password u2) "$2a$" = true /\
       forall runs : list (bool * Env),
         apiv1.Password (props.rerun GenerateFromPassword runs u2) = apiv1.Password u2
   | Some _ => apiv1.Password u2 = apiv1.Password u
   end).
Proof.
  rewrite User_BeforeCreate_eq, User_BeforeUpdate_eq. cbv zeta.
  destruct (HasPrefix (apiv1.Password u) "$2a$") eqn:Hp.
  - split; (split; [reflexivity|]); (split; [exact Hp|]);
      intros runs; apply rerun_keeps_hash; exact Hp.
  - destruct (GenerateFromPassword env (apiv1.Password u)) as [h|e] eqn:Hg.
    + pose proof (hash_prefix env _ h Hg) as Hh.
      split; (split; [reflexivity|]); (split; [exact Hh|]);
        intros runs; apply rerun_keeps_hash; exact Hh.
    + split; split; reflexivity.
Qed.

End UserProperties.

Lemma sample_bcrypt_prefix (env : Env) (password hashed : string) :
  apiv1.sample_bcrypt env password = inl hashed -> HasPrefix hashed "$2a$" = true.
Proof.
  unfold apiv1.sample_bcrypt.
  destruct (72 <? String.length password)%nat; [discriminate|].
  intros [= <-]. reflexivity.
Qed.

(** The statement of C10 on a user with the password [pw123456], hashed
    by the stand-in for [bcrypt]. *)
Lemma User_password_hashed_once_witness :
  (forall (env : Env) (password hashed : string),
      apiv1.sample_bcrypt env password = inl hashed -> HasPrefix hashed "$2a$" = true) /\
  let u := sample.body "alice" "a@example.com" "pw123456" in
  let '(u1, e1) := apiv1.BeforeCreate apiv1.sample_bcrypt sample.env u in
  let '(u2, e2) := apiv1.BeforeUpdate apiv1.sample_bcrypt sample.env u in
  let hashed_once :=
    if HasPrefix (apiv1.Password u) "$2a$" then apiv1.Password u
    else
      match apiv1.sample_bcrypt sample.env (apiv1.Password u) with
      | inl hashed => hashed
      | inr _ => apiv1.Password u
      end in
  (apiv1.Password u1 = hashed_once /\
   match e1 with
   | None =>
       HasPrefix (apiv1.Password u1) "$2a$" = true /\
       forall runs : list (bool * Env),
         apiv1.Password (props.rerun apiv1.sample_bcrypt runs u1) = apiv1.Password u1
   | Some _ => apiv1.Password u1 = apiv1.Password u
   end) /\
  (apiv1.Password u2 = hashed_once /\
   match e2 with
   | None =>
       HasPrefix (apiv1.Password u2) "$2a$" = true /\
       forall runs : list (bool * Env),
         apiv1.Password (props.rerun apiv1.sample_bcrypt runs u2) = apiv1.Password u2
   | Some _ => apiv1.Password u2 = apiv1.Password u
   end).
Proof.
  split.
  - exact sample_bcrypt_prefix.
  - exact (User_password_hashed_once apiv1.sample_bcrypt sample_bcrypt_prefix
             sample.env (sample.body "alice" "a@example.com" "pw123456")).
Defined.

(** *** [DAO.Update] and [DAO.Delete]: what they write *)

Section Writes.
Context {T : Type} {M : gorm.Model T}.

Lemma Table_eta (db : gorm.Table T) : gorm.MkTable (gorm.rows db) (gorm.seq db) = db.
Proof. now destruct db. Qed.

Lemma count_rows_zero (sel : T -> bool) (l : list T) :
  gorm.count_rows sel l = 0%Z <-> forallb (fun row => negb (sel row)) l = true.
Proof.
  unfold gorm.count_rows. induction l as [|x l IH]; simpl; [tauto|].
  destruct (sel x); simpl; [|exact IH].
  split; [lia | discriminate].
Qed.

Lemma map_unselected (sel : T -> bool) (f : T -> T) (l : list T) :
  forallb (fun row => negb (sel row)) l = true ->
  List.map (fun row => if sel row then f row else row) l = l.
Proof.
  induction l as [|x l IH]; simpl; [reflexivity|].
  destruct (sel x); simpl; [discriminate|]. intros H. now rewrite IH.
Qed.

Lemma filter_unselected (sel : T -> bool) (l : list T) :
  forallb (fun row => negb (sel row)) l = true ->
  List.filter (fun row => negb (sel row)) l = l.
Proof.
  induction l as [|x l IH]; simpl; [reflexivity|].
  destruct (sel x); simpl; [discriminate|]. intros H. now rewrite IH.
Qed.


(** [DAO.Update], case by case: the hook fails; a constraint is broken; no
    row is selected; some row is. *)
Lemma Update_cases (env : Env) (db : gorm.Table T) (id : N) (resource : T) :
  internal.DAO.Update env db id resource
  = let '(v1, e) := gorm.hookBeforeUpdate env resource in
    match e with
    | Some e => (db, v1, Some e)
    | None =>
        let v := gorm.on_update env v1 in
        let rows' :=
          List.map (fun row => if gorm.selected id v row then gorm.assign row v else row)
                   (gorm.rows db) in
        match gorm.violation
                (List.map (fun row => gorm.assign row v)
                          (List.filter (gorm.selected id v) (gorm.rows db))) rows' with
        | Some msg => (db, v, Some (StoreFault msg))
        | None =>
            if (gorm.count_rows (gorm.selected id v) (gorm.rows db) =? 0)%Z
            then (db, v, Some ErrRecordNotFound)
            else (gorm.MkTable rows' (gorm.seq db), v, None)
        end
    end.
Proof.
  unfold internal.DAO.Update, gorm.Updates.
  destruct (gorm.hookBeforeUpdate env resource) as [v1 [e|]]; [reflexivity|].
  cbv zeta. destruct (gorm.violation _ _); [reflexivity|].
  cbn [gorm.Error gorm.RowsAffected].
  destruct (gorm.count_rows _ _ =? 0)%Z eqn:Hz; [|reflexivity].
  apply Z.eqb_eq, count_rows_zero in Hz.
  rewrite (map_unselected _ _ _ Hz), Table_eta. reflexivity.
Qed.

(** [DAO.Delete], case by case. *)
Lemma Delete_cases (env : Env) (db : gorm.Table T) (id : N) :
  internal.DAO.Delete env db id
  = let '(v, e) := gorm.hookBeforeDelete env gorm.zero in
    match e with
    | Some e => (db, Some e)
    | None =>
        if (gorm.count_rows (gorm.selected id v) (gorm.rows db) =? 0)%Z
        then (db, Some ErrRecordNotFound)
        else (gorm.MkTable
                (List.filter (fun row => negb (gorm.selected id v row)) (gorm.rows db))
                (gorm.seq db), None)
    end.
Proof.
  unfold internal.DAO.Delete, gorm.Delete.
  destruct (gorm.hookBeforeDelete env gorm.zero) as [v [e|]]; [reflexivity|].
  cbn [gorm.Error gorm.RowsAffected].
  destruct (gorm.count_rows _ _ =? 0)%Z eqn:Hz; [|reflexivity].
  apply Z.eqb_eq, count_rows_zero in Hz.
  rewrite (filter_unselected _ _ Hz), Table_eta. reflexivity.
Qed.

(** An update that returns an error has written nothing. *)
Lemma Update_failed_unchanged (env : Env) (db : gorm.Table T) (id : N) (resource : T) :
  match internal.DAO.Update env db id resource with
  | (db', _, Some _) => db' = db
  | (_, _, None) => True
  end.
Proof.
  rewrite Update_cases.
  destruct (gorm.hookBeforeUpdate env resource) as [v1 [e|]]; [reflexivity|].
  cbv zeta. destruct (gorm.violation _ _); [reflexivity|].
  destruct (gorm.count_rows _ _ =? 0)%Z; [reflexivity | exact I].
Qed.

End Writes.

(** *** The version an update persists *)

Lemma selected_same_key {T : Type} {M : gorm.Model T} (id : N) (v v' row : T) :
  gorm.primaryKey v' = gorm.primaryKey v ->
  gorm.selected id v' row = gorm.selected id v row.
Proof. unfold gorm.selected. now intros ->. Qed.

Lemma BaseResource_Update_version (env : Env) (id : N)
    (db : gorm.Table meta.BaseResource) (resource : meta.BaseResource) :
  let bumped := wrap_int (meta.GetResourceVersion resource + 1) in
  match internal.DAO.Update env db id resource with
  | (db', _, Some _) => db' = db
  | (db', r', None) =>
      meta.GetResourceVersion r' = bumped /\
      List.map meta.GetResourceVersion (gorm.rows db')
      = List.map
          (fun row =>
             if gorm.selected id resource row
             then schema.nz_int bumped (meta.GetResourceVersion row)
             else meta.GetResourceVersion row)
          (gorm.rows db)
  end.
Proof.
  intros bumped. rewrite Update_cases.
  cbn [gorm.hookBeforeUpdate schema.BaseResource_Model].
  rewrite BeforeUpdate_result. fold bumped.
  destruct (meta.Validate resource); [reflexivity|].
  cbv zeta. destruct (gorm.violation _ _); [reflexivity|].
  destruct (gorm.count_rows _ _ =? 0)%Z; [reflexivity|].
  split; [reflexivity|].
  cbn [gorm.rows]. rewrite map_map. apply map_ext. intros row.
  rewrite (selected_same_key id resource) by reflexivity.
  destruct (gorm.selected id resource row); reflexivity.
Qed.

Lemma User_Update_version (GenerateFromPassword : Env -> string -> string + error)
    (env : Env) (id : N) (db : gorm.Table apiv1.User) (resource : apiv1.User) :
  let M := apiv1.User_Model GenerateFromPassword in
  let version (u : apiv1.User) := meta.GetResourceVersion (apiv1.base u) in
  let bumped := wrap_int (version resource + 1) in
  match internal.DAO.Update env db id resource with
  | (db', _, Some _) => db' = db
  | (db', r', None) =>
      version r' = bumped /\
      List.map version (gorm.rows db')
      = List.map
          (fun row =>
             if gorm.selected id resource row
             then schema.nz_int bumped (version row)
             else version row)
          (gorm.rows db)
  end.
Proof.
  intros M version bumped. rewrite Update_cases.
  cbn [gorm.hookBeforeUpdate M apiv1.User_Model].
  rewrite User_BeforeUpdate_eq. cbv zeta. fold (version resource). fold bumped.
  assert (Hok : forall v1 : apiv1.User,
    gorm.primaryKey v1 = gorm.primaryKey resource ->
    version v1 = bumped ->
    match
      (let v := gorm.on_update env v1 in
       let rows' :=
         List.map (fun row => if gorm.selected id v row then gorm.assign row v else row)
                  (gorm.rows db) in
       match gorm.violation
               (List.map (fun row => gorm.assign row v)
                         (List.filter (gorm.selected id v) (gorm.rows db))) rows' with
       | Some msg => (db, v, Some (StoreFault msg))
       | None =>
           if (gorm.count_rows (gorm.selected id v) (gorm.rows db) =? 0)%Z
           then (db, v, Some ErrRecordNotFound)
           else (gorm.MkTable rows' (gorm.seq db), v, None)
       end)
    with
    | (db', _, Some _) => db' = db
    | (db', r', None) =>
        version r' = bumped /\
        List.map version (gorm.rows db')
        = List.map
            (fun row =>
               if gorm.selected id resource row
               then schema.nz_int bumped (version row)
               else version row)
            (gorm.rows db)
    end).
  { intros v1 Hkey Hver. cbv zeta.
    destruct (gorm.violation _ _); [reflexivity|].
    destruct (gorm.count_rows _ _ =? 0)%Z; [reflexivity|].
    split; [exact Hver|].
    cbn [gorm.rows]. rewrite map_map. apply map_ext. intros row.
    rewrite (selected_same_key id resource) by exact Hkey.
    destruct (gorm.selected id resource row); [|reflexivity].
    unfold version at 1. cbn [gorm.assign M apiv1.User_Model apiv1.assign_user apiv1.base].
    unfold schema.assign_base, meta.GetResourceVersion at 1. cbn [meta.objectMeta meta.ResourceVersion].
    f_equal. exact Hver. }
  destruct (HasPrefix (apiv1.Password resource) "$2a$").
  - apply Hok; reflexivity.
  - destruct (GenerateFromPassword env (apiv1.Password resource)); [|reflexivity].
    apply Hok; reflexivity.
Qed.

(** C2 fails on the update of the data-access object.  Row 1 is
    persisted at version 5 and is updated with a body that names kind
    and apiVersion and carries no version.  [DAO.Update], and
    [Router.Update] which binds the body to a fresh value and calls it,
    succeed and leave the persisted version at 1: the hook increments
    the version of the value bound from the body, not the persisted one.
    The update handler of [RegisterResource] loads the row before it
    binds the body, and persists 6 for the same row and body. *)
Lemma Update_lowers_persisted_version :
  let db : gorm.Table meta.BaseResource := gorm.MkTable [sample.note 1 5] 1 in
  let c : internal.Context meta.BaseResource :=
    internal.MkContext "1" ∅
      (fun v => inl (meta.set_Kind "Note" (meta.set_APIVersion "v1" v))) in
  List.map meta.GetResourceVersion (gorm.rows db) = [5%Z] /\
  internal.ShouldBindJSON c gorm.zero = inl sample.bare_note /\
  (let '(db', _, err) := internal.DAO.Update sample.env db 1 sample.bare_note in
   err = None /\
   List.map meta.GetResourceVersion (gorm.rows db') = [1%Z]) /\
  (let '(db', response) := internal.Router.Update sample.env db c in
   internal.Code response = 200%Z /\
   List.map meta.GetResourceVersion (gorm.rows db') = [1%Z]) /\
  (let '(db', response) := internal.RegisterResource.PUT sample.env db c in
   internal.Code response = 200%Z /\
   List.map meta.GetResourceVersion (gorm.rows db') = [6%Z]).
Proof. vm_compute. repeat split. Qed.

(** *** Identifiers without a row *)

Lemma find_none_unselected {T : Type} {M : gorm.Model T}
    (id : N) (v : T) (l : list T) :
  List.find (gorm.has_key id) l = None ->
  forallb (fun row => negb (gorm.selected id v row)) l = true.
Proof.
  induction l as [|x l IH]; simpl; [reflexivity|].
  unfold gorm.selected at 1. destruct (gorm.has_key id x); [discriminate|].
  simpl. exact IH.
Qed.




(** *** Listing: pages and totals *)

Lemma wrap_int_small (z : Z) : (- 2 ^ 63 <= z < 2 ^ 63)%Z -> wrap_int z = z.
Proof.
  intros H. unfold wrap_int.
  rewrite Z.mod_small by lia. lia.
Qed.

Lemma wrap_int_mul_l (a b : Z) : wrap_int (wrap_int a * b) = wrap_int (a * b).
Proof.
  unfold wrap_int at 2.
  pose proof (Z.div_mod (a + 2 ^ 63) (2 ^ 64) ltac:(lia)) as Hdm.
  replace (((a + 2 ^ 63) mod 2 ^ 64 - 2 ^ 63) * b)%Z
    with (a * b + (- ((a + 2 ^ 63) / 2 ^ 64) * b) * 2 ^ 64)%Z by lia.
  unfold wrap_int.
  replace (a * b + - ((a + 2 ^ 63) / 2 ^ 64) * b * 2 ^ 64 + 2 ^ 63)%Z
    with (a * b + 2 ^ 63 + (- ((a + 2 ^ 63) / 2 ^ 64) * b) * 2 ^ 64)%Z by lia.
  rewrite Z.mod_add by lia. reflexivity.
Qed.

Lemma OffsetLimit_page_of {T : Type} (page pageSize : Z) (l : list T) :
  (0 <= (page - 1) * pageSize)%Z -> (0 <= pageSize)%Z ->
  gorm.OffsetLimit ((page - 1) * pageSize) pageSize l = props.page_of page pageSize l.
Proof.
  intros Hoff Hsize. unfold gorm.OffsetLimit, props.page_of.
  destruct (0 <=? pageSize)%Z eqn:Hs; [|apply Z.leb_gt in Hs; lia].
  destruct (0 <? (page - 1) * pageSize)%Z eqn:Ho; [reflexivity|].
  apply Z.ltb_ge in Ho. replace ((page - 1) * pageSize)%Z with 0%Z by lia.
  reflexivity.
Qed.

(** C6, as amended.  For a page of at least 1 and a page size of at least
    0 whose offset [(page-1) * pageSize] is within the range of [int], and
    a filter the store accepts, [List] returns the rows the filter selects
    from that offset on, at most [pageSize] of them, with the number of
    all rows the filter selects as the total and no error; the total is
    that number for every page and page size; a page whose offset is
    beyond the selected rows is empty. *)
Theorem List_returns_page_and_total {T : Type} {M : gorm.Model T}
    (db : gorm.Table T) (page pageSize : Z)
    (filter : option (gmap string string)) (matching : list T)
    (Hpage : (1 <= page)%Z) (Hsize : (0 <= pageSize)%Z)
    (Hoffset : ((page - 1) * pageSize < 2 ^ 63)%Z)
    (Hfilter : gorm.Where filter db = inl matching) :
  internal.DAO.List db page pageSize filter
  = (props.page_of page pageSize matching, Z.of_nat (List.length matching), None) /\
  (forall page' pageSize' : Z,
     snd (fst (internal.DAO.List db page' pageSize' filter))
     = Z.of_nat (List.length matching)) /\
  ((Z.of_nat (List.length matching) <= (page - 1) * pageSize)%Z ->
   internal.DAO.List db page pageSize filter = ([], Z.of_nat (List.length matching), None)).
Proof.
  assert (Hpos : (0 <= (page - 1) * pageSize)%Z) by nia.
  assert (Hlist : forall page' pageSize' : Z,
            internal.DAO.List db page' pageSize' filter
            = (gorm.OffsetLimit (wrap_int ((page' - 1) * pageSize')) pageSize' matching,
               Z.of_nat (List.length matching), None)).
  { intros page' pageSize'. unfold internal.DAO.List.
    rewrite Hfilter, wrap_int_mul_l. reflexivity. }
  assert (Hthis : internal.DAO.List db page pageSize filter
                  = (props.page_of page pageSize matching,
                     Z.of_nat (List.length matching), None)).
  { rewrite Hlist, wrap_int_small by lia.
    rewrite OffsetLimit_page_of by assumption. reflexivity. }
  split; [exact Hthis|]. split.
  - intros page' pageSize'. rewrite Hlist. reflexivity.
  - intros Hbeyond. rewrite Hthis. unfold props.page_of.
    rewrite skipn_all2 by lia. rewrite firstn_nil. reflexivity.
Qed.

(** The statement of C6 on the second page, of size 2, of three notes. *)
Lemma List_returns_page_and_total_witness :
  (1 <= 2)%Z /\ (0 <= 2)%Z /\ ((2 - 1) * 2 < 2 ^ 63)%Z /\
  gorm.Where None sample.three_notes = inl (gorm.rows sample.three_notes) /\
  internal.DAO.List sample.three_notes 2 2 None = ([sample.note 3 1], 3%Z, None).
Proof.
  pose proof (List_returns_page_and_total sample.three_notes 2 2 None
                (gorm.rows sample.three_notes)
                ltac:(lia) ltac:(lia) ltac:(lia) eq_refl) as [Hlist _].
  split; [lia|]. split; [lia|]. split; [lia|]. split; [reflexivity|].
  exact Hlist.
Defined.

(** C6 as stated fails.  With a page size of -1 the first page of three
    notes holds all three, where a page limited to the page size holds
    none; and page [2^62 + 1] of size 4, whose offset [2^64] is beyond the
    three notes, is not empty, because the offset wraps to 0. *)
Lemma List_page_not_as_stated :
  fst (fst (internal.DAO.List sample.three_notes 1 (-1) None))
  = gorm.rows sample.three_notes /\
  props.page_of 1 (-1) (gorm.rows sample.three_notes) = [] /\
  (Z.of_nat (List.length (gorm.rows sample.three_notes))
   <= (4611686018427387905 - 1) * 4)%Z /\
  fst (fst (internal.DAO.List sample.three_notes 4611686018427387905 4 None))
  = gorm.rows sample.three_notes.
Proof.
  split; [vm_compute; reflexivity|].
  split; [vm_compute; reflexivity|].
  split; [vm_compute; discriminate|].
  vm_compute; reflexivity.
Qed.

(** *** Listing: the filters of the query *)

Lemma filters_of_lookup {T : Type} (c : internal.Context T) (k v : string) :
  internal.RegisterResource.filters_of c !! k = Some v
  <-> k <> "page" /\ k <> "size" /\
      exists rest, internal.URL_Query c !! k = Some (v, rest).
Proof.
  unfold internal.RegisterResource.filters_of.
  rewrite lookup_fmap, fmap_Some. split.
  - intros [[v' rest] [Hl ->]]. apply map_lookup_filter_Some in Hl.
    destruct Hl as [Hl [Hp Hs]]. simpl in *. eauto.
  - intros [Hp [Hs [rest Hl]]]. exists (v, rest). split; [|reflexivity].
    apply map_lookup_filter_Some. split; [exact Hl | split; assumption].
Qed.

Lemma satisfies_lookup {T : Type} {M : gorm.Model T}
    (f : gmap string string) (row : T) :
  gorm.satisfies f row = true
  <-> forall k v, f !! k = Some v -> gorm.column_eq k v row = true.
Proof.
  unfold gorm.satisfies. rewrite forallb_forall. split.
  - intros H k v Hl. apply (H (k, v)). apply list_elem_of_In, elem_of_map_to_list, Hl.
  - intros H [k v] Hin. apply H. apply elem_of_map_to_list, list_elem_of_In, Hin.
Qed.

Lemma known_columns_lookup {T : Type} {M : gorm.Model T} (f : gmap string string) :
  gorm.known_columns f = true
  <-> forall k v, f !! k = Some v -> gorm.has_column k = true.
Proof.
  unfold gorm.known_columns. rewrite forallb_forall. split.
  - intros H k v Hl. apply (H (k, v)). apply list_elem_of_In, elem_of_map_to_list, Hl.
  - intros H [k v] Hin. apply (H k v). apply elem_of_map_to_list, list_elem_of_In, Hin.
Qed.

(** C5, as amended.  The list handler of [RegisterResource] takes as
    filters the first value of every query parameter other than [page]
    and [size].  When every filter names a column of the table the
    response has status 200 and holds the requested page of the rows that
    match every filter on its column, with the number of those rows as the
    total; otherwise the response has status 500 with the error of the
    store. *)
Theorem LIST_applies_query_filters {T : Type} {M : gorm.Model T}
    (db : gorm.Table T) (c : internal.Context T) :
  let page := fst (strconv.Atoi (internal.DefaultQuery c "page" "1")) in
  let pageSize := fst (strconv.Atoi (internal.DefaultQuery c "size" "10")) in
  let filters := internal.RegisterResource.filters_of c in
  let matching := List.filter (gorm.satisfies filters) (gorm.rows db) in
  (forall k v,
     filters !! k = Some v
     <-> k <> "page" /\ k <> "size" /\
         exists rest, internal.URL_Query c !! k = Some (v, rest)) /\
  (gorm.known_columns filters = true
   <-> forall k v, filters !! k = Some v -> gorm.has_column k = true) /\
  (forall row,
     In row matching
     <-> In row (gorm.rows db) /\
         forall k v, filters !! k = Some v -> gorm.column_eq k v row = true) /\
  internal.RegisterResource.LIST db c
  = if gorm.known_columns filters
    then (db, internal.MkResponse internal.StatusOK
                (internal.JSON_list
                   (internal.MkListResponse
                      (gorm.OffsetLimit (wrap_int ((page - 1) * pageSize)) pageSize matching)
                      (Z.of_nat (List.length matching)) page pageSize)))
    else (db, internal.MkResponse internal.StatusInternalServerError
                (internal.H_error "no such column")).
Proof.
  intros page pageSize filters matching.
  split; [intros k v; apply filters_of_lookup|].
  split; [apply known_columns_lookup|].
  split.
  - intros row. unfold matching. rewrite filter_In, satisfies_lookup. reflexivity.
  - unfold internal.RegisterResource.LIST, internal.DAO.List, gorm.Where.
    fold page pageSize filters.
    destruct (gorm.known_columns filters); [|reflexivity].
    fold matching. rewrite wrap_int_mul_l. reflexivity.
Qed.

(** C5 as stated fails.  The list handler of [Router] applies no filter:
    asked for [kind=Task] over a note and a task it answers both.  And the
    list handler of [RegisterResource] answers 500, not 200, to a filter
    on a column the table does not have. *)
Lemma List_ignores_or_rejects_filters :
  let by_kind : gmap string (string * list string) := {[ "kind" := ("Task", []) ]} in
  let by_colour : gmap string (string * list string) := {[ "colour" := ("red", []) ]} in
  snd (internal.Router.List sample.note_and_task (sample.list_request by_kind))
  = internal.MkResponse 200 (internal.JSON_items [sample.note 1 1; sample.task 2]) /\
  internal.Code
    (snd (internal.RegisterResource.LIST sample.note_and_task (sample.list_request by_colour)))
  = 500%Z.
Proof. split; vm_compute; reflexivity. Qed.

(** *** [ParseUint] accepts the numerals that fit *)

Lemma digit_val_digit (c : ascii) :
  props.is_digit c = true ->
  strconv.digit_val (N_of_ascii c) = Some (N_of_ascii c - 48)%N /\
  (N_of_ascii c - 48 < 10)%N.
Proof.
  unfold props.is_digit, strconv.digit_val. intros H. rewrite H.
  apply andb_true_iff in H. destruct H as [H1 H2].
  apply N.leb_le in H1, H2. split; [reflexivity | lia].
Qed.

Lemma digit_val_other (c : ascii) :
  props.is_digit c = false ->
  match strconv.digit_val (N_of_ascii c) with
  | None => True
  | Some d => (10 <= d)%N
  end.
Proof.
  unfold props.is_digit, strconv.digit_val. intros H. rewrite H.
  match goal with
  | |- context [if ?b then Some _ else None] => destruct b
  end; [lia | exact I].
Qed.

Lemma numeral_from_ge (s : string) (n : N) : (n <= props.numeral_from n s)%N.
Proof.
  revert n. induction s as [|c s IH]; intros n; simpl; [lia|].
  specialize (IH (n * 10 + (N_of_ascii c - 48))%N). lia.
Qed.

Lemma cutoff_value : (maxUint64 / 10 + 1 = 1844674407370955162)%N.
Proof. reflexivity. Qed.

(** The loop returns without error exactly on digits whose number does not
    exceed [maxVal], and then returns that number. *)
Lemma ParseUint_loop_spec (maxVal : N) (s : string) (n : N) :
  (maxVal < 2 ^ 64)%N -> (n <= maxVal)%N ->
  if forallb props.is_digit (list_ascii_of_string s)
     && (props.numeral_from n s <=? maxVal)%N
  then strconv.ParseUint_loop maxVal s n = (props.numeral_from n s, None)
  else snd (strconv.ParseUint_loop maxVal s n) <> None.
Proof.
  intros Hmax. revert n. induction s as [|c s IH]; intros n Hn.
  - simpl. destruct (n <=? maxVal)%N eqn:E; [reflexivity|].
    apply N.leb_gt in E. lia.
  - cbn [list_ascii_of_string forallb props.numeral_from strconv.ParseUint_loop].
    destruct (props.is_digit c) eqn:Hc.
    + destruct (digit_val_digit c Hc) as [-> Hd].
      destruct (10 <=? N_of_ascii c - 48)%N eqn:E10; [apply N.leb_le in E10; lia|].
      rewrite cutoff_value.
      pose proof (numeral_from_ge s (n * 10 + (N_of_ascii c - 48))%N) as Hge.
      change (2 ^ 64)%N with 18446744073709551616%N in *.
      destruct (1844674407370955162 <=? n)%N eqn:Ecut.
      { apply N.leb_le in Ecut. cbn [andb].
        destruct (_ <=? maxVal)%N eqn:E; [apply N.leb_le in E; lia|].
        rewrite andb_false_r. discriminate. }
      apply N.leb_gt in Ecut. cbv zeta.
      destruct (n * 10 + (N_of_ascii c - 48) <? 18446744073709551616)%N eqn:Ew.
      * apply N.ltb_lt in Ew. rewrite N.mod_small by exact Ew.
        destruct (n * 10 + (N_of_ascii c - 48) <? n * 10)%N eqn:E1;
          [apply N.ltb_lt in E1; lia|].
        destruct (maxVal <? n * 10 + (N_of_ascii c - 48))%N eqn:E2; cbn [orb andb].
        { apply N.ltb_lt in E2.
          destruct (_ <=? maxVal)%N eqn:E; [apply N.leb_le in E; lia|].
          rewrite andb_false_r. discriminate. }
        apply N.ltb_ge in E2. apply IH. exact E2.
      * apply N.ltb_ge in Ew.
        assert (Hmod : ((n * 10 + (N_of_ascii c - 48)) mod 18446744073709551616
                        = n * 10 + (N_of_ascii c - 48) - 18446744073709551616)%N).
        { symmetry. apply N.mod_unique with (q := 1%N); lia. }
        rewrite Hmod.
        destruct (_ <? n * 10)%N eqn:E1; [|apply N.ltb_ge in E1; lia].
        cbn [orb andb].
        destruct (_ <=? maxVal)%N eqn:E; [apply N.leb_le in E; lia|].
        rewrite andb_false_r. discriminate.
    + cbn [andb]. pose proof (digit_val_other c Hc) as Hd.
      destruct (strconv.digit_val (N_of_ascii c)) as [d|]; [|discriminate].
      destruct (10 <=? d)%N eqn:E; [discriminate | apply N.leb_gt in E; lia].
Qed.

Lemma ParseUint_spec (bits : N) (s : string) :
  (1 <= bits <= 64)%N ->
  if props.fits bits s
  then strconv.ParseUint s bits = (props.numeral_value s, None)
  else snd (strconv.ParseUint s bits) <> None.
Proof.
  intros Hbits. unfold props.fits, props.is_numeral, strconv.ParseUint.
  destruct (is_empty s); [discriminate|]. cbn [negb andb].
  destruct (64 <? bits)%N eqn:E64; [apply N.ltb_lt in E64; lia|].
  destruct (bits =? 0)%N eqn:E0; [apply N.eqb_eq in E0; lia|].
  assert (Hpow : (0 < 2 ^ bits <= 2 ^ 64)%N).
  { split; [apply N.neq_0_lt_0, N.pow_nonzero; lia | apply N.pow_le_mono_r; lia]. }
  pose proof (ParseUint_loop_spec (2 ^ bits - 1) s 0 ltac:(lia) ltac:(lia)) as H.
  unfold props.numeral_value.
  replace (props.numeral_from 0 s <? 2 ^ bits)%N
    with (props.numeral_from 0 s <=? 2 ^ bits - 1)%N; [exact H|].
  destruct (props.numeral_from 0 s <=? 2 ^ bits - 1)%N eqn:E1;
    destruct (props.numeral_from 0 s <? 2 ^ bits)%N eqn:E2; try reflexivity.
  - apply N.leb_le in E1. apply N.ltb_ge in E2. lia.
  - apply N.leb_gt in E1. apply N.ltb_lt in E2. lia.
Qed.

(** *** The identifier of a request *)

Ltac parse_id bits c :=
  let H := fresh "Hparse" in
  pose proof (ParseUint_spec bits (internal.Param_id c) ltac:(lia)) as H;
  destruct (props.fits bits (internal.Param_id c));
  [ rewrite H
  | destruct (strconv.ParseUint (internal.Param_id c) bits) as [? [?|]];
    [ | exfalso; apply H; reflexivity ] ].

Ltac by_cases :=
  repeat match goal with
         | |- context [match ?x with _ => _ end] => destruct x
         end.

(** C8, as amended.  A handler for [GET], [PUT] or [DELETE] on [/:id]
    answers 400, with the message of a malformed identifier and without
    touching the table, when the path segment is not a decimal numeral
    that fits the width the handler parses at: 64 bits for the handlers of
    [Router], 32 bits for those of [RegisterResource].  When the segment is
    such a numeral, [GET] and [DELETE] never answer 400, and [PUT] answers
    400 only when the body does not bind. *)
Theorem malformed_id_is_400 {T : Type} {M : gorm.Model T}
    (env : Env) (db : gorm.Table T) (c : internal.Context T) :
  (if props.fits 64 (internal.Param_id c)
   then
     internal.Code (snd (internal.Router.Get db c)) <> 400%Z /\
     internal.Code (snd (internal.Router.Delete env db c)) <> 400%Z /\
     (internal.Code (snd (internal.Router.Update env db c)) = 400%Z ->
      exists err, internal.ShouldBindJSON c gorm.zero = inr err)
   else
     let bad := internal.MkResponse 400 (internal.H_error "invalid id") in
     internal.Router.Get db c = (db, bad) /\
     internal.Router.Delete env db c = (db, bad) /\
     internal.Router.Update env db c = (db, bad)) /\
  (if props.fits 32 (internal.Param_id c)
   then
     internal.Code (snd (internal.RegisterResource.GET db c)) <> 400%Z /\
     internal.Code (snd (internal.RegisterResource.DELETE env db c)) <> 400%Z /\
     (internal.Code (snd (internal.RegisterResource.PUT env db c)) = 400%Z ->
      exists obj err, internal.ShouldBindJSON c obj = inr err)
   else
     let bad := internal.MkResponse 400 (internal.H_error "Invalid ID format") in
     internal.RegisterResource.GET db c = (db, bad) /\
     internal.RegisterResource.DELETE env db c = (db, bad) /\
     internal.RegisterResource.PUT env db c = (db, bad)).
Proof.
  split.
  - unfold internal.Router.Get, internal.Router.Delete, internal.Router.Update.
    parse_id 64%N c.
    + split; [|split].
      * by_cases; cbn; discriminate.
      * by_cases; cbn; discriminate.
      * destruct (internal.ShouldBindJSON c gorm.zero) as [v|err]; [|eauto].
        by_cases; cbn; discriminate.
    + repeat split.
  - unfold internal.RegisterResource.GET, internal.RegisterResource.DELETE,
      internal.RegisterResource.PUT.
    parse_id 32%N c.
    + split; [|split].
      * by_cases; cbn; discriminate.
      * by_cases; cbn; discriminate.
      * destruct (gorm.First db gorm.zero _) as [obj [e|]].
        -- by_cases; cbn; discriminate.
        -- destruct (internal.ShouldBindJSON c obj) as [v|err] eqn:Hbind; [|eauto].
           by_cases; cbn; discriminate.
    + repeat split.
Qed.

(** C8 as stated fails for numerals that do not fit: [2^64] is a decimal
    numeral, and [Router.Get] answers 400 to it; [2^32] is one, and the
    handler of [RegisterResource] answers 400 to it where that of [Router]
    answers 404. *)
Lemma large_numeral_is_400 :
  props.is_numeral "18446744073709551616" = true /\
  internal.Router.Get sample.three_notes
    (sample.request "18446744073709551616" meta.zeroBaseResource)
  = (sample.three_notes, internal.MkResponse 400 (internal.H_error "invalid id")) /\
  props.is_numeral "4294967296" = true /\
  internal.Code
    (snd (internal.RegisterResource.GET sample.three_notes
            (sample.request "4294967296" meta.zeroBaseResource))) = 400%Z /\
  internal.Code
    (snd (internal.Router.Get sample.three_notes
            (sample.request "4294967296" meta.zeroBaseResource))) = 404%Z.
Proof. repeat split; vm_compute; reflexivity. Qed.

(** *** Validation failures and the status of the response *)

(** What [Router.Create] does with a value its validator rejects: 400,
    and the table is left alone. *)
Lemma Router_Create_invalid_is_400 {T : Type} {M : gorm.Model T}
    (Validate : T -> option error) (env : Env) (db : gorm.Table T)
    (c : internal.Context T) (resource : T) (err : error) :
  internal.ShouldBindJSON c gorm.zero = inl resource ->
  Validate resource = Some err ->
  internal.Router.Create (Some Validate) env db c
  = (db, internal.MkResponse 400 (internal.H_error (Error err))).
Proof.
  intros Hbind Hval. unfold internal.Router.Create. rewrite Hbind, Hval. reflexivity.
Qed.

(** What [Router.Update] does when the update hook fails, be it on a
    validation: 500 (404 if the hook returns [ErrRecordNotFound]), and the
    table is left alone. *)
Lemma Router_Update_hook_failure_is_500 {T : Type} {M : gorm.Model T}
    (env : Env) (db : gorm.Table T) (c : internal.Context T)
    (id : N) (resource v : T) (err : error) :
  strconv.ParseUint (internal.Param_id c) 64 = (id, None) ->
  internal.ShouldBindJSON c gorm.zero = inl resource ->
  gorm.hookBeforeUpdate env resource = (v, Some err) ->
  err <> ErrRecordNotFound ->
  internal.Router.Update env db c
  = (db, internal.MkResponse 500 (internal.H_error (Error err))).
Proof.
  intros Hid Hbind Hhook Herr. unfold internal.Router.Update.
  rewrite Hid, Hbind, Update_cases, Hhook.
  destruct err; try reflexivity. contradiction.
Qed.

(** C4 on concrete requests.  A user named [ab] fails the validation of
    [User], and [Router.Create] answers 400 to it without writing.  The
    same body sent to [Router.Update] for the stored user 1 is answered
    200 and written to the row, and sent to the create handler of
    [RegisterResource] it is answered 201 and inserted: neither path runs
    the validation of [User].  A resource without a kind fails the
    validation of the contract; [Router.Create] answers 400 to it, while
    [Router.Update] and the create handler of [RegisterResource] answer
    500 with the error of the hook (and write nothing). *)
Theorem validation_failure_not_always_400 :
  let M := apiv1.User_Model apiv1.sample_bcrypt in
  let short := sample.typed_body "ab" "ab@example.com" "pw123456" in
  (apiv1.Validate short
   = Some (errors_New "username must be at least 3 characters long") /\
   internal.Router.Create (Some apiv1.Validate) sample.env sample.users
     (sample.request "" short)
   = (sample.users,
      internal.MkResponse 400
        (internal.H_error "username must be at least 3 characters long")) /\
   (let '(db', response) :=
      internal.Router.Update sample.env sample.users (sample.request "1" short) in
    internal.Code response = 200%Z /\
    List.map apiv1.Username (gorm.rows db') = ["ab"]) /\
   (let '(db', response) :=
      internal.RegisterResource.POST sample.env sample.users (sample.request "" short) in
    internal.Code response = 201%Z /\
    List.map apiv1.Username (gorm.rows db') = ["alice"; "ab"])) /\
  (meta.Validate meta.zeroBaseResource = Some (errors_New "kind is required") /\
   internal.Router.Create (Some meta.Validate) sample.env sample.three_notes
     (sample.request "" meta.zeroBaseResource)
   = (sample.three_notes, internal.MkResponse 400 (internal.H_error "kind is required")) /\
   internal.Router.Update sample.env sample.three_notes
     (sample.request "1" meta.zeroBaseResource)
   = (sample.three_notes, internal.MkResponse 500 (internal.H_error "kind is required")) /\
   internal.RegisterResource.POST sample.env sample.three_notes
     (sample.request "" meta.zeroBaseResource)
   = (sample.three_notes, internal.MkResponse 500 (internal.H_error "kind is required"))).
Proof. repeat split; vm_compute; reflexivity. Qed.

(** ** Further properties of the sources *)

(** *** The annotations of a resource *)

Lemma Annotations_set (v : option (gmap string string)) (b : meta.BaseResource) :
  meta.Annotations (meta.objectMeta (meta.set_Annotations v b)) = v.
Proof. reflexivity. Qed.

(** X1.  After [SetMetadata key value], also on a resource whose
    annotations are [nil], [GetMetadata] finds [value] under [key] and
    finds under every other key what it found before; nothing but the
    annotations has changed. *)
Theorem SetMetadata_then_GetMetadata (key value key' : string) (b : meta.BaseResource) :
  meta.GetMetadata key' (meta.SetMetadata key value b)
  = (if String.eqb key' key then (value, true) else meta.GetMetadata key' b) /\
  meta.set_Annotations (meta.Annotations (meta.objectMeta b)) (meta.SetMetadata key value b)
  = b.
Proof.
  split.
  - unfold meta.GetMetadata, meta.SetMetadata. rewrite Annotations_set.
    destruct (String.eqb_spec key' key) as [->|Hne].
    + now rewrite lookup_insert_eq.
    + rewrite lookup_insert_ne by congruence.
      destruct (meta.Annotations (meta.objectMeta b)); [reflexivity|].
      now rewrite lookup_empty.
  - destruct b as [tm [id uid rv ca ua la an st]]. reflexivity.
Qed.

(** X2.  After [DeleteMetadata key], [GetMetadata] finds nothing under
    [key] and finds under every other key what it found before; on a
    resource whose annotations are [nil] the deletion changes nothing (the
    annotations stay [nil]) and every lookup finds nothing. *)
Theorem DeleteMetadata_then_GetMetadata (key key' : string) (b : meta.BaseResource) :
  meta.GetMetadata key' (meta.DeleteMetadata key b)
  = (if String.eqb key' key then ("", false) else meta.GetMetadata key' b) /\
  match meta.Annotations (meta.objectMeta b) with
  | None => meta.DeleteMetadata key b = b /\ meta.GetMetadata key' b = ("", false)
  | Some _ =>
      meta.set_Annotations (meta.Annotations (meta.objectMeta b)) (meta.DeleteMetadata key b)
      = b
  end.
Proof.
  unfold meta.GetMetadata, meta.DeleteMetadata.
  destruct (meta.Annotations (meta.objectMeta b)) as [m|] eqn:Han.
  - rewrite Annotations_set. split.
    + destruct (String.eqb_spec key' key) as [->|Hne].
      * now rewrite lookup_delete_eq.
      * now rewrite lookup_delete_ne by congruence.
    + destruct b as [tm [id uid rv ca ua la an st]]. simpl in Han. subst an. reflexivity.
  - rewrite Han. split; [|split; reflexivity].
    now destruct (String.eqb key' key).
Qed.

(** *** The hooks of the contract, run again and run in vain *)

(** X3.  [BeforeUpdate] increments the version of the value it is called
    on before it validates, so an update that fails on the validation of
    the contract leaves the table as it was but hands the value back with
    its version incremented. *)
Theorem failed_update_keeps_the_increment
    (env : Env) (db : gorm.Table meta.BaseResource) (id : N) (b : meta.BaseResource) :
  let bumped :=
    meta.set_ResourceVersion (wrap_int (meta.GetResourceVersion b + 1)) b in
  meta.BeforeUpdate b = (bumped, meta.Validate b) /\
  match meta.Validate b with
  | Some err => internal.DAO.Update env db id b = (db, bumped, Some err)
  | None => fst (meta.BeforeUpdate b) = bumped
  end.
Proof.
  intros bumped. split; [apply BeforeUpdate_result|].
  destruct (meta.Validate b) as [err|] eqn:Hv.
  - rewrite Update_cases. cbn [gorm.hookBeforeUpdate schema.BaseResource_Model].
    rewrite BeforeUpdate_result, Hv. reflexivity.
  - rewrite BeforeUpdate_result. reflexivity.
Qed.

Lemma BeforeCreate_settled (env : Env) (b : meta.BaseResource) :
  is_empty (meta.GetUID b) = false ->
  (meta.GetResourceVersion b =? 0)%Z = false ->
  is_empty (meta.Phase (meta.GetStatus b)) = false ->
  meta.BeforeCreate env b = (b, meta.Validate b).
Proof.
  intros Hu Hr Hp. unfold meta.BeforeCreate.
  rewrite Hu, Hr, Hp. now destruct (meta.Validate b).
Qed.

(** X4.  A second run of [BeforeCreate] changes nothing: once the uid, the
    version and the status have been set by a first run (the uid it drew
    being a non-empty string, as every UUID is), a later run in any
    environment returns the same value and the same verdict. *)
Theorem BeforeCreate_twice (env env' : Env) (b : meta.BaseResource)
    (Huuid : uuid_New env <> "") :
  meta.BeforeCreate env' (fst (meta.BeforeCreate env b)) = meta.BeforeCreate env b.
Proof.
  apply is_empty_false in Huuid.
  assert (H : let b1 := fst (meta.BeforeCreate env b) in
              is_empty (meta.GetUID b1) = false /\
              (meta.GetResourceVersion b1 =? 0)%Z = false /\
              is_empty (meta.Phase (meta.GetStatus b1)) = false).
  { unfold meta.BeforeCreate.
    destruct b as [tm [id uid rv ca ua la an [ph ms rs lt]]]. cbn.
    destruct (is_empty uid) eqn:Eu; cbn;
      destruct (rv =? 0)%Z eqn:Er; cbn;
      destruct (is_empty ph) eqn:Ep; cbn;
      match goal with
      | |- context [meta.Validate ?x] => destruct (meta.Validate x)
      end; cbn; auto. }
  destruct H as [Hu [Hr Hp]].
  rewrite (BeforeCreate_settled env' _ Hu Hr Hp).
  rewrite (Validate_typeMeta b) by apply BeforeCreate_typeMeta.
  rewrite <- (BeforeCreate_error env b). now destruct (meta.BeforeCreate env b).
Qed.

(** X4 on a request value that names its type and nothing else. *)
Lemma BeforeCreate_twice_witness :
  uuid_New sample.env <> "" /\
  meta.BeforeCreate (MkEnv "" 0) (fst (meta.BeforeCreate sample.env sample.bare_note))
  = meta.BeforeCreate sample.env sample.bare_note.
Proof.
  split; [discriminate|].
  apply (BeforeCreate_twice sample.env (MkEnv "" 0) sample.bare_note). discriminate.
Defined.

(** *** Matching by derivatives is matching *)

Lemma append_nil_inv (s1 s2 : string) : s1 ++ s2 = "" -> s1 = "" /\ s2 = "".
Proof. destruct s1; simpl; [auto | discriminate]. Qed.

Lemma nullable_Matches (r : regexp.regex) :
  regexp.nullable r = true <-> laws.Matches r "".
Proof.
  split.
  - induction r; simpl; intros H; try discriminate.
    + constructor.
    + apply andb_true_iff in H. destruct H as [H1 H2].
      change "" with ("" ++ ""). constructor; auto.
    + apply orb_true_iff in H. destruct H as [H|H];
        [apply laws.MAltL | apply laws.MAltR]; auto.
    + constructor.
  - intros H. remember "" as s eqn:Hs.
    induction H; simpl; try reflexivity; try discriminate.
    + apply append_nil_inv in Hs. destruct Hs as [-> ->].
      rewrite IHMatches1, IHMatches2; reflexivity.
    + rewrite IHMatches by assumption. reflexivity.
    + rewrite IHMatches by assumption. apply orb_true_r.
Qed.

Lemma Matches_deriv (c : ascii) (r : regexp.regex) (s : string) :
  laws.Matches (regexp.deriv c r) s -> laws.Matches r (String c s).
Proof.
  revert s. induction r; simpl; intros s H.
  - inversion H.
  - inversion H.
  - destruct (p c) eqn:Hp; inversion H; subst. now constructor.
  - destruct (regexp.nullable r1) eqn:Hn.
    + inversion H; subst.
      * match goal with
        | Hc : laws.Matches (regexp.Cat _ _) _ |- _ => inversion Hc; subst
        end.
        change (String c (s1 ++ s2)) with (String c s1 ++ s2). constructor; auto.
      * change (String c s) with ("" ++ String c s).
        constructor; [apply nullable_Matches, Hn | auto].
    + inversion H; subst.
      change (String c (s1 ++ s2)) with (String c s1 ++ s2). constructor; auto.
  - inversion H; subst; [apply laws.MAltL | apply laws.MAltR]; auto.
  - inversion H; subst.
    change (String c (s1 ++ s2)) with (String c s1 ++ s2). constructor; auto.
Qed.

Lemma deriv_Matches (c : ascii) (r : regexp.regex) (s : string) :
  laws.Matches r (String c s) -> laws.Matches (regexp.deriv c r) s.
Proof.
  intros H. remember (String c s) as cs eqn:Hcs. revert s Hcs.
  induction H as [ | p c0 Hp | r1 r2 s1 s2 H1 IH1 H2 IH2 | r1 r2 s0 H0 IH0
                 | r1 r2 s0 H0 IH0 | r0 | r0 s1 s2 H1 IH1 H2 IH2 ];
    intros t Hcs; simpl.
  - discriminate.
  - injection Hcs as -> <-. rewrite Hp. constructor.
  - destruct s1 as [|c1 s1].
    + change ("" ++ s2) with s2 in Hcs. subst s2.
      apply nullable_Matches in H1. rewrite H1.
      apply laws.MAltR. apply IH2. reflexivity.
    + change (String c1 s1 ++ s2) with (String c1 (s1 ++ s2)) in Hcs.
      injection Hcs as -> <-.
      specialize (IH1 s1 eq_refl).
      destruct (regexp.nullable r1); [apply laws.MAltL|]; constructor; assumption.
  - apply laws.MAltL. auto.
  - apply laws.MAltR. auto.
  - discriminate.
  - destruct s1 as [|c1 s1].
    + change ("" ++ s2) with s2 in Hcs. apply IH2. exact Hcs.
    + change (String c1 s1 ++ s2) with (String c1 (s1 ++ s2)) in Hcs.
      injection Hcs as -> <-.
      constructor; [apply IH1; reflexivity | assumption].
Qed.

Lemma MatchString_Matches (r : regexp.regex) (s : string) :
  regexp.MatchString r s = true <-> laws.Matches r s.
Proof.
  revert r. induction s as [|c s IH]; intros r; simpl.
  - apply nullable_Matches.
  - rewrite IH. split; [apply Matches_deriv | apply deriv_Matches].
Qed.

Lemma Matches_Class (p : ascii -> bool) (s : string) :
  laws.Matches (regexp.Class p) s <-> exists c, s = String c "" /\ p c = true.
Proof.
  split.
  - intros H. inversion H; subst. eauto.
  - intros [c [-> Hp]]. now constructor.
Qed.

Lemma Matches_Cat (r1 r2 : regexp.regex) (s : string) :
  laws.Matches (regexp.Cat r1 r2) s
  <-> exists s1 s2, s = s1 ++ s2 /\ laws.Matches r1 s1 /\ laws.Matches r2 s2.
Proof.
  split.
  - intros H. inversion H; subst. eauto.
  - intros [s1 [s2 [-> [H1 H2]]]]. now constructor.
Qed.

Lemma all_in_cons (p : ascii -> bool) (c : ascii) (s : string) :
  laws.all_in p (String c s) = p c && laws.all_in p s.
Proof. reflexivity. Qed.

Lemma Matches_Star_Class (p : ascii -> bool) (s : string) :
  laws.Matches (regexp.Star (regexp.Class p)) s <-> laws.all_in p s = true.
Proof.
  split.
  - intros H. remember (regexp.Star (regexp.Class p)) as r eqn:Hr.
    induction H as [ | | | | | r0 | r0 s1 s2 H1 IH1 H2 IH2 ]; try discriminate.
    + reflexivity.
    + injection Hr as ->. apply Matches_Class in H1. destruct H1 as [c [-> Hp]].
      change (String c "" ++ s2) with (String c s2).
      rewrite all_in_cons, Hp. apply IH2. reflexivity.
  - induction s as [|c s IH]; intros H.
    + constructor.
    + rewrite all_in_cons in H. apply andb_true_iff in H. destruct H as [Hp Hs].
      change (String c s) with (String c "" ++ s).
      constructor; [now constructor | auto].
Qed.

Lemma Matches_Plus_Class (p : ascii -> bool) (s : string) :
  laws.Matches (regexp.Plus (regexp.Class p)) s <-> s <> "" /\ laws.all_in p s = true.
Proof.
  unfold regexp.Plus. rewrite Matches_Cat. split.
  - intros [s1 [s2 [-> [H1 H2]]]].
    apply Matches_Class in H1. destruct H1 as [c [-> Hp]].
    apply Matches_Star_Class in H2.
    change (String c "" ++ s2) with (String c s2).
    split; [discriminate|]. now rewrite all_in_cons, Hp.
  - intros [Hne H]. destruct s as [|c s]; [contradiction|].
    rewrite all_in_cons in H. apply andb_true_iff in H. destruct H as [Hp Hs].
    exists (String c ""), s. split; [reflexivity|].
    split; [now constructor | now apply Matches_Star_Class].
Qed.

Lemma Matches_two_or_more (p : ascii -> bool) (s : string) :
  laws.Matches
    (regexp.Cat (regexp.Class p) (regexp.Cat (regexp.Class p) (regexp.Star (regexp.Class p)))) s
  <-> (2 <= String.length s)%nat /\ laws.all_in p s = true.
Proof.
  rewrite Matches_Cat. split.
  - intros [s1 [s2 [-> [H1 H2]]]].
    apply Matches_Class in H1. destruct H1 as [c1 [-> Hp1]].
    apply Matches_Cat in H2. destruct H2 as [s3 [s4 [-> [H3 H4]]]].
    apply Matches_Class in H3. destruct H3 as [c2 [-> Hp2]].
    apply Matches_Star_Class in H4.
    change (String c1 "" ++ String c2 "" ++ s4) with (String c1 (String c2 s4)).
    rewrite !all_in_cons, Hp1, Hp2. simpl. split; [lia | exact H4].
  - intros [Hlen H]. destruct s as [|c1 [|c2 s]]; simpl in Hlen; try lia.
    rewrite !all_in_cons in H.
    apply andb_true_iff in H. destruct H as [Hp1 H].
    apply andb_true_iff in H. destruct H as [Hp2 H].
    exists (String c1 ""), (String c2 s). split; [reflexivity|].
    split; [now constructor|].
    apply Matches_Cat. exists (String c2 ""), s. split; [reflexivity|].
    split; [now constructor | now apply Matches_Star_Class].
Qed.

Lemma Matches_byte (b : ascii) (s : string) :
  laws.Matches (regexp.Class (Ascii.eqb b)) s <-> s = String b "".
Proof.
  rewrite Matches_Class. split.
  - intros [c [-> Hc]]. apply Ascii.eqb_eq in Hc. now subst.
  - intros ->. exists b. split; [reflexivity | apply Ascii.eqb_refl].
Qed.

Lemma Matches_emailRegex_shape (s : string) :
  laws.Matches apiv1.emailRegex s <-> laws.email_shape s.
Proof.
  unfold apiv1.emailRegex, laws.email_shape.
  rewrite Matches_Cat. split.
  - intros [l [s1 [-> [Hl H1]]]].
    apply Matches_Plus_Class in Hl. destruct Hl as [Hlne Hl].
    apply Matches_Cat in H1. destruct H1 as [at_ [s2 [-> [Hat H2]]]].
    apply Matches_byte in Hat. subst at_.
    apply Matches_Cat in H2. destruct H2 as [d [s3 [-> [Hd H3]]]].
    apply Matches_Plus_Class in Hd. destruct Hd as [Hdne Hd].
    apply Matches_Cat in H3. destruct H3 as [dot [t [-> [Hdot Ht]]]].
    apply Matches_byte in Hdot. subst dot.
    apply Matches_two_or_more in Ht. destruct Ht as [Hlen Ht].
    exists l, d, t. repeat split; assumption.
  - intros [l [d [t [-> [Hlne [Hl [Hdne [Hd [Hlen Ht]]]]]]]]].
    exists l, ("@" ++ d ++ "." ++ t). split; [reflexivity|].
    split; [apply Matches_Plus_Class; split; assumption|].
    apply Matches_Cat. exists "@", (d ++ "." ++ t). split; [reflexivity|].
    split; [now apply Matches_byte|].
    apply Matches_Cat. exists d, ("." ++ t). split; [reflexivity|].
    split; [apply Matches_Plus_Class; split; assumption|].
    apply Matches_Cat. exists ".", t. split; [reflexivity|].
    split; [now apply Matches_byte|].
    apply Matches_two_or_more. split; assumption.
Qed.

(** X5.  The expression the validation of [User] matches e-mail addresses
    against accepts exactly the strings made of a non-empty local part of
    letters, digits and [._%+-], an [@], a non-empty domain of letters,
    digits, dots and hyphens, a dot, and at least two letters. *)
Theorem emailRegex_matches_addresses (s : string) :
  regexp.MatchString apiv1.emailRegex s = true <-> laws.email_shape s.
Proof.
  split.
  - intros Hmatch. apply Matches_emailRegex_shape, MatchString_Matches, Hmatch.
  - intros Hshape. apply MatchString_Matches, Matches_emailRegex_shape, Hshape.
Qed.

(** *** The validation of [User] *)

Lemma Validate_None_iff (b : meta.BaseResource) :
  meta.Validate b = None <-> meta.GetKind b <> "" /\ meta.GetAPIVersion b <> "".
Proof.
  unfold meta.Validate.
  destruct (is_empty (meta.GetKind b)) eqn:Hk.
  - apply is_empty_true in Hk. split; [discriminate | intros [H _]; contradiction].
  - apply is_empty_false in Hk.
    destruct (is_empty (meta.GetAPIVersion b)) eqn:Ha.
    + apply is_empty_true in Ha. split; [discriminate | intros [_ H]; contradiction].
    + apply is_empty_false in Ha. split; [intros _; split; assumption | reflexivity].
Qed.

(** X6.  [User.Validate] accepts a user exactly when its kind and
    apiVersion are not empty, its username has at least three bytes, its
    e-mail has the shape of an address and its password is not empty; when
    the validation of the contract fails, its error is the one reported. *)
Theorem User_Validate_accepts (u : apiv1.User) :
  (apiv1.Validate u = None
   <-> meta.GetKind (apiv1.base u) <> "" /\
       meta.GetAPIVersion (apiv1.base u) <> "" /\
       (3 <= String.length (apiv1.Username u))%nat /\
       laws.email_shape (apiv1.Email u) /\
       apiv1.Password u <> "") /\
  match meta.Validate (apiv1.base u) with
  | Some err => apiv1.Validate u = Some err
  | None => True
  end.
Proof.
  unfold apiv1.Validate.
  destruct (meta.Validate (apiv1.base u)) as [err|] eqn:Hb.
  - split; [|reflexivity]. split; [discriminate|].
    intros [Hk [Ha _]].
    assert (Hn : meta.Validate (apiv1.base u) = None) by (apply Validate_None_iff; auto).
    congruence.
  - split; [|exact I].
    apply Validate_None_iff in Hb. destruct Hb as [Hk Ha].
    destruct (is_empty (apiv1.Username u)) eqn:Hu.
    { apply is_empty_true in Hu. split; [discriminate|].
      intros [_ [_ [Hlen _]]]. rewrite Hu in Hlen. simpl in Hlen. lia. }
    destruct (String.length (apiv1.Username u) <? 3)%nat eqn:Hlen.
    { apply Nat.ltb_lt in Hlen. split; [discriminate|].
      intros [_ [_ [Hlen' _]]]. lia. }
    apply Nat.ltb_ge in Hlen.
    destruct (is_empty (apiv1.Email u)) eqn:He.
    { apply is_empty_true in He. split; [discriminate|].
      intros [_ [_ [_ [[l [d [t [Heq [Hl _]]]]] _]]]].
      rewrite He in Heq. symmetry in Heq. apply append_nil_inv in Heq.
      destruct Heq as [Heq _]. contradiction. }
    destruct (regexp.MatchString apiv1.emailRegex (apiv1.Email u)) eqn:Hm; cbn [negb].
    + apply MatchString_Matches, Matches_emailRegex_shape in Hm.
      destruct (is_empty (apiv1.Password u)) eqn:Hp.
      * apply is_empty_true in Hp. split; [discriminate|].
        intros [_ [_ [_ [_ H]]]]. contradiction.
      * apply is_empty_false in Hp. split; [|reflexivity].
        intros _. repeat split; assumption.
    + split; [discriminate|].
      intros [_ [_ [_ [Hshape _]]]].
      apply Matches_emailRegex_shape, MatchString_Matches in Hshape. congruence.
Qed.

(** *** Passwords and status of a [User] in its hooks *)

Lemma prefix_2b_not_2a (s : string) :
  HasPrefix s "$2b$" = true -> HasPrefix s "$2a$" = false.
Proof.
  unfold HasPrefix.
  destruct s as [|c1 [|c2 [|c3 s]]]; cbn [String.prefix];
    repeat match goal with
           | |- context [Ascii.ascii_dec ?a ?b] =>
               destruct (Ascii.ascii_dec a b); try discriminate; try subst
           end;
    try discriminate; try reflexivity; try congruence.
Qed.

(** X7.  A password that starts with [$2b$] counts as hashed for
    [isHashedPassword], but the create and update hooks test for [$2a$]
    only: they hand it to [bcrypt] and store what [bcrypt] answers. *)
Theorem hooks_rehash_2b_passwords
    (GenerateFromPassword : Env -> string -> string + error)
    (env : Env) (u : apiv1.User)
    (H2b : HasPrefix (apiv1.Password u) "$2b$" = true) :
  let rehashed :=
    match GenerateFromPassword env (apiv1.Password u) with
    | inl hashed => hashed
    | inr _ => apiv1.Password u
    end in
  apiv1.isHashedPassword (apiv1.Password u) = true /\
  apiv1.Password (fst (apiv1.BeforeCreate GenerateFromPassword env u)) = rehashed /\
  apiv1.Password (fst (apiv1.BeforeUpdate GenerateFromPassword env u)) = rehashed.
Proof.
  intros rehashed. pose proof (prefix_2b_not_2a _ H2b) as H2a.
  split; [unfold apiv1.isHashedPassword; rewrite H2b; apply orb_true_r|].
  rewrite User_BeforeCreate_eq, User_BeforeUpdate_eq. cbv zeta. rewrite H2a.
  unfold rehashed.
  destruct (GenerateFromPassword env (apiv1.Password u)); split; reflexivity.
Qed.

(** X7 on a password that is a hash with the prefix [$2b$]. *)
Lemma hooks_rehash_2b_passwords_witness :
  let u := sample.typed_body "alice" "alice@example.com" "$2b$10$abcdefghijklmnopqrstuv" in
  HasPrefix (apiv1.Password u) "$2b$" = true /\
  apiv1.isHashedPassword (apiv1.Password u) = true /\
  apiv1.Password (fst (apiv1.BeforeCreate apiv1.sample_bcrypt sample.env u))
  = "$2a$10$$2b$10$abcdefghijklmnopqrstuv".
Proof.
  intros u.
  pose proof (hooks_rehash_2b_passwords apiv1.sample_bcrypt sample.env u eq_refl)
    as [Hhashed [Hcreate _]].
  split; [reflexivity|]. split; [exact Hhashed | exact Hcreate].
Defined.

(** X8.  Whatever status a client supplies, after the create hook a user
    is [Active] with reason [Created], after the update hook [Active] with
    reason [Updated], and after the delete hook, which never fails and
    touches nothing else, [Deleted]; the [Pending] default of the contract
    never applies to a user. *)
Theorem User_hooks_set_status
    (GenerateFromPassword : Env -> string -> string + error) (env : Env) (u : apiv1.User) :
  meta.GetStatus (apiv1.base (fst (apiv1.BeforeCreate GenerateFromPassword env u)))
  = meta.MkResourceStatus "Active" "User created successfully" "Created" (time_Now env) /\
  meta.GetStatus (apiv1.base (fst (apiv1.BeforeUpdate GenerateFromPassword env u)))
  = meta.MkResourceStatus "Active" "User updated successfully" "Updated" (time_Now env) /\
  apiv1.BeforeDelete env u
  = (apiv1.with_base
       (meta.set_Status
          (meta.MkResourceStatus "Deleted" "User deleted successfully" "Deleted" (time_Now env)))
       u,
     None).
Proof.
  split; [|split].
  - rewrite User_BeforeCreate_eq. cbv zeta.
    assert (H : forall v : apiv1.User,
              meta.GetStatus (apiv1.base v)
              = meta.MkResourceStatus "Active" "User created successfully" "Created"
                  (time_Now env) ->
              meta.GetStatus (fst (meta.BeforeCreate env (apiv1.base v)))
              = meta.GetStatus (apiv1.base v)).
    { intros v Hv. unfold meta.BeforeCreate.
      destruct (is_empty (meta.GetUID (apiv1.base v)));
        match goal with
        | |- context [(?x =? 0)%Z] => destruct (x =? 0)%Z
        end;
        cbn [meta.GetStatus meta.set_UID meta.set_ResourceVersion meta.with_objectMeta
               meta.objectMeta meta.Status];
        fold (meta.GetStatus (apiv1.base v)); rewrite Hv; cbn [meta.Phase is_empty];
        match goal with
        | |- context [meta.Validate ?x] => destruct (meta.Validate x)
        end; cbn; exact Hv. }
    destruct (HasPrefix (apiv1.Password u) "$2a$");
      [|destruct (GenerateFromPassword env (apiv1.Password u))];
      cbn [fst apiv1.base apiv1.with_base]; try reflexivity;
      rewrite H; reflexivity.
  - rewrite User_BeforeUpdate_eq. cbv zeta.
    destruct (HasPrefix (apiv1.Password u) "$2a$");
      [|destruct (GenerateFromPassword env (apiv1.Password u))]; reflexivity.
  - reflexivity.
Qed.

(** *** What a successful write leaves in the table *)

Section WrittenOnSuccess.
Context {T : Type} {M : gorm.Model T}.
Variable P : T -> Prop.

Lemma written_Create (env : Env) (db : gorm.Table T) (v : T) :
  (forall v', gorm.hookBeforeCreate env v = (v', None) ->
              forall id, P (gorm.set_primaryKey id (gorm.on_insert env v'))) ->
  props.old_or P (gorm.rows db) (gorm.rows (fst (fst (gorm.Create env db v)))).
Proof.
  intros Hv. unfold gorm.Create.
  destruct (gorm.hookBeforeCreate env v) as [v' [e|]]; [apply old_or_refl|].
  apply old_or_insert. apply Hv. reflexivity.
Qed.

Lemma written_Updates (env : Env) (db : gorm.Table T) (id : N) (v : T) :
  (forall v', gorm.hookBeforeUpdate env v = (v', None) ->
              forall row, P (gorm.assign row (gorm.on_update env v'))) ->
  props.old_or P (gorm.rows db) (gorm.rows (fst (fst (gorm.Updates env db id v)))).
Proof.
  intros Hv. unfold gorm.Updates.
  destruct (gorm.hookBeforeUpdate env v) as [v' [e|]]; [apply old_or_refl|].
  destruct (gorm.violation _ _); [apply old_or_refl|].
  simpl. apply old_or_map with (f := fun row => gorm.assign row (gorm.on_update env v')).
  apply Hv. reflexivity.
Qed.

Lemma written_Save (env : Env) (db : gorm.Table T) (v : T) :
  (forall v', gorm.hookBeforeCreate env v = (v', None) ->
              forall id, P (gorm.set_primaryKey id (gorm.on_insert env v'))) ->
  (forall v', gorm.hookBeforeUpdate env v = (v', None) ->
              (forall id, P (gorm.set_primaryKey id
                               (gorm.on_insert env (gorm.on_update env v')))) /\
              (forall row, P (gorm.replace row (gorm.on_update env v')))) ->
  props.old_or P (gorm.rows db) (gorm.rows (fst (fst (gorm.Save env db v)))).
Proof.
  intros Hc Hu. unfold gorm.Save.
  destruct (gorm.primaryKey v =? 0)%N; [apply written_Create, Hc|].
  destruct (gorm.hookBeforeUpdate env v) as [v' [e|]]; [apply old_or_refl|].
  destruct (Hu v' eq_refl) as [Hi Hr].
  destruct (existsb _ _); [|apply old_or_insert, Hi].
  destruct (gorm.violation _ _); [apply old_or_refl|].
  simpl. apply old_or_map with (f := fun row => gorm.replace row (gorm.on_update env v')).
  apply Hr.
Qed.

End WrittenOnSuccess.

Section StoredPasswords.
Variable GenerateFromPassword : Env -> string -> string + error.
Hypothesis hash_prefix :
  forall (env : Env) (password hashed : string),
    GenerateFromPassword env password = inl hashed -> HasPrefix hashed "$2a$" = true.

Lemma BeforeCreate_hashes (env : Env) (u u' : apiv1.User) :
  apiv1.BeforeCreate GenerateFromPassword env u = (u', None) ->
  HasPrefix (apiv1.Password u') "$2a$" = true.
Proof.
  rewrite User_BeforeCreate_eq. cbv zeta.
  destruct (HasPrefix (apiv1.Password u) "$2a$") eqn:Hp.
  - intros [= <-]. exact Hp.
  - destruct (GenerateFromPassword env (apiv1.Password u)) as [h|e] eqn:Hg; [|discriminate].
    intros [= <-]. exact (hash_prefix env _ h Hg).
Qed.

Lemma BeforeUpdate_hashes (env : Env) (u u' : apiv1.User) :
  apiv1.BeforeUpdate GenerateFromPassword env u = (u', None) ->
  HasPrefix (apiv1.Password u') "$2a$" = true.
Proof.
  rewrite User_BeforeUpdate_eq. cbv zeta.
  destruct (HasPrefix (apiv1.Password u) "$2a$") eqn:Hp.
  - intros [= <-]. exact Hp.
  - destruct (GenerateFromPassword env (apiv1.Password u)) as [h|e] eqn:Hg; [|discriminate].
    intros [= <-]. exact (hash_prefix env _ h Hg).
Qed.

Lemma on_insert_user_Password (env : Env) (u : apiv1.User) :
  apiv1.Password (apiv1.on_insert_user env u) = apiv1.Password u.
Proof. unfold apiv1.on_insert_user. now destruct (apiv1.IsActive _). Qed.

Lemma prefix_nonempty (s : string) : HasPrefix s "$2a$" = true -> is_empty s = false.
Proof. destruct s; [discriminate | reflexivity]. Qed.

Lemma assign_user_Password (row v : apiv1.User) :
  HasPrefix (apiv1.Password v) "$2a$" = true ->
  apiv1.Password (apiv1.assign_user row v) = apiv1.Password v.
Proof.
  intros Hp. cbn [apiv1.assign_user apiv1.Password]. unfold schema.nz_string.
  now rewrite (prefix_nonempty _ Hp).
Qed.

(** X9.  No password reaches the table of users as the client sent it
    unless it already starts with [$2a$]: every row that [Create],
    [Updates] or [Save] writes holds a password that starts with [$2a$]
    (a row of the table afterwards is a row it had before or holds such a
    password). *)
Theorem stored_passwords_are_hashed
    (env : Env) (db : gorm.Table apiv1.User) (id : N) (u : apiv1.User) :
  let M := apiv1.User_Model GenerateFromPassword in
  let hashed (row : apiv1.User) := HasPrefix (apiv1.Password row) "$2a$" = true in
  props.old_or hashed (gorm.rows db) (gorm.rows (fst (fst (gorm.Create env db u)))) /\
  props.old_or hashed (gorm.rows db) (gorm.rows (fst (fst (gorm.Updates env db id u)))) /\
  props.old_or hashed (gorm.rows db) (gorm.rows (fst (fst (gorm.Save env db u)))).
Proof.
  intros M hashed.
  assert (Hc : forall v', gorm.hookBeforeCreate env u = (v', None) ->
                 forall k, hashed (gorm.set_primaryKey k (gorm.on_insert env v'))).
  { intros v' Hhook k. unfold hashed.
    cbn [gorm.set_primaryKey gorm.on_insert M apiv1.User_Model apiv1.with_base apiv1.Password].
    rewrite on_insert_user_Password. exact (BeforeCreate_hashes env u v' Hhook). }
  split; [|split].
  - apply written_Create. exact Hc.
  - apply written_Updates. intros v' Hhook row. unfold hashed.
    cbn [gorm.assign gorm.on_update M apiv1.User_Model].
    rewrite assign_user_Password; exact (BeforeUpdate_hashes env u v' Hhook).
  - apply written_Save; [exact Hc|].
    intros v' Hhook. pose proof (BeforeUpdate_hashes env u v' Hhook) as Hp. split.
    + intros k. unfold hashed.
      cbn [gorm.set_primaryKey gorm.on_insert gorm.on_update M apiv1.User_Model
             apiv1.with_base apiv1.Password].
      rewrite on_insert_user_Password. exact Hp.
    + intros row. exact Hp.
Qed.

End StoredPasswords.

(** X9 on the insertion of a user with the password [pw123456] into the
    table that holds [alice]. *)
Lemma stored_passwords_are_hashed_witness :
  (forall (env : Env) (password hashed : string),
      apiv1.sample_bcrypt env password = inl hashed -> HasPrefix hashed "$2a$" = true) /\
  let M := apiv1.User_Model apiv1.sample_bcrypt in
  let hashed (row : apiv1.User) := HasPrefix (apiv1.Password row) "$2a$" = true in
  props.old_or hashed (gorm.rows sample.users)
    (gorm.rows (fst (fst (gorm.Create sample.env sample.users
                            (sample.body "bob" "bob@example.com" "pw123456"))))).
Proof.
  split; [exact sample_bcrypt_prefix|].
  exact (proj1 (stored_passwords_are_hashed apiv1.sample_bcrypt sample_bcrypt_prefix
                  sample.env sample.users 1
                  (sample.body "bob" "bob@example.com" "pw123456"))).
Defined.

(** *** The models of the sources keep the laws *)

Lemma on_insert_base_ID (env : Env) (b : meta.BaseResource) :
  meta.GetID (schema.on_insert_base env b) = meta.GetID b.
Proof.
  unfold schema.on_insert_base.
  destruct (meta.CreatedAt (meta.objectMeta b) =? 0)%Z;
    match goal with
    | |- context [(?x =? 0)%Z] => destruct (x =? 0)%Z
    end; reflexivity.
Qed.

Lemma BaseResource_lawful : laws.lawful schema.BaseResource_Model.
Proof.
  constructor; try reflexivity.
  intros env r. apply on_insert_base_ID.
Qed.

Lemma User_lawful (GenerateFromPassword : Env -> string -> string + error) :
  laws.lawful (apiv1.User_Model GenerateFromPassword).
Proof.
  constructor; try reflexivity.
  intros env r. cbn [gorm.primaryKey gorm.on_insert apiv1.User_Model].
  unfold apiv1.on_insert_user.
  destruct (apiv1.IsActive _); cbn [apiv1.base apiv1.with_base apiv1.set_IsActive];
    apply on_insert_base_ID.
Qed.

(** *** Looking up what was written *)

Section Lookup.
Context {T : Type} {M : gorm.Model T}.
Hypothesis HM : laws.lawful M.

Lemma find_place_same (id : N) (r : T) (l : list T) :
  gorm.primaryKey r = id ->
  existsb (gorm.has_key id) l = false ->
  List.find (gorm.has_key id) (gorm.place r l) = Some r.
Proof.
  intros Hr. induction l as [|x l IH]; simpl; intros Hl.
  - unfold gorm.has_key. rewrite Hr, N.eqb_refl. reflexivity.
  - apply orb_false_iff in Hl. destruct Hl as [Hx Hl].
    destruct (gorm.primaryKey r <? gorm.primaryKey x)%N; simpl.
    + unfold gorm.has_key at 1. rewrite Hr, N.eqb_refl. reflexivity.
    + rewrite Hx. apply IH, Hl.
Qed.

Lemma find_place_other (k : N) (r : T) (l : list T) :
  gorm.primaryKey r <> k ->
  List.find (gorm.has_key k) (gorm.place r l) = List.find (gorm.has_key k) l.
Proof.
  intros Hr.
  assert (Hk : gorm.has_key k r = false) by now apply N.eqb_neq.
  induction l as [|x l IH]; simpl.
  - now rewrite Hk.
  - destruct (gorm.primaryKey r <? gorm.primaryKey x)%N; simpl.
    + now rewrite Hk.
    + now rewrite IH.
Qed.

(** A successful [insert] has drawn a key the table did not hold and put
    the row under it. *)
Lemma insert_ok (env : Env) (db db' : gorm.Table T) (v r : T) :
  gorm.insert env db v = (db', r, None) ->
  existsb (gorm.has_key (gorm.primaryKey r)) (gorm.rows db) = false /\
  gorm.rows db' = gorm.place r (gorm.rows db) /\
  gorm.seq db' = N.max (gorm.seq db) (gorm.primaryKey r) /\
  (0 < gorm.primaryKey r)%N.
Proof.
  unfold gorm.insert.
  set (v1 := gorm.on_insert env v).
  set (id := if (gorm.primaryKey v1 =? 0)%N then (gorm.seq db + 1)%N else gorm.primaryKey v1).
  destruct (existsb (gorm.has_key id) (gorm.rows db)) eqn:Hex; [discriminate|].
  destruct (gorm.violation _ _); [discriminate|].
  intros [= <- <-]. rewrite (laws.key_set M HM). cbn [gorm.rows gorm.seq].
  repeat split; try assumption.
  unfold id. destruct (gorm.primaryKey v1 =? 0)%N eqn:E; [lia|].
  apply N.eqb_neq in E. lia.
Qed.

Lemma Create_ok (env : Env) (db db' : gorm.Table T) (v r : T) :
  internal.DAO.Create env db v = (db', r, None) ->
  exists v', gorm.hookBeforeCreate env v = (v', None) /\ gorm.insert env db v' = (db', r, None).
Proof.
  unfold internal.DAO.Create, gorm.Create.
  destruct (gorm.hookBeforeCreate env v) as [v' [e|]]; [discriminate|]. eauto.
Qed.

Lemma Get_find (db : gorm.Table T) (id : N) :
  internal.DAO.Get db id
  = match List.find (gorm.has_key id) (gorm.rows db) with
    | Some row => (Some row, None)
    | None => (None, Some ErrRecordNotFound)
    end.
Proof.
  unfold internal.DAO.Get, gorm.First.
  now destruct (List.find (gorm.has_key id) (gorm.rows db)).
Qed.

End Lookup.

(** X10.  What [Create] returns can be fetched: after a successful
    [Create], [Get] under the key of the returned value answers that
    value, the key is one the table did not hold before, and [Get] under
    every other key answers what it answered before. *)
Theorem Create_then_Get {T : Type} {M : gorm.Model T}
    (env : Env) (db db' : gorm.Table T) (v r : T)
    (HM : laws.lawful M)
    (Hcreate : internal.DAO.Create env db v = (db', r, None)) :
  internal.DAO.Get db' (gorm.primaryKey r) = (Some r, None) /\
  internal.DAO.Get db (gorm.primaryKey r) = (None, Some ErrRecordNotFound) /\
  forall k : N, k <> gorm.primaryKey r -> internal.DAO.Get db' k = internal.DAO.Get db k.
Proof.
  destruct (Create_ok env db db' v r Hcreate) as [v' [_ Hins]].
  destruct (insert_ok HM env db db' v' r Hins) as [Hfresh [Hrows _]].
  rewrite !Get_find, Hrows.
  split; [now rewrite find_place_same|]. split.
  - destruct (List.find _ (gorm.rows db)) as [row|] eqn:Hf; [|reflexivity].
    apply find_some in Hf. destruct Hf as [Hin Hk].
    assert (Hex : existsb (gorm.has_key (gorm.primaryKey r)) (gorm.rows db) = true)
      by (apply existsb_exists; eauto).
    congruence.
  - intros k Hk. rewrite !Get_find, Hrows, find_place_other by congruence. reflexivity.
Qed.

(** X10 on the creation of a note in the table of three notes. *)
Lemma Create_then_Get_witness :
  let '(db', r, err) := internal.DAO.Create sample.env sample.three_notes sample.bare_note in
  laws.lawful schema.BaseResource_Model /\
  err = None /\
  meta.GetID r = 4%N /\
  internal.DAO.Get db' 4 = (Some r, None) /\
  internal.DAO.Get sample.three_notes 4 = (None, Some ErrRecordNotFound).
Proof.
  destruct (internal.DAO.Create sample.env sample.three_notes sample.bare_note)
    as [[db' r] err] eqn:Hcreate.
  assert (Herr : err = None) by (vm_compute in Hcreate; congruence).
  subst err.
  assert (Hid : meta.GetID r = 4%N)
    by (vm_compute in Hcreate; injection Hcreate as _ <-; reflexivity).
  pose proof (Create_then_Get sample.env sample.three_notes db' sample.bare_note r
                BaseResource_lawful Hcreate) as [Hget [Hold _]].
  cbn [gorm.primaryKey schema.BaseResource_Model] in Hget, Hold.
  rewrite Hid in Hget, Hold.
  split; [exact BaseResource_lawful|]. split; [reflexivity|].
  split; [exact Hid|]. split; [exact Hget | exact Hold].
Defined.

Section LookupAfterWrite.
Context {T : Type} {M : gorm.Model T}.

Lemma count_rows_pos (sel : T -> bool) (l : list T) :
  gorm.count_rows sel l <> 0%Z -> exists row, In row l /\ sel row = true.
Proof.
  intros H.
  destruct (forallb (fun row => negb (sel row)) l) eqn:Hall.
  - apply count_rows_zero in Hall. contradiction.
  - clear H. induction l as [|x l IH]; simpl in Hall; [discriminate|].
    destruct (sel x) eqn:Hx.
    + exists x. split; [now left | exact Hx].
    + destruct (IH Hall) as [row [Hin Hrow]]. exists row. split; [now right | exact Hrow].
Qed.

Lemma find_some_key (id : N) (row : T) (l : list T) :
  In row l -> gorm.has_key id row = true ->
  exists row', List.find (gorm.has_key id) l = Some row'.
Proof.
  intros Hin Hk. destruct (List.find (gorm.has_key id) l) as [row'|] eqn:Hf; [eauto|].
  pose proof (find_none _ _ Hf row Hin). congruence.
Qed.

Lemma find_map_keep (f : T -> T) (k : N) (l : list T) :
  (forall row, gorm.primaryKey (f row) = gorm.primaryKey row) ->
  List.find (gorm.has_key k) (List.map f l)
  = option_map f (List.find (gorm.has_key k) l).
Proof.
  intros Hf. induction l as [|x l IH]; simpl; [reflexivity|].
  unfold gorm.has_key at 1. rewrite Hf. fold (gorm.has_key k x).
  destruct (gorm.has_key k x); [reflexivity | exact IH].
Qed.

Lemma find_filter_none (p q : T -> bool) (l : list T) :
  (forall row, p row = true -> q row = false) ->
  List.find p (List.filter q l) = None.
Proof.
  intros H. induction l as [|x l IH]; simpl; [reflexivity|].
  destruct (q x) eqn:Hq; [|exact IH]. simpl.
  destruct (p x) eqn:Hp; [|exact IH]. rewrite (H x Hp) in Hq. discriminate.
Qed.

Lemma find_filter_same (p q : T -> bool) (l : list T) :
  (forall row, p row = true -> q row = true) ->
  List.find p (List.filter q l) = List.find p l.
Proof.
  intros H. induction l as [|x l IH]; simpl; [reflexivity|].
  destruct (q x) eqn:Hq; simpl.
  - destruct (p x); [reflexivity | exact IH].
  - destruct (p x) eqn:Hp; [|exact IH]. rewrite (H x Hp) in Hq. discriminate.
Qed.

Lemma has_key_eq (id : N) (row : T) : gorm.has_key id row = true <-> gorm.primaryKey row = id.
Proof. unfold gorm.has_key. apply N.eqb_eq. Qed.

(** When some row is selected for the key [id], every row with that key
    is. *)
Lemma selected_by_key (id : N) (v row0 row : T) :
  gorm.selected id v row0 = true ->
  gorm.has_key id row = true -> gorm.selected id v row = true.
Proof.
  unfold gorm.selected. intros H0 Hk. rewrite Hk. cbn [andb].
  apply andb_true_iff in H0. destruct H0 as [Hk0 H0].
  apply orb_true_iff in H0. apply orb_true_iff. destruct H0 as [H0|H0]; [now left|].
  right. apply has_key_eq in Hk, Hk0, H0. apply has_key_eq. congruence.
Qed.

Lemma unselected_other_key (id k : N) (v row : T) :
  k <> id -> gorm.has_key k row = true -> gorm.selected id v row = false.
Proof.
  intros Hne Hk. unfold gorm.selected.
  assert (Hid : gorm.has_key id row = false).
  { apply has_key_eq in Hk. unfold gorm.has_key. apply N.eqb_neq. congruence. }
  now rewrite Hid.
Qed.

End LookupAfterWrite.

(** X11.  What [Update] wrote can be fetched: after a successful [Update]
    under a key, the table held a row under that key, [Get] now answers
    that row with the fields of the value assigned to it, [Get] under
    every other key answers what it answered before, and the keys of the
    table are the same. *)
Theorem Update_then_Get {T : Type} {M : gorm.Model T}
    (env : Env) (db db' : gorm.Table T) (id : N) (v v' : T)
    (HM : laws.lawful M)
    (Hupdate : internal.DAO.Update env db id v = (db', v', None)) :
  (exists row,
     internal.DAO.Get db id = (Some row, None) /\
     internal.DAO.Get db' id = (Some (gorm.assign row v'), None)) /\
  (forall k : N, k <> id -> internal.DAO.Get db' k = internal.DAO.Get db k) /\
  laws.keys db' = laws.keys db.
Proof.
  rewrite Update_cases in Hupdate.
  destruct (gorm.hookBeforeUpdate env v) as [v1 [e|]]; [discriminate|].
  cbv zeta in Hupdate.
  destruct (gorm.violation _ _); [discriminate|].
  destruct (gorm.count_rows _ _ =? 0)%Z eqn:Hcount; [discriminate|].
  injection Hupdate as <- <-.
  apply Z.eqb_neq, count_rows_pos in Hcount. destruct Hcount as [row0 [Hin0 Hsel0]].
  set (v' := gorm.on_update env v1) in *.
  set (f := fun row => if gorm.selected id v' row then gorm.assign row v' else row).
  assert (Hf : forall row, gorm.primaryKey (f row) = gorm.primaryKey row).
  { intros row. unfold f. destruct (gorm.selected id v' row); [|reflexivity].
    apply (laws.key_assign M HM). }
  split; [|split].
  - assert (Hk0 : gorm.has_key id row0 = true)
      by (unfold gorm.selected in Hsel0; now apply andb_true_iff in Hsel0).
    destruct (find_some_key id row0 _ Hin0 Hk0) as [row Hfind].
    exists row. rewrite !Get_find. cbn [gorm.rows]. fold f.
    rewrite find_map_keep by exact Hf. rewrite Hfind. split; [reflexivity|].
    cbn [option_map]. unfold f.
    apply find_some in Hfind. destruct Hfind as [_ Hk].
    now rewrite (selected_by_key id v' row0 row Hsel0 Hk).
  - intros k Hne. rewrite !Get_find. cbn [gorm.rows]. fold f.
    rewrite find_map_keep by exact Hf.
    destruct (List.find (gorm.has_key k) (gorm.rows db)) as [row|] eqn:Hfind;
      [|reflexivity].
    cbn [option_map]. unfold f.
    apply find_some in Hfind. destruct Hfind as [_ Hk].
    now rewrite (unselected_other_key id k v' row Hne Hk).
  - unfold laws.keys. cbn [gorm.rows]. fold f. rewrite map_map.
    apply map_ext. exact Hf.
Qed.

(** X11 on an update of the second of three notes. *)
Lemma Update_then_Get_witness :
  let '(db', v', err) :=
    internal.DAO.Update sample.env sample.three_notes 2 (meta.set_Kind "Memo" sample.bare_note) in
  laws.lawful schema.BaseResource_Model /\
  err = None /\
  internal.DAO.Get db' 2 = (Some (gorm.assign (sample.note 2 1) v'), None) /\
  internal.DAO.Get db' 3 = internal.DAO.Get sample.three_notes 3.
Proof.
  destruct (internal.DAO.Update sample.env sample.three_notes 2
              (meta.set_Kind "Memo" sample.bare_note)) as [[db' v'] err] eqn:Hupdate.
  assert (Herr : err = None) by (vm_compute in Hupdate; congruence).
  subst err.
  pose proof (Update_then_Get sample.env sample.three_notes db' 2 _ v'
                BaseResource_lawful Hupdate) as [[row [Hold Hnew]] [Hframe _]].
  assert (Hget : internal.DAO.Get sample.three_notes 2 = (Some (sample.note 2 1), None))
    by reflexivity.
  rewrite Hget in Hold. injection Hold as <-.
  split; [exact BaseResource_lawful|]. split; [reflexivity|].
  split; [exact Hnew | apply Hframe; discriminate].
Defined.

(** X12.  After a successful [Delete] under a key, the table held a row
    under that key, [Get] under the key fails with [ErrRecordNotFound],
    and [Get] under every other key answers what it answered before. *)
Theorem Delete_then_Get {T : Type} {M : gorm.Model T}
    (env : Env) (db db' : gorm.Table T) (id : N)
    (Hdelete : internal.DAO.Delete env db id = (db', None)) :
  (exists row, internal.DAO.Get db id = (Some row, None)) /\
  internal.DAO.Get db' id = (None, Some ErrRecordNotFound) /\
  (forall k : N, k <> id -> internal.DAO.Get db' k = internal.DAO.Get db k).
Proof.
  rewrite Delete_cases in Hdelete.
  destruct (gorm.hookBeforeDelete env gorm.zero) as [v [e|]]; [discriminate|].
  destruct (gorm.count_rows _ _ =? 0)%Z eqn:Hcount; [discriminate|].
  injection Hdelete as <-.
  apply Z.eqb_neq, count_rows_pos in Hcount. destruct Hcount as [row0 [Hin0 Hsel0]].
  split; [|split].
  - assert (Hk0 : gorm.has_key id row0 = true)
      by (unfold gorm.selected in Hsel0; now apply andb_true_iff in Hsel0).
    destruct (find_some_key id row0 _ Hin0 Hk0) as [row Hfind].
    exists row. rewrite Get_find, Hfind. reflexivity.
  - rewrite Get_find. cbn [gorm.rows]. rewrite find_filter_none; [reflexivity|].
    intros row Hk. now rewrite (selected_by_key id v row0 row Hsel0 Hk).
  - intros k Hne. rewrite !Get_find. cbn [gorm.rows]. rewrite find_filter_same; [reflexivity|].
    intros row Hk. now rewrite (unselected_other_key id k v row Hne Hk).
Qed.

(** X12 on the deletion of the second of three notes. *)
Lemma Delete_then_Get_witness :
  let '(db', err) := internal.DAO.Delete sample.env sample.three_notes 2 in
  err = None /\
  internal.DAO.Get db' 2 = (None, Some ErrRecordNotFound) /\
  internal.DAO.Get db' 3 = internal.DAO.Get sample.three_notes 3.
Proof.
  destruct (internal.DAO.Delete sample.env sample.three_notes 2) as [db' err] eqn:Hdelete.
  assert (Herr : err = None) by (vm_compute in Hdelete; congruence).
  subst err.
  pose proof (Delete_then_Get sample.env sample.three_notes db' 2 Hdelete)
    as [_ [Hgone Hframe]].
  split; [reflexivity|]. split; [exact Hgone | apply Hframe; discriminate].
Defined.

(** *** The keys of a table *)

Section Keys.
Context {T : Type} {M : gorm.Model T}.
Hypothesis HM : laws.lawful M.

Lemma Forall_keys_place (Q : N -> Prop) (r : T) (l : list T) :
  Q (gorm.primaryKey r) ->
  Forall Q (List.map gorm.primaryKey l) ->
  Forall Q (List.map gorm.primaryKey (gorm.place r l)).
Proof.
  intros Hr. induction l as [|x l IH]; simpl; intros Hl.
  - constructor; [exact Hr | constructor].
  - inversion Hl as [|k ks Hx Hl']; subst.
    destruct (gorm.primaryKey r <? gorm.primaryKey x)%N; simpl.
    + constructor; [exact Hr | exact Hl].
    + constructor; [exact Hx | apply IH, Hl'].
Qed.

Lemma sorted_keys_place (r : T) (l : list T) :
  StronglySorted N.lt (List.map gorm.primaryKey l) ->
  existsb (gorm.has_key (gorm.primaryKey r)) l = false ->
  StronglySorted N.lt (List.map gorm.primaryKey (gorm.place r l)).
Proof.
  induction l as [|x l IH]; simpl; intros Hs Hex.
  - constructor; constructor.
  - inversion Hs as [|k ks Hs' Hlt]; subst.
    apply orb_false_iff in Hex. destruct Hex as [Hx Hex].
    unfold gorm.has_key in Hx. apply N.eqb_neq in Hx.
    destruct (gorm.primaryKey r <? gorm.primaryKey x)%N eqn:Hrx; simpl.
    + apply N.ltb_lt in Hrx. constructor; [exact Hs|].
      constructor; [exact Hrx|].
      eapply Forall_impl; [exact Hlt|]. simpl. intros k Hk. lia.
    + apply N.ltb_ge in Hrx. constructor; [apply IH; assumption|].
      apply Forall_keys_place; [lia | exact Hlt].
Qed.

Lemma sorted_keys_filter (q : T -> bool) (l : list T) :
  StronglySorted N.lt (List.map gorm.primaryKey l) ->
  StronglySorted N.lt (List.map gorm.primaryKey (List.filter q l)).
Proof.
  induction l as [|x l IH]; simpl; intros Hs; [constructor|].
  inversion Hs as [|k ks Hs' Hlt]; subst.
  destruct (q x); simpl; [|apply IH, Hs'].
  constructor; [apply IH, Hs'|].
  clear - Hlt. induction l as [|y l IH]; simpl; [constructor|].
  inversion Hlt; subst. destruct (q y); simpl; [constructor|]; auto.
Qed.

Lemma Forall_keys_filter (Q : N -> Prop) (q : T -> bool) (l : list T) :
  Forall Q (List.map gorm.primaryKey l) ->
  Forall Q (List.map gorm.primaryKey (List.filter q l)).
Proof.
  induction l as [|x l IH]; simpl; intros Hl; [constructor|].
  inversion Hl; subst. destruct (q x); simpl; [constructor|]; auto.
Qed.

Lemma keys_map_keep (f : T -> T) (l : list T) :
  (forall row, gorm.primaryKey (f row) = gorm.primaryKey row) ->
  List.map gorm.primaryKey (List.map f l) = List.map gorm.primaryKey l.
Proof. intros Hf. rewrite map_map. apply map_ext, Hf. Qed.

Lemma well_keyed_same (db : gorm.Table T) (f : T -> T) :
  (forall row, gorm.primaryKey (f row) = gorm.primaryKey row) ->
  laws.well_keyed db ->
  laws.well_keyed (gorm.MkTable (List.map f (gorm.rows db)) (gorm.seq db)).
Proof.
  intros Hf Hdb. unfold laws.well_keyed, laws.keys in *. cbn [gorm.rows gorm.seq].
  rewrite keys_map_keep by exact Hf. exact Hdb.
Qed.

Lemma well_keyed_insert (env : Env) (db : gorm.Table T) (v : T) :
  laws.well_keyed db -> laws.well_keyed (fst (fst (gorm.insert env db v))).
Proof.
  intros Hdb. unfold gorm.insert.
  set (v1 := gorm.on_insert env v).
  set (id := if (gorm.primaryKey v1 =? 0)%N then (gorm.seq db + 1)%N else gorm.primaryKey v1).
  assert (Hid : (0 < id)%N).
  { unfold id. destruct (gorm.primaryKey v1 =? 0)%N eqn:E; [lia|].
    apply N.eqb_neq in E. lia. }
  destruct (existsb (gorm.has_key id) (gorm.rows db)) eqn:Hex; [exact Hdb|].
  destruct (gorm.violation _ _); [exact Hdb|].
  cbn [fst]. destruct Hdb as [Hsorted Hbound].
  unfold laws.well_keyed, laws.keys in *. cbn [gorm.rows gorm.seq].
  assert (Hkey : gorm.primaryKey (gorm.set_primaryKey id v1) = id)
    by apply (laws.key_set M HM).
  split.
  - apply sorted_keys_place; [exact Hsorted | now rewrite Hkey].
  - apply Forall_keys_place; [rewrite Hkey; lia|].
    eapply Forall_impl; [exact Hbound|]. simpl. intros k Hk. lia.
Qed.

Lemma well_keyed_Create (env : Env) (db : gorm.Table T) (v : T) :
  laws.well_keyed db -> laws.well_keyed (fst (fst (gorm.Create env db v))).
Proof.
  intros Hdb. unfold gorm.Create.
  destruct (gorm.hookBeforeCreate env v) as [v' [e|]]; [exact Hdb|].
  apply well_keyed_insert, Hdb.
Qed.

Lemma well_keyed_Update (env : Env) (db : gorm.Table T) (id : N) (v : T) :
  laws.well_keyed db -> laws.well_keyed (fst (fst (internal.DAO.Update env db id v))).
Proof.
  intros Hdb. rewrite Update_cases.
  destruct (gorm.hookBeforeUpdate env v) as [v1 [e|]]; [exact Hdb|].
  cbv zeta. destruct (gorm.violation _ _); [exact Hdb|].
  destruct (gorm.count_rows _ _ =? 0)%Z; [exact Hdb|].
  cbn [fst]. apply well_keyed_same; [|exact Hdb].
  intros row. destruct (gorm.selected _ _ _); [apply (laws.key_assign M HM) | reflexivity].
Qed.

Lemma well_keyed_Delete (env : Env) (db : gorm.Table T) (id : N) :
  laws.well_keyed db -> laws.well_keyed (fst (internal.DAO.Delete env db id)).
Proof.
  intros Hdb. rewrite Delete_cases.
  destruct (gorm.hookBeforeDelete env gorm.zero) as [v [e|]]; [exact Hdb|].
  destruct (gorm.count_rows _ _ =? 0)%Z; [exact Hdb|].
  cbn [fst]. destruct Hdb as [Hsorted Hbound].
  unfold laws.well_keyed, laws.keys in *. cbn [gorm.rows gorm.seq]. split.
  - apply sorted_keys_filter, Hsorted.
  - apply Forall_keys_filter, Hbound.
Qed.

Lemma well_keyed_Save (env : Env) (db : gorm.Table T) (v : T) :
  laws.well_keyed db -> laws.well_keyed (fst (fst (gorm.Save env db v))).
Proof.
  intros Hdb. unfold gorm.Save.
  destruct (gorm.primaryKey v =? 0)%N; [apply well_keyed_Create, Hdb|].
  destruct (gorm.hookBeforeUpdate env v) as [v1 [e|]]; [exact Hdb|].
  destruct (existsb _ _); [|apply well_keyed_insert, Hdb].
  destruct (gorm.violation _ _); [exact Hdb|].
  cbn [fst]. apply well_keyed_same; [|exact Hdb].
  intros row. destruct (gorm.has_key _ _); [apply (laws.key_replace M HM) | reflexivity].
Qed.

End Keys.

(** X13.  The writes keep the keys of a table in order: when the keys of
    a table ascend strictly, none being zero and none exceeding the
    largest key ever used, they still do after [Create], [Update],
    [Delete] and [Save], whether the write succeeds or fails; so no write
    ever leaves two rows under one key. *)
Theorem writes_keep_keys_unique {T : Type} {M : gorm.Model T}
    (env : Env) (db : gorm.Table T) (id : N) (v : T)
    (HM : laws.lawful M) (Hdb : laws.well_keyed db) :
  laws.well_keyed (fst (fst (internal.DAO.Create env db v))) /\
  laws.well_keyed (fst (fst (internal.DAO.Update env db id v))) /\
  laws.well_keyed (fst (internal.DAO.Delete env db id)) /\
  laws.well_keyed (fst (fst (gorm.Save env db v))).
Proof.
  split; [apply (well_keyed_Create HM), Hdb|].
  split; [apply (well_keyed_Update HM), Hdb|].
  split; [apply well_keyed_Delete, Hdb | apply (well_keyed_Save HM), Hdb].
Qed.

Lemma three_notes_well_keyed : laws.well_keyed sample.three_notes.
Proof.
  split; cbn.
  - repeat (constructor; try lia).
  - repeat (constructor; try lia).
Qed.

(** X13 on the table of three notes. *)
Lemma writes_keep_keys_unique_witness :
  laws.lawful schema.BaseResource_Model /\
  laws.well_keyed sample.three_notes /\
  laws.well_keyed
    (fst (fst (internal.DAO.Create sample.env sample.three_notes sample.bare_note))) /\
  laws.well_keyed (fst (internal.DAO.Delete sample.env sample.three_notes 2)).
Proof.
  pose proof (writes_keep_keys_unique sample.env sample.three_notes 2 sample.bare_note
                BaseResource_lawful three_notes_well_keyed) as [Hc [_ [Hd _]]].
  split; [exact BaseResource_lawful|]. split; [exact three_notes_well_keyed|].
  split; [exact Hc | exact Hd].
Defined.

(** *** The pages of a listing, one after the other *)

Lemma firstn_plus {A : Type} (a b : nat) (l : list A) :
  firstn (a + b) l = (firstn a l ++ firstn b (skipn a l))%list.
Proof.
  revert l. induction a as [|a IH]; intros l; [reflexivity|].
  destruct l as [|x l]; simpl.
  - now rewrite firstn_nil.
  - now rewrite IH.
Qed.

Lemma List_page {T : Type} {M : gorm.Model T}
    (db : gorm.Table T) (page pageSize : Z)
    (filter : option (gmap string string)) (matching : list T) :
  gorm.Where filter db = inl matching ->
  (1 <= page)%Z -> (0 <= pageSize)%Z -> ((page - 1) * pageSize < 2 ^ 63)%Z ->
  internal.DAO.List db page pageSize filter
  = (props.page_of page pageSize matching, Z.of_nat (List.length matching), None).
Proof.
  intros Hfilter Hpage Hsize Hoffset. unfold internal.DAO.List.
  rewrite Hfilter, wrap_int_mul_l, wrap_int_small by nia.
  rewrite OffsetLimit_page_of by nia. reflexivity.
Qed.

(** X14.  The pages of a listing neither overlap nor leave a gap: for a
    page size of at least 1, the items of pages 1 to [n] (their offsets
    being within the range of [int]) put one after the other are the first
    [n * pageSize] rows the filter selects, and hence all of them once
    [n * pageSize] reaches their number. *)
Theorem pages_partition_the_listing {T : Type} {M : gorm.Model T}
    (db : gorm.Table T) (pageSize : Z) (n : nat)
    (filter : option (gmap string string)) (matching : list T)
    (Hfilter : gorm.Where filter db = inl matching)
    (Hsize : (1 <= pageSize)%Z)
    (Hrange : (Z.of_nat n * pageSize < 2 ^ 63)%Z) :
  let items (p : nat) :=
    fst (fst (internal.DAO.List db (Z.of_nat p) pageSize filter)) in
  List.concat (List.map items (List.seq 1 n))
  = firstn (n * Z.to_nat pageSize) matching /\
  ((List.length matching <= n * Z.to_nat pageSize)%nat ->
   List.concat (List.map items (List.seq 1 n)) = matching).
Proof.
  intros items.
  assert (Hall : List.concat (List.map items (List.seq 1 n))
                 = firstn (n * Z.to_nat pageSize) matching).
  { induction n as [|n IH]; [reflexivity|].
    rewrite seq_S, map_app, concat_app, IH by nia.
    cbn [List.map List.concat Nat.add]. rewrite app_nil_r.
    unfold items. rewrite (List_page db _ pageSize filter matching Hfilter) by nia.
    cbn [fst]. unfold props.page_of.
    replace (S n * Z.to_nat pageSize)%nat
      with (n * Z.to_nat pageSize + Z.to_nat pageSize)%nat by lia.
    rewrite firstn_plus. do 3 f_equal. nia. }
  split; [exact Hall|].
  intros Hlen. rewrite Hall. apply firstn_all2. exact Hlen.
Qed.

(** X14 on five notes in three pages of two. *)
Lemma pages_partition_the_listing_witness :
  gorm.Where None sample.five_notes = inl (gorm.rows sample.five_notes) /\
  (1 <= 2)%Z /\ (Z.of_nat 3 * 2 < 2 ^ 63)%Z /\
  List.concat
    (List.map (fun p => fst (fst (internal.DAO.List sample.five_notes (Z.of_nat p) 2 None)))
              (List.seq 1 3))
  = gorm.rows sample.five_notes.
Proof.
  split; [reflexivity|]. split; [lia|]. split; [lia|].
  apply (pages_partition_the_listing sample.five_notes 2 3 None
           (gorm.rows sample.five_notes) eq_refl ltac:(lia) ltac:(lia)).
  cbn. lia.
Defined.

(** *** Responses that report an error *)

Section Unchanged.
Context {T : Type} {M : gorm.Model T}.

Lemma insert_failed_unchanged (env : Env) (db : gorm.Table T) (v : T) :
  match gorm.insert env db v with
  | (db', _, Some _) => db' = db
  | (_, _, None) => True
  end.
Proof.
  unfold gorm.insert.
  destruct (existsb _ _); [reflexivity|].
  destruct (gorm.violation _ _); [reflexivity | exact I].
Qed.

Lemma Create_failed_unchanged (env : Env) (db : gorm.Table T) (v : T) :
  match gorm.Create env db v with
  | (db', _, Some _) => db' = db
  | (_, _, None) => True
  end.
Proof.
  unfold gorm.Create.
  destruct (gorm.hookBeforeCreate env v) as [v' [e|]]; [reflexivity|].
  apply insert_failed_unchanged.
Qed.

Lemma Delete_failed_unchanged (env : Env) (db : gorm.Table T) (id : N) :
  match internal.DAO.Delete env db id with
  | (db', Some _) => db' = db
  | (_, None) => True
  end.
Proof.
  rewrite Delete_cases.
  destruct (gorm.hookBeforeDelete env gorm.zero) as [v [e|]]; [reflexivity|].
  destruct (gorm.count_rows _ _ =? 0)%Z; [reflexivity | exact I].
Qed.

Lemma Transaction_failed_unchanged {A : Type}
    (fc : gorm.Table T -> gorm.Table T * A * option error) (db : gorm.Table T) :
  match internal.DAO.Transaction fc db with
  | (db', _, Some _) => db' = db
  | (_, _, None) => True
  end.
Proof.
  unfold internal.DAO.Transaction, gorm.Transaction.
  destruct (fc db) as [[db' a] [e|]]; [reflexivity | exact I].
Qed.

End Unchanged.

Ltac ok_status :=
  cbn; unfold internal.StatusOK, internal.StatusCreated, internal.StatusNoContent;
  intros; lia.

Ltac status_cases :=
  repeat match goal with
         | |- context [if ?b then _ else _] => destruct b
         end;
  cbn; try reflexivity; try (intros; reflexivity).

(** X15.  No handler leaves a write behind a response that reports an
    error: the handlers that read never change the table, and when a
    handler that writes answers with a status of 400 or above, the table is
    the table it was. *)
Theorem error_responses_write_nothing {T : Type} {M : gorm.Model T}
    (Validator : option (T -> option error))
    (env : Env) (db : gorm.Table T) (c : internal.Context T) :
  let unchanged (result : gorm.Table T * internal.Response T) :=
    (400 <= internal.Code (snd result))%Z -> fst result = db in
  (fst (internal.Router.Get db c) = db /\
   fst (internal.Router.List db c) = db /\
   fst (internal.RegisterResource.GET db c) = db /\
   fst (internal.RegisterResource.LIST db c) = db) /\
  (unchanged (internal.Router.Create Validator env db c) /\
   unchanged (internal.Router.Update env db c) /\
   unchanged (internal.Router.Delete env db c)) /\
  (unchanged (internal.RegisterResource.POST env db c) /\
   unchanged (internal.RegisterResource.PUT env db c) /\
   unchanged (internal.RegisterResource.DELETE env db c)).
Proof.
  intros unchanged. unfold unchanged. split; [|split].
  - split; [|split; [|split]].
    + unfold internal.Router.Get.
      destruct (strconv.ParseUint _ _) as [id [e|]]; [reflexivity|].
      destruct (internal.DAO.Get db id) as [[r|] [e|]]; status_cases.
    + unfold internal.Router.List.
      destruct (internal.DAO.List _ _ _ _) as [[items total] [e|]]; reflexivity.
    + unfold internal.RegisterResource.GET.
      destruct (strconv.ParseUint _ _) as [id [e|]]; [reflexivity|].
      destruct (internal.DAO.Get db id) as [[r|] [e|]]; status_cases.
    + unfold internal.RegisterResource.LIST.
      destruct (internal.DAO.List _ _ _ _) as [[items total] [e|]]; reflexivity.
  - split; [|split].
    + unfold internal.Router.Create.
      destruct (internal.ShouldBindJSON c gorm.zero) as [resource|e]; [|reflexivity].
      destruct (match Validator with Some Validate => Validate resource | None => None end);
        [reflexivity|].
      unfold internal.DAO.Create.
      pose proof (Create_failed_unchanged env db resource) as H.
      destruct (gorm.Create env db resource) as [[db' r] [e|]]; [cbn; auto | ok_status].
    + unfold internal.Router.Update.
      destruct (strconv.ParseUint _ _) as [id [e|]]; [reflexivity|].
      destruct (internal.ShouldBindJSON c gorm.zero) as [resource|e]; [|reflexivity].
      pose proof (Update_failed_unchanged env db id resource) as H.
      destruct (internal.DAO.Update env db id resource) as [[db' r] [e|]];
        [destruct (is_ErrRecordNotFound e); cbn; auto | ok_status].
    + unfold internal.Router.Delete.
      destruct (strconv.ParseUint _ _) as [id [e|]]; [reflexivity|].
      pose proof (Delete_failed_unchanged env db id) as H.
      destruct (internal.DAO.Delete env db id) as [db' [e|]];
        [destruct (is_ErrRecordNotFound e); cbn; auto | ok_status].
  - split; [|split].
    + unfold internal.RegisterResource.POST.
      destruct (internal.ShouldBindJSON c gorm.zero) as [obj|e]; [|reflexivity].
      match goal with
      | |- context [internal.DAO.Transaction ?fc db] =>
          pose proof (Transaction_failed_unchanged fc db) as H;
          destruct (internal.DAO.Transaction fc db) as [[db' r] [e|]]
      end; [cbn; auto | ok_status].
    + unfold internal.RegisterResource.PUT.
      destruct (strconv.ParseUint _ _) as [id [e|]]; [reflexivity|].
      destruct (gorm.First db gorm.zero id) as [obj [e|]];
        [destruct (is_ErrRecordNotFound e); reflexivity|].
      destruct (internal.ShouldBindJSON c obj) as [obj'|e]; [|reflexivity].
      match goal with
      | |- context [internal.DAO.Transaction ?fc db] =>
          pose proof (Transaction_failed_unchanged fc db) as H;
          destruct (internal.DAO.Transaction fc db) as [[db' r] [e|]]
      end; [cbn; auto | ok_status].
    + unfold internal.RegisterResource.DELETE.
      destruct (strconv.ParseUint _ _) as [id [e|]]; [reflexivity|].
      match goal with
      | |- context [internal.DAO.Transaction ?fc db] =>
          pose proof (Transaction_failed_unchanged fc db) as H;
          destruct (internal.DAO.Transaction fc db) as [[db' r] [e|]]
      end; [cbn; auto | ok_status].
Qed.

(** *** Requests by identifier *)

Lemma fits_32_64 (s : string) : props.fits 32 s = true -> props.fits 64 s = true.
Proof.
  unfold props.fits. intros H. apply andb_true_iff in H. destruct H as [Hn Hv].
  rewrite Hn. cbn [andb]. apply N.ltb_lt in Hv. apply N.ltb_lt.
  change (2 ^ 32)%N with 4294967296%N in Hv.
  change (2 ^ 64)%N with 18446744073709551616%N. lia.
Qed.

Lemma ParseUint_fits (bits : N) (s : string) :
  (1 <= bits <= 64)%N -> props.fits bits s = true ->
  strconv.ParseUint s bits = (props.numeral_value s, None).
Proof.
  intros Hbits Hfits. pose proof (ParseUint_spec bits s Hbits) as H.
  now rewrite Hfits in H.
Qed.

(** X16.  For an identifier without a row, the delete handler of
    [RegisterResource] answers 204 as if it had deleted something, because
    it does not look at the number of rows affected, where the delete
    handler of [Router] answers 404; neither changes the table. *)
Theorem DELETE_of_missing_row {T : Type} {M : gorm.Model T}
    (env : Env) (db : gorm.Table T) (c : internal.Context T)
    (Hfits : props.fits 32 (internal.Param_id c) = true)
    (Hmissing : List.find (gorm.has_key (props.numeral_value (internal.Param_id c)))
                          (gorm.rows db) = None)
    (Hhook : snd (gorm.hookBeforeDelete env gorm.zero) = None) :
  internal.RegisterResource.DELETE env db c
  = (db, internal.MkResponse 204 internal.JSON_nil) /\
  internal.Router.Delete env db c
  = (db, internal.MkResponse 404 (internal.H_error "resource not found")).
Proof.
  set (id := props.numeral_value (internal.Param_id c)) in *.
  destruct (gorm.hookBeforeDelete env gorm.zero) as [v e] eqn:Hv. simpl in Hhook. subst e.
  pose proof (find_none_unselected id v _ Hmissing) as Hun.
  split.
  - unfold internal.RegisterResource.DELETE.
    rewrite (ParseUint_fits 32 _ ltac:(lia) Hfits). fold id.
    unfold internal.DAO.Transaction, gorm.Transaction, gorm.Delete.
    rewrite Hv. cbn [gorm.Error].
    rewrite (filter_unselected _ _ Hun), Table_eta. reflexivity.
  - unfold internal.Router.Delete.
    rewrite (ParseUint_fits 64 _ ltac:(lia) (fits_32_64 _ Hfits)). fold id.
    rewrite Delete_cases, Hv.
    apply count_rows_zero in Hun. rewrite Hun. reflexivity.
Qed.

(** X16 on a request to delete note 7 from the table of three notes. *)
Lemma DELETE_of_missing_row_witness :
  let c : internal.Context meta.BaseResource := sample.request "7" meta.zeroBaseResource in
  props.fits 32 (internal.Param_id c) = true /\
  List.find (gorm.has_key (props.numeral_value (internal.Param_id c)))
            (gorm.rows sample.three_notes) = None /\
  snd (gorm.hookBeforeDelete sample.env (gorm.zero (T := meta.BaseResource))) = None /\
  internal.RegisterResource.DELETE sample.env sample.three_notes c
  = (sample.three_notes, internal.MkResponse 204 internal.JSON_nil) /\
  internal.Router.Delete sample.env sample.three_notes c
  = (sample.three_notes, internal.MkResponse 404 (internal.H_error "resource not found")).
Proof.
  intros c.
  split; [reflexivity|]. split; [reflexivity|]. split; [reflexivity|].
  exact (DELETE_of_missing_row sample.env sample.three_notes c eq_refl eq_refl eq_refl).
Defined.

(** X17.  For a path segment that is a numeral fitting 64 bits, the get
    handler of [Router] answers 200 with the row stored under the number
    the numeral denotes (leading zeros included) when there is one, and 404
    when there is none; it never answers 500. *)
Theorem Get_answers_row_or_404 {T : Type} {M : gorm.Model T}
    (db : gorm.Table T) (c : internal.Context T)
    (Hfits : props.fits 64 (internal.Param_id c) = true) :
  internal.Router.Get db c
  = match List.find (gorm.has_key (props.numeral_value (internal.Param_id c)))
                    (gorm.rows db) with
    | Some row => (db, internal.MkResponse 200 (internal.JSON_resource row))
    | None => (db, internal.MkResponse 404 (internal.H_error "resource not found"))
    end.
Proof.
  unfold internal.Router.Get.
  rewrite (ParseUint_fits 64 _ ltac:(lia) Hfits), Get_find.
  now destruct (List.find _ _).
Qed.

(** X17 on the segment [002] over the table of three notes. *)
Lemma Get_answers_row_or_404_witness :
  let c : internal.Context meta.BaseResource := sample.request "002" meta.zeroBaseResource in
  props.fits 64 (internal.Param_id c) = true /\
  internal.Router.Get sample.three_notes c
  = (sample.three_notes, internal.MkResponse 200 (internal.JSON_resource (sample.note 2 1))).
Proof.
  intros c. split; [reflexivity|].
  exact (Get_answers_row_or_404 sample.three_notes c eq_refl).
Defined.

(** *** Listing without parameters *)

Lemma List_unfiltered {T : Type} {M : gorm.Model T}
    (db : gorm.Table T) (page pageSize : Z) :
  internal.DAO.List db page pageSize None
  = (gorm.OffsetLimit (wrap_int ((page - 1) * pageSize)) pageSize (gorm.rows db),
     Z.of_nat (List.length (gorm.rows db)), None).
Proof. unfold internal.DAO.List. cbn [gorm.Where]. now rewrite wrap_int_mul_l. Qed.

(** X18.  The list handler of [Router] never fails and never filters: it
    answers 200 with a page of the whole table, whatever the query.  A
    request without [page] and [size] is answered with the first ten rows. *)
Theorem Router_List_defaults {T : Type} {M : gorm.Model T}
    (db : gorm.Table T) (c : internal.Context T) :
  let page := fst (strconv.Atoi (internal.DefaultQuery c "page" "1")) in
  let pageSize := fst (strconv.Atoi (internal.DefaultQuery c "size" "10")) in
  internal.Router.List db c
  = (db, internal.MkResponse 200
           (internal.JSON_items
              (gorm.OffsetLimit (wrap_int ((page - 1) * pageSize)) pageSize (gorm.rows db)))) /\
  match internal.URL_Query c !! "page", internal.URL_Query c !! "size" with
  | None, None =>
      internal.Router.List db c
      = (db, internal.MkResponse 200 (internal.JSON_items (firstn 10 (gorm.rows db))))
  | _, _ => True
  end.
Proof.
  intros page pageSize.
  assert (H : internal.Router.List db c
              = (db, internal.MkResponse 200
                       (internal.JSON_items
                          (gorm.OffsetLimit (wrap_int ((page - 1) * pageSize)) pageSize
                                            (gorm.rows db))))).
  { unfold internal.Router.List. fold page pageSize. now rewrite List_unfiltered. }
  split; [exact H|].
  destruct (internal.URL_Query c !! "page") as [[? ?]|] eqn:Hp; [exact I|].
  destruct (internal.URL_Query c !! "size") as [[? ?]|] eqn:Hs; [exact I|].
  rewrite H. unfold page, pageSize, internal.DefaultQuery. rewrite Hp, Hs. reflexivity.
Qed.

(** *** What [Create] stores and what [PUT] does to the version *)

Lemma BeforeCreate_fields (env : Env) (b : meta.BaseResource) :
  let b' := fst (meta.BeforeCreate env b) in
  meta.GetID b' = meta.GetID b /\
  meta.GetUID b' = (if is_empty (meta.GetUID b) then uuid_New env else meta.GetUID b) /\
  meta.GetResourceVersion b'
  = (if (meta.GetResourceVersion b =? 0)%Z then 1%Z else meta.GetResourceVersion b) /\
  meta.CreatedAt (meta.objectMeta b') = meta.CreatedAt (meta.objectMeta b) /\
  meta.UpdatedAt (meta.objectMeta b') = meta.UpdatedAt (meta.objectMeta b) /\
  meta.GetStatus b'
  = (if is_empty (meta.Phase (meta.GetStatus b))
     then meta.MkResourceStatus "Pending" "Resource is being created" "" (time_Now env)
     else meta.GetStatus b).
Proof.
  unfold meta.BeforeCreate.
  destruct b as [tm [id uid rv ca ua la an [ph ms rs lt]]]. cbn.
  destruct (is_empty uid); cbn; destruct (rv =? 0)%Z; cbn;
    destruct (is_empty ph); cbn;
    match goal with
    | |- context [meta.Validate ?x] => destruct (meta.Validate x)
    end; cbn; repeat split; reflexivity.
Qed.

Lemma on_insert_base_fields (env : Env) (b : meta.BaseResource) :
  let b' := schema.on_insert_base env b in
  meta.typeMeta b' = meta.typeMeta b /\
  meta.GetUID b' = meta.GetUID b /\
  meta.GetResourceVersion b' = meta.GetResourceVersion b /\
  meta.GetStatus b' = meta.GetStatus b /\
  meta.CreatedAt (meta.objectMeta b')
  = (if (meta.CreatedAt (meta.objectMeta b) =? 0)%Z then time_Now env
     else meta.CreatedAt (meta.objectMeta b)) /\
  meta.UpdatedAt (meta.objectMeta b')
  = (if (meta.UpdatedAt (meta.objectMeta b) =? 0)%Z then time_Now env
     else meta.UpdatedAt (meta.objectMeta b)).
Proof.
  unfold schema.on_insert_base.
  destruct b as [tm [id uid rv ca ua la an st]]. cbn.
  destruct (ca =? 0)%Z; cbn; destruct (ua =? 0)%Z; cbn; repeat split; reflexivity.
Qed.

(** X19.  A resource that [Create] stores has passed the validation of the
    contract and carries what the server fills in: a key drawn from the
    sequence unless the value brought one, the creation and update times
    unless it brought them, and the uid, version and status defaults of the
    create hook; its type descriptor is the one handed in. *)
Theorem Create_fills_in_defaults
    (env : Env) (db db' : gorm.Table meta.BaseResource) (b r : meta.BaseResource)
    (Hcreate : internal.DAO.Create env db b = (db', r, None)) :
  meta.Validate b = None /\
  meta.typeMeta r = meta.typeMeta b /\
  meta.GetID r = (if (meta.GetID b =? 0)%N then (gorm.seq db + 1)%N else meta.GetID b) /\
  meta.GetUID r = (if is_empty (meta.GetUID b) then uuid_New env else meta.GetUID b) /\
  meta.GetResourceVersion r
  = (if (meta.GetResourceVersion b =? 0)%Z then 1%Z else meta.GetResourceVersion b) /\
  meta.CreatedAt (meta.objectMeta r)
  = (if (meta.CreatedAt (meta.objectMeta b) =? 0)%Z then time_Now env
     else meta.CreatedAt (meta.objectMeta b)) /\
  meta.UpdatedAt (meta.objectMeta r)
  = (if (meta.UpdatedAt (meta.objectMeta b) =? 0)%Z then time_Now env
     else meta.UpdatedAt (meta.objectMeta b)) /\
  meta.GetStatus r
  = (if is_empty (meta.Phase (meta.GetStatus b))
     then meta.MkResourceStatus "Pending" "Resource is being created" "" (time_Now env)
     else meta.GetStatus b).
Proof.
  unfold internal.DAO.Create, gorm.Create in Hcreate.
  cbn [gorm.hookBeforeCreate schema.BaseResource_Model] in Hcreate.
  pose proof (BeforeCreate_error env b) as Herr.
  pose proof (BeforeCreate_typeMeta env b) as Htm.
  pose proof (BeforeCreate_fields env b) as Hf. cbv zeta in Hf.
  destruct (meta.BeforeCreate env b) as [b1 e]. cbn [fst snd] in *.
  destruct e as [e|]; [discriminate|].
  destruct Hf as [Hid [Huid [Hrv [Hca [Hua Hst]]]]].
  unfold gorm.insert in Hcreate.
  cbn [gorm.on_insert gorm.primaryKey gorm.set_primaryKey schema.BaseResource_Model] in Hcreate.
  pose proof (on_insert_base_fields env b1) as Hi. cbv zeta in Hi.
  pose proof (on_insert_base_ID env b1) as Hi_id.
  set (b2 := schema.on_insert_base env b1) in *.
  destruct Hi as [Itm [Iuid [Irv [Ist [Ica Iua]]]]].
  destruct (existsb _ _); [discriminate|].
  destruct (gorm.violation _ _); [discriminate|].
  injection Hcreate as _ <-.
  split; [now symmetry|].
  split; [cbn; congruence|].
  split; [cbn; rewrite Hi_id, Hid; reflexivity|].
  split; [change (meta.GetUID b2 = (if is_empty (meta.GetUID b) then uuid_New env else meta.GetUID b)); congruence|].
  split; [change (meta.GetResourceVersion b2 = (if (meta.GetResourceVersion b =? 0)%Z then 1%Z else meta.GetResourceVersion b)); congruence|].
  split; [cbn; fold b2; rewrite Ica, Hca; reflexivity|].
  split; [cbn; fold b2; rewrite Iua, Hua; reflexivity|].
  change (meta.GetStatus b2
          = (if is_empty (meta.Phase (meta.GetStatus b))
             then meta.MkResourceStatus "Pending" "Resource is being created" "" (time_Now env)
             else meta.GetStatus b)).
  congruence.
Qed.

(** X19 on the creation of a note in the table of three notes. *)
Lemma Create_fills_in_defaults_witness :
  let '(db', r, err) := internal.DAO.Create sample.env sample.three_notes sample.bare_note in
  err = None /\
  meta.GetID r = 4%N /\
  meta.GetUID r = uuid_New sample.env /\
  meta.GetResourceVersion r = 1%Z /\
  meta.CreatedAt (meta.objectMeta r) = time_Now sample.env.
Proof.
  destruct (internal.DAO.Create sample.env sample.three_notes sample.bare_note)
    as [[db' r] err] eqn:Hcreate.
  assert (Herr : err = None) by (vm_compute in Hcreate; congruence).
  subst err.
  pose proof (Create_fills_in_defaults sample.env sample.three_notes db' sample.bare_note r
                Hcreate) as [_ [_ [Hid [Huid [Hrv [Hca _]]]]]].
  split; [reflexivity|]. split; [exact Hid|]. split; [exact Huid|].
  split; [exact Hrv | exact Hca].
Defined.

Lemma violation_none {T : Type} {M : gorm.Model T} (written all : list T) :
  (forall r1 r2 : T, gorm.conflict r1 r2 = None) -> gorm.violation written all = None.
Proof.
  intros Hc.
  assert (Hclash : forall w, gorm.clash w all = None).
  { intros w. induction all as [|o all IHa]; simpl; [reflexivity|].
    destruct (gorm.has_key _ o); [exact IHa|]. now rewrite Hc. }
  induction written as [|w written IH]; simpl; [reflexivity|].
  now rewrite Hclash.
Qed.

Lemma set_ID_same (b : meta.BaseResource) : meta.set_ID (meta.GetID b) b = b.
Proof. destruct b as [tm [id uid rv ca ua la an st]]. reflexivity. Qed.

(** X20.  The update handler of [RegisterResource] loads the stored row
    and binds the body onto it, so for a body that leaves key and version
    alone, and a result that passes the validation of the contract, it
    answers 200 and the row stored under the key afterwards is the
    resource of the response, its version the stored version plus one. *)
Theorem PUT_increments_stored_version
    (env : Env) (db : gorm.Table meta.BaseResource)
    (c : internal.Context meta.BaseResource) (row obj : meta.BaseResource)
    (Hfits : props.fits 32 (internal.Param_id c) = true)
    (Hrow : List.find (gorm.has_key (props.numeral_value (internal.Param_id c)))
                      (gorm.rows db) = Some row)
    (Hnonzero : props.numeral_value (internal.Param_id c) <> 0%N)
    (Hbind : internal.ShouldBindJSON c row = inl obj)
    (Hkey : meta.GetID obj = meta.GetID row)
    (Hversion : meta.GetResourceVersion obj = meta.GetResourceVersion row)
    (Hvalid : meta.Validate obj = None) :
  let stored :=
    schema.on_update_base env
      (meta.set_ResourceVersion (wrap_int (meta.GetResourceVersion row + 1)) obj) in
  let '(db', response) := internal.RegisterResource.PUT env db c in
  response = internal.MkResponse 200 (internal.JSON_resource stored) /\
  internal.DAO.Get db' (props.numeral_value (internal.Param_id c)) = (Some stored, None) /\
  meta.GetResourceVersion stored = wrap_int (meta.GetResourceVersion row + 1).
Proof.
  intros stored.
  set (id := props.numeral_value (internal.Param_id c)) in *.
  pose proof (find_some _ _ Hrow) as [Hin Hk]. apply has_key_eq in Hk.
  cbn [gorm.primaryKey schema.BaseResource_Model] in Hk.
  unfold internal.RegisterResource.PUT.
  rewrite (ParseUint_fits 32 _ ltac:(lia) Hfits). fold id.
  unfold gorm.First. rewrite Hrow, Hbind.
  unfold internal.DAO.Transaction, gorm.Transaction, gorm.Save.
  cbn [gorm.primaryKey gorm.hookBeforeUpdate gorm.on_update gorm.replace
         schema.BaseResource_Model].
  assert (Hobj : meta.GetID obj = id) by congruence.
  destruct (meta.GetID obj =? 0)%N eqn:Hz; [apply N.eqb_eq in Hz; congruence|].
  rewrite BeforeUpdate_result, Hvalid, Hversion. fold stored.
  assert (Hstored : meta.GetID stored = id) by exact Hobj.
  rewrite Hstored.
  assert (Hex : existsb (gorm.has_key id) (gorm.rows db) = true).
  { apply existsb_exists. exists row. split; [exact Hin|]. now apply has_key_eq. }
  rewrite Hex, violation_none by reflexivity.
  split; [reflexivity|]. split; [|reflexivity].
  rewrite Get_find. cbn [gorm.rows].
  rewrite (find_map_keep
             (fun r => if gorm.has_key id r then schema.replace_base r stored else r)).
  - rewrite Hrow. cbn [option_map].
    assert (Hkr : gorm.has_key id row = true) by now apply has_key_eq.
    rewrite Hkr. unfold schema.replace_base. rewrite Hk, <- Hstored, set_ID_same.
    reflexivity.
  - intros r. destruct (gorm.has_key id r); reflexivity.
Qed.

(** X20 on a body that renames the kind of note 2, stored at version 5. *)
Lemma PUT_increments_stored_version_witness :
  let db := gorm.MkTable [sample.note 1 1; sample.note 2 5] 2 in
  let c : internal.Context meta.BaseResource :=
    internal.MkContext "2" ∅ (fun v => inl (meta.set_Kind "Memo" v)) in
  props.fits 32 (internal.Param_id c) = true /\
  List.find (gorm.has_key 2) (gorm.rows db) = Some (sample.note 2 5) /\
  let '(db', response) := internal.RegisterResource.PUT sample.env db c in
  internal.Code response = 200%Z /\
  List.map meta.GetResourceVersion (gorm.rows db') = [1%Z; 6%Z].
Proof.
  intros db c.
  pose proof (PUT_increments_stored_version sample.env db c (sample.note 2 5)
                (meta.set_Kind "Memo" (sample.note 2 5))
                eq_refl eq_refl ltac:(discriminate) eq_refl eq_refl eq_refl eq_refl) as H.
  cbv zeta in H.
  split; [reflexivity|]. split; [reflexivity|].
  destruct (internal.RegisterResource.PUT sample.env db c) as [db' response] eqn:Hput.
  destruct H as [Hresp _]. subst response.
  split; [reflexivity|].
  vm_compute in Hput. injection Hput as <-. reflexivity.
Defined.

(** *** [SetPassword], and what a created response shows *)

(** X21.  [SetPassword] stores what [bcrypt] answers and touches nothing
    else, or returns the error of [bcrypt] and touches nothing at all; a
    password it has set is left as it is by the create and update hooks. *)
Theorem SetPassword_then_hooks
    (GenerateFromPassword : Env -> string -> string + error)
    (hash_prefix :
       forall (env : Env) (password hashed : string),
         GenerateFromPassword env password = inl hashed -> HasPrefix hashed "$2a$" = true)
    (env env' : Env) (password : string) (u : apiv1.User) :
  match apiv1.SetPassword GenerateFromPassword env password u with
  | (u', None) =>
      GenerateFromPassword env password = inl (apiv1.Password u') /\
      apiv1.set_Password (apiv1.Password u) u' = u /\
      apiv1.Password (fst (apiv1.BeforeCreate GenerateFromPassword env' u'))
      = apiv1.Password u' /\
      apiv1.Password (fst (apiv1.BeforeUpdate GenerateFromPassword env' u'))
      = apiv1.Password u'
  | (u', Some err) => u' = u /\ GenerateFromPassword env password = inr err
  end.
Proof.
  unfold apiv1.SetPassword.
  destruct (GenerateFromPassword env password) as [h|e] eqn:Hg.
  - pose proof (hash_prefix env password h Hg) as Hp.
    split; [reflexivity|]. split; [now destruct u|].
    rewrite User_BeforeCreate_eq, User_BeforeUpdate_eq. cbv zeta.
    cbn [apiv1.Password apiv1.set_Password]. rewrite Hp. split; reflexivity.
  - split; reflexivity.
Qed.

(** X21 on the password [pw123456]. *)
Lemma SetPassword_then_hooks_witness :
  (forall (env : Env) (password hashed : string),
      apiv1.sample_bcrypt env password = inl hashed -> HasPrefix hashed "$2a$" = true) /\
  let u := sample.typed_body "alice" "alice@example.com" "" in
  let '(u', err) := apiv1.SetPassword apiv1.sample_bcrypt sample.env "pw123456" u in
  err = None /\
  apiv1.Password (fst (apiv1.BeforeCreate apiv1.sample_bcrypt sample.env u'))
  = "$2a$10$pw123456".
Proof.
  split; [exact sample_bcrypt_prefix|].
  intros u.
  pose proof (SetPassword_then_hooks apiv1.sample_bcrypt sample_bcrypt_prefix
                sample.env sample.env "pw123456" u) as H.
  destruct (apiv1.SetPassword apiv1.sample_bcrypt sample.env "pw123456" u) as [u' err] eqn:Hs.
  assert (Herr : err = None) by (vm_compute in Hs; congruence).
  subst err. destruct H as [_ [_ [Hc _]]].
  split; [reflexivity|]. rewrite Hc.
  vm_compute in Hs. injection Hs as <-. reflexivity.
Defined.

(** X22.  What the create handler of [Router] answers with is what it
    stored: when it answers 201, the body bound, the validator (if the
    type has one) accepted the value, and [Get] under the key of the
    resource in the response answers that very resource. *)
Theorem Created_response_is_stored {T : Type} {M : gorm.Model T}
    (Validator : option (T -> option error))
    (env : Env) (db db' : gorm.Table T) (c : internal.Context T) (r : T)
    (HM : laws.lawful M)
    (Hcreated : internal.Router.Create Validator env db c
                = (db', internal.MkResponse 201 (internal.JSON_resource r))) :
  (exists resource,
     internal.ShouldBindJSON c gorm.zero = inl resource /\
     match Validator with
     | Some Validate => Validate resource = None
     | None => True
     end) /\
  internal.DAO.Get db' (gorm.primaryKey r) = (Some r, None) /\
  internal.DAO.Get db (gorm.primaryKey r) = (None, Some ErrRecordNotFound).
Proof.
  unfold internal.Router.Create in Hcreated.
  destruct (internal.ShouldBindJSON c gorm.zero) as [resource|e]; [|discriminate].
  assert (Hv : match Validator with
               | Some Validate => Validate resource
               | None => None
               end = None).
  { destruct (match Validator with Some Validate => Validate resource | None => None end);
      [discriminate | reflexivity]. }
  rewrite Hv in Hcreated.
  destruct (internal.DAO.Create env db resource) as [[db1 r1] [e|]] eqn:Hc; [discriminate|].
  injection Hcreated as <- <-.
  destruct (Create_ok env db db1 resource r1 Hc) as [v' [_ Hins]].
  destruct (insert_ok HM env db db1 v' r1 Hins) as [Hfresh [Hrows _]].
  split; [|split].
  - exists resource. split; [reflexivity|]. destruct Validator; [exact Hv | exact I].
  - rewrite Get_find, Hrows. now rewrite find_place_same.
  - rewrite Get_find.
    destruct (List.find _ (gorm.rows db)) as [row|] eqn:Hf; [|reflexivity].
    apply find_some in Hf. destruct Hf as [Hin Hk].
    assert (Hex : existsb (gorm.has_key (gorm.primaryKey r1)) (gorm.rows db) = true)
      by (apply existsb_exists; eauto).
    congruence.
Qed.

(** X22 on the creation of a note through the handler. *)
Lemma Created_response_is_stored_witness :
  let c := sample.request "" sample.bare_note in
  let '(db', response) :=
    internal.Router.Create (Some meta.Validate) sample.env sample.three_notes c in
  laws.lawful schema.BaseResource_Model /\
  internal.Code response = 201%Z /\
  match internal.Body response with
  | internal.JSON_resource r => internal.DAO.Get db' (meta.GetID r) = (Some r, None)
  | _ => False
  end.
Proof.
  intros c.
  destruct (internal.Router.Create (Some meta.Validate) sample.env sample.three_notes c)
    as [db' [code body]] eqn:Hcreate.
  assert (Hcode : code = 201%Z) by (vm_compute in Hcreate; congruence).
  subst code.
  destruct body as [msg|r|items|l| |]; try (vm_compute in Hcreate; discriminate).
  pose proof (Created_response_is_stored (Some meta.Validate) sample.env sample.three_notes
                db' c r BaseResource_lawful Hcreate) as [_ [Hget _]].
  split; [exact BaseResource_lawful|]. split; [reflexivity | exact Hget].
Defined.
